(** * Vinayak Garments: the in-memory storage layer and its HTTP handlers

    A shallow embedding of [server/storage.ts] (class [MemStorage], the
    storage object the server exports), of the registration and login
    handlers of [registerRoutes], and of the stock route of
    [server/routes/inventory.ts].

    Conventions of the embedding.
    - JavaScript numbers that hold identifiers, stock counts and
      timestamps are integers of [Z]; the sum of a stock and a delta
      is the nearest double ([js_add] below).  A [Date] that the
      code itself builds, or that a row of a table holds, is its time
      value in milliseconds; the [Date] that a caller hands to
      [MemStorage.createPendingUser], which stores the object as it is,
      is a [JsDate] and may be an Invalid Date.
    - A JavaScript [Map] is an association list in insertion order
      (module [JsMap]); [Map.prototype.set] keeps the position of an
      existing key and appends a new one.
    - A column that may be [null] (or a property that may be absent) is
      an [option]; in a [Partial<T>] update an absent property is [None]
      and a present one is [Some v].
    - Storage methods run in the monad [Method S]: they read and write
      the store and either return or throw.  What a method wrote before
      it throws stays written.
    - [new Date()], [Date.now()] and [randomBytes] are inputs of the
      operations that call them.
    - The methods are [async], but each one runs to completion before
      the next request is served; the backup wrapper installed around
      the user-related methods only reads the storage. *)

From Stdlib Require Import ZArith List String Ascii Bool Lia DecimalString.
From Stdlib Require Import Permutation Sorted.
Import ListNotations.
Open Scope string_scope.
Open Scope list_scope.
Open Scope Z_scope.

(** ** Decidable equality on keys *)

Class EqDec (K : Type) := eq_dec : forall a b : K, {a = b} + {a <> b}.

#[export] Instance Z_EqDec : EqDec Z := Z.eq_dec.
#[export] Instance string_EqDec : EqDec string := string_dec.

(** ** JavaScript truthiness of the values the code tests *)

(** [if (x)] on [boolean | null | undefined]. *)
Definition truthy_bool (b : option bool) : bool :=
  match b with Some true => true | _ => false end.

(** [if (x)] on [number | null | undefined]: zero is falsy. *)
Definition truthy_num (n : option Z) : bool :=
  match n with Some v => negb (v =? 0) | None => false end.

(** [if (x)] on [string | null | undefined]: the empty string is falsy. *)
Definition truthy_str (s : option string) : bool :=
  match s with Some EmptyString => false | Some _ => true | None => false end.

(** [x || d] on a number. *)
Definition or_num (n : option Z) (d : Z) : Z :=
  match n with Some v => if v =? 0 then d else v | None => d end.

(** [x || d] on a string. *)
Definition or_str (s : option string) (d : string) : string :=
  match s with Some EmptyString => d | Some v => v | None => d end.

(** [x || null] on a string. *)
Definition or_null_str (s : option string) : option string :=
  if truthy_str s then s else None.

(** [x || null] on a boolean. *)
Definition or_null_bool (b : option bool) : option bool :=
  if truthy_bool b then b else None.

(** [x ?? d]. *)
Definition nullish {A : Type} (x : option A) (d : A) : A :=
  match x with Some v => v | None => d end.

(** One property of [{...old, ...updates}]. *)
Definition spread {A : Type} (old : A) (upd : option A) : A :=
  match upd with Some v => v | None => old end.

(** ** Sums of JavaScript numbers

    A number that holds an integer is modelled by that integer.  The
    integers of magnitude up to [2^53] are doubles; a sum of two numbers
    is the double nearest to the exact sum. *)

(** [Number.MAX_SAFE_INTEGER + 1]. *)
Definition two53 : Z := 2 ^ 53.

(** The double nearest to an integer, a tie going to the even
    significand.  From the magnitude [2^1024 - 2^970] on the nearest
    double is [Infinity], which the model does not hold. *)
Definition roundDouble (n : Z) : Z :=
  let a := Z.abs n in
  if a <=? two53 then n
  else
    let e := Z.log2 a - 52 in
    let q := a / 2 ^ e in
    let r := a mod 2 ^ e in
    let half := 2 ^ (e - 1) in
    let up := (half <? r) || ((r =? half) && Z.odd q) in
    Z.sgn n * ((if up then q + 1 else q) * 2 ^ e).

(** [a + b]: adding zero returns the other operand; any other sum is
    rounded to the nearest double. *)
Definition js_add (a b : Z) : Z :=
  if b =? 0 then a else if a =? 0 then b else roundDouble (a + b).

(** A value that fits an [integer] column of the database (32 bits). *)
Definition int4 (v : Z) : bool := (- 2 ^ 31 <=? v) && (v <=? 2 ^ 31 - 1).

(** ** Insertion-ordered maps *)

Module JsMap.
Section Defs.
Context {K V : Type} `{EqDec K}.

Definition t := list (K * V).

Definition empty : t := [].

Fixpoint get (k : K) (m : t) : option V :=
  match m with
  | [] => None
  | (k', v) :: rest => if eq_dec k k' then Some v else get k rest
  end.

Definition has (k : K) (m : t) : bool :=
  match get k m with Some _ => true | None => false end.

Fixpoint set (k : K) (v : V) (m : t) : t :=
  match m with
  | [] => [(k, v)]
  | (k', v') :: rest =>
      if eq_dec k k' then (k', v) :: rest else (k', v') :: set k v rest
  end.

Definition delete (k : K) (m : t) : t :=
  filter (fun e => if eq_dec k (fst e) then false else true) m.

Definition keys (m : t) : list K := map fst m.

Definition values (m : t) : list V := map snd m.

End Defs.
Arguments t : clear implicits.
End JsMap.

(** ** The rows of [shared/schema.ts] *)

(** [typeof users.$inferSelect]. *)
Module User.
Record t := mk {
  id : Z;
  email : string;
  password : string;
  displayName : option string;
  mobileNumber : option string;
  resetToken : option string;
  resetTokenExpiry : option Z;
  verificationToken : option string;
  verificationTokenExpiry : option Z;
  isVerified : option bool;
  isAdmin : option bool;
  isSuspended : option bool;
  createdAt : option Z
}.
End User.

(** The argument of [createUser]. *)
Module UserData.
Record t := mk {
  email : string;
  password : string;
  mobileNumber : option string;
  isAdmin : option bool;
  isSuspended : option bool;
  isVerified : option bool;
  verificationToken : option string;
  verificationTokenExpiry : option Z;
  createdAt : option Z
}.
End UserData.

(** [Partial<User>]. *)
Module UserUpdates.
Record t := mk {
  id : option Z;
  email : option string;
  password : option string;
  displayName : option (option string);
  mobileNumber : option (option string);
  resetToken : option (option string);
  resetTokenExpiry : option (option Z);
  verificationToken : option (option string);
  verificationTokenExpiry : option (option Z);
  isVerified : option (option bool);
  isAdmin : option (option bool);
  isSuspended : option (option bool);
  createdAt : option (option Z)
}.

Definition none : t :=
  mk None None None None None None None None None None None None None.
End UserUpdates.

(** A [Date] object that a caller hands over: [new Date(time)], or an
    Invalid Date, whose time value is [NaN]. *)
Inductive JsDate :=
| DateAt (time : Z)
| InvalidDate.

(** The value type of [MemStorage.pendingUsers]; the expiry is the [Date]
    object that [createPendingUser] was given. *)
Module PendingUser.
Record t := mk {
  email : string;
  verificationToken : option string;
  verificationTokenExpiry : option JsDate;
  mobileNumber : option string
}.
End PendingUser.

(** [typeof products.$inferSelect]. *)
Module Product.
Record t := mk {
  id : Z;
  name : string;
  description : option string;
  purchase_price : option Z;
  price : Z;
  imageUrl : string;
  category : string;
  featured : option bool;
  stock : Z;
  minStock : option Z;
  tax : option Z;
  unit : option string;
  barcode : option string;
  createdAt : option Z
}.
End Product.

(** [InsertProduct]. *)
Module InsertProduct.
Record t := mk {
  name : string;
  description : option string;
  purchase_price : option Z;
  price : Z;
  imageUrl : string;
  category : string;
  featured : option bool;
  stock : option Z;
  minStock : option Z;
  tax : option Z;
  unit : option string;
  barcode : option string
}.
End InsertProduct.

(** [Partial<Product>]. *)
Module ProductUpdates.
Record t := mk {
  id : option Z;
  name : option string;
  description : option (option string);
  purchase_price : option (option Z);
  price : option Z;
  imageUrl : option string;
  category : option string;
  featured : option (option bool);
  stock : option Z;
  minStock : option (option Z);
  tax : option (option Z);
  unit : option (option string);
  barcode : option (option string);
  createdAt : option (option Z)
}.

Definition none : t :=
  mk None None None None None None None None None None None None None None.

(** The literal [{ stock: newStock }]. *)
Definition only_stock (newStock : Z) : t :=
  mk None None None None None None None None (Some newStock)
     None None None None None.
End ProductUpdates.

(** [typeof inventoryLogs.$inferSelect]. *)
Module InventoryLog.
Record t := mk {
  id : Z;
  productId : Z;
  quantity : Z;
  type : string;
  note : option string;
  timestamp : option Z
}.
End InventoryLog.

(** [InsertInventoryLog]. *)
Module InsertInventoryLog.
Record t := mk {
  productId : Z;
  quantity : Z;
  type : string;
  note : option string
}.
End InsertInventoryLog.

(** [typeof contactMessages.$inferSelect]. *)
Module ContactMessage.
Record t := mk {
  id : Z;
  name : string;
  email : string;
  message : string
}.
End ContactMessage.

(** [InsertContactMessage]. *)
Module InsertContactMessage.
Record t := mk {
  name : string;
  email : string;
  message : string
}.
End InsertContactMessage.

(** [typeof userPreferences.$inferSelect]. *)
Module UserPreference.
Record t := mk {
  id : Z;
  userId : Z;
  emailNotifications : option bool;
  orderUpdates : option bool;
  promotions : option bool;
  accountAlerts : option bool;
  darkMode : option bool;
  language : option string;
  currency : option string
}.
End UserPreference.

(** [InsertUserPreference]. *)
Module InsertUserPreference.
Record t := mk {
  userId : Z;
  emailNotifications : option bool;
  orderUpdates : option bool;
  promotions : option bool;
  accountAlerts : option bool;
  darkMode : option bool;
  language : option string;
  currency : option string
}.
End InsertUserPreference.

(** [Partial<UserPreference>]. *)
Module PreferenceUpdates.
Record t := mk {
  id : option Z;
  userId : option Z;
  emailNotifications : option (option bool);
  orderUpdates : option (option bool);
  promotions : option (option bool);
  accountAlerts : option (option bool);
  darkMode : option (option bool);
  language : option (option string);
  currency : option (option string)
}.
End PreferenceUpdates.

(** [typeof userAddresses.$inferSelect]. *)
Module UserAddress.
Record t := mk {
  id : Z;
  userId : Z;
  addressLine1 : string;
  addressLine2 : option string;
  city : string;
  state : string;
  postalCode : string;
  country : option string;
  isPrimary : option bool;
  label : option string;
  phone : option string;
  createdAt : option Z
}.

(** The assignment [addr.isPrimary = false]. *)
Definition clearPrimary (a : t) : t :=
  mk (id a) (userId a) (addressLine1 a) (addressLine2 a) (city a) (state a)
     (postalCode a) (country a) (Some false) (label a) (phone a)
     (createdAt a).
End UserAddress.

(** [InsertUserAddress]. *)
Module InsertUserAddress.
Record t := mk {
  userId : Z;
  addressLine1 : string;
  addressLine2 : option string;
  city : string;
  state : string;
  postalCode : string;
  country : option string;
  isPrimary : option bool;
  label : option string;
  phone : option string
}.
End InsertUserAddress.

(** [Partial<UserAddress>]. *)
Module AddressUpdates.
Record t := mk {
  id : option Z;
  userId : option Z;
  addressLine1 : option string;
  addressLine2 : option (option string);
  city : option string;
  state : option string;
  postalCode : option string;
  country : option (option string);
  isPrimary : option (option bool);
  label : option (option string);
  phone : option (option string);
  createdAt : option (option Z)
}.

Definition none : t :=
  mk None None None None None None None None None None None None.
End AddressUpdates.

(** ** The storage object *)

(** [MemStorage.currentIds]. *)
Module CurrentIds.
Record t := mk {
  user : Z;
  product : Z;
  message : Z;
  preference : Z;
  address : Z
}.
End CurrentIds.

(** The fields of a [MemStorage] instance. *)
Record MemStorage := mkMemStorage {
  users : JsMap.t Z User.t;
  pendingUsers : JsMap.t string PendingUser.t;
  products : JsMap.t Z Product.t;
  messages : JsMap.t Z ContactMessage.t;
  userPrefs : JsMap.t Z UserPreference.t;
  addresses : JsMap.t Z UserAddress.t;
  currentIds : CurrentIds.t;
  inventoryLogs : JsMap.t Z InventoryLog.t;
  currentInventoryLogId : Z
}.

(** Field writes, [this.f = ...]. *)
Definition with_users (v : JsMap.t Z User.t) (s : MemStorage) : MemStorage :=
  mkMemStorage v (pendingUsers s) (products s) (messages s) (userPrefs s)
    (addresses s) (currentIds s) (inventoryLogs s) (currentInventoryLogId s).

Definition with_pendingUsers (v : JsMap.t string PendingUser.t)
    (s : MemStorage) : MemStorage :=
  mkMemStorage (users s) v (products s) (messages s) (userPrefs s)
    (addresses s) (currentIds s) (inventoryLogs s) (currentInventoryLogId s).

Definition with_products (v : JsMap.t Z Product.t) (s : MemStorage) : MemStorage :=
  mkMemStorage (users s) (pendingUsers s) v (messages s) (userPrefs s)
    (addresses s) (currentIds s) (inventoryLogs s) (currentInventoryLogId s).

Definition with_messages (v : JsMap.t Z ContactMessage.t)
    (s : MemStorage) : MemStorage :=
  mkMemStorage (users s) (pendingUsers s) (products s) v (userPrefs s)
    (addresses s) (currentIds s) (inventoryLogs s) (currentInventoryLogId s).

Definition with_userPrefs (v : JsMap.t Z UserPreference.t)
    (s : MemStorage) : MemStorage :=
  mkMemStorage (users s) (pendingUsers s) (products s) (messages s) v
    (addresses s) (currentIds s) (inventoryLogs s) (currentInventoryLogId s).

Definition with_addresses (v : JsMap.t Z UserAddress.t)
    (s : MemStorage) : MemStorage :=
  mkMemStorage (users s) (pendingUsers s) (products s) (messages s)
    (userPrefs s) v (currentIds s) (inventoryLogs s) (currentInventoryLogId s).

Definition with_currentIds (v : CurrentIds.t) (s : MemStorage) : MemStorage :=
  mkMemStorage (users s) (pendingUsers s) (products s) (messages s)
    (userPrefs s) (addresses s) v (inventoryLogs s) (currentInventoryLogId s).

Definition with_inventoryLogs (v : JsMap.t Z InventoryLog.t)
    (s : MemStorage) : MemStorage :=
  mkMemStorage (users s) (pendingUsers s) (products s) (messages s)
    (userPrefs s) (addresses s) (currentIds s) v (currentInventoryLogId s).

Definition with_currentInventoryLogId (v : Z) (s : MemStorage) : MemStorage :=
  mkMemStorage (users s) (pendingUsers s) (products s) (messages s)
    (userPrefs s) (addresses s) (currentIds s) (inventoryLogs s) v.

(** ** The monad of the storage methods *)

(** [new Error(message)]. *)
Inductive Error := MkError (message : string).

Inductive Result (A : Type) :=
| Ok (a : A)
| Throw (e : Error).
Arguments Ok {A} a.
Arguments Throw {A} e.

(** A method over a store of type [S]: it reads and writes the store and
    returns or throws. *)
Definition Method (S A : Type) : Type := S -> Result A * S.

(** The methods of [MemStorage]. *)
Abbreviation M := (Method MemStorage).

Definition ret {S A : Type} (a : A) : Method S A := fun s => (Ok a, s).

Definition bind {S A B : Type} (m : Method S A) (k : A -> Method S B)
    : Method S B :=
  fun s =>
    match m s with
    | (Ok a, s') => k a s'
    | (Throw e, s') => (Throw e, s')
    end.

Definition throw {S A : Type} (message : string) : Method S A :=
  fun s => (Throw (MkError message), s).

Definition gets {S A : Type} (f : S -> A) : Method S A :=
  fun s => (Ok (f s), s).

Definition modify {S : Type} (f : S -> S) : Method S unit :=
  fun s => (Ok tt, f s).

Declare Scope storage_scope.
Delimit Scope storage_scope with storage.
Notation "x <- c ;; k" := (bind c (fun x => k))
  (at level 100, c at next level, right associativity) : storage_scope.
Notation "c ;;; k" := (bind c (fun _ => k))
  (at level 100, right associativity) : storage_scope.
Open Scope storage_scope.

(** [list.forEach(body)]. *)
Fixpoint forEach {S A : Type} (l : list A) (body : A -> Method S unit)
    : Method S unit :=
  match l with
  | [] => ret tt
  | x :: rest => body x ;;; forEach rest body
  end.

(** The state a method leaves and the value it returns. *)
Definition state_after {S A : Type} (m : Method S A) (s : S) : S :=
  snd (m s).

Definition result_of {S A : Type} (m : Method S A) (s : S) : Result A :=
  fst (m s).

(** ** [MemStorage]: users and pending registrations *)

Definition ADMIN_EMAIL : string := "vinayak.dhiman.012@gmail.com".

(** [this.currentIds.user++] and its siblings. *)
Definition next_user_id : M Z :=
  id <- gets (fun s => CurrentIds.user (currentIds s)) ;;
  modify (fun s =>
    let c := currentIds s in
    with_currentIds
      (CurrentIds.mk (id + 1) (CurrentIds.product c) (CurrentIds.message c)
         (CurrentIds.preference c) (CurrentIds.address c)) s) ;;;
  ret id.

Definition next_product_id : M Z :=
  id <- gets (fun s => CurrentIds.product (currentIds s)) ;;
  modify (fun s =>
    let c := currentIds s in
    with_currentIds
      (CurrentIds.mk (CurrentIds.user c) (id + 1) (CurrentIds.message c)
         (CurrentIds.preference c) (CurrentIds.address c)) s) ;;;
  ret id.

Definition next_message_id : M Z :=
  id <- gets (fun s => CurrentIds.message (currentIds s)) ;;
  modify (fun s =>
    let c := currentIds s in
    with_currentIds
      (CurrentIds.mk (CurrentIds.user c) (CurrentIds.product c) (id + 1)
         (CurrentIds.preference c) (CurrentIds.address c)) s) ;;;
  ret id.

Definition next_preference_id : M Z :=
  id <- gets (fun s => CurrentIds.preference (currentIds s)) ;;
  modify (fun s =>
    let c := currentIds s in
    with_currentIds
      (CurrentIds.mk (CurrentIds.user c) (CurrentIds.product c)
         (CurrentIds.message c) (id + 1) (CurrentIds.address c)) s) ;;;
  ret id.

Definition next_address_id : M Z :=
  id <- gets (fun s => CurrentIds.address (currentIds s)) ;;
  modify (fun s =>
    let c := currentIds s in
    with_currentIds
      (CurrentIds.mk (CurrentIds.user c) (CurrentIds.product c)
         (CurrentIds.message c) (CurrentIds.preference c) (id + 1)) s) ;;;
  ret id.

(** [createUser(userData)]; [now] is the value of [new Date()]. *)
Definition createUser (now : Z) (userData : UserData.t) : M User.t :=
  id <- next_user_id ;;
  let isAdmin :=
    match UserData.isAdmin userData with
    | Some b => b
    | None => String.eqb (UserData.email userData) ADMIN_EMAIL
    end in
  let user :=
    User.mk id
      (UserData.email userData)
      (UserData.password userData)
      None
      (Some (or_str (UserData.mobileNumber userData) ""))
      None
      None
      (or_null_str (UserData.verificationToken userData))
      (UserData.verificationTokenExpiry userData)
      (Some (nullish (UserData.isVerified userData) false))
      (Some isAdmin)
      (Some (nullish (UserData.isSuspended userData) false))
      (Some (nullish (UserData.createdAt userData) now)) in
  modify (fun s => with_users (JsMap.set id user (users s)) s) ;;;
  ret user.

(** [getUserByEmail(email)]: the first user, in insertion order, with
    that email. *)
Definition getUserByEmail (email : string) : M (option User.t) :=
  gets (fun s =>
    find (fun user => String.eqb (User.email user) email)
         (JsMap.values (users s))).

(** [createPendingUser(email, verificationToken, tokenExpiry)]. *)
Definition createPendingUser (email verificationToken : string)
    (tokenExpiry : JsDate) : M PendingUser.t :=
  existingUser <- getUserByEmail email ;;
  match existingUser with
  | Some _ => throw "User with this email already exists"
  | None =>
      let pendingUser :=
        PendingUser.mk email (Some verificationToken) (Some tokenExpiry) None in
      modify (fun s =>
        with_pendingUsers (JsMap.set email pendingUser (pendingUsers s)) s) ;;;
      ret pendingUser
  end.

(** [getPendingUserByEmail(email)]. *)
Definition getPendingUserByEmail (email : string) : M (option PendingUser.t) :=
  gets (fun s => JsMap.get email (pendingUsers s)).

(** The comparison [token !== stored] of a string with
    [string | null]. *)
Definition str_neq (stored : option string) (token : string) : bool :=
  match stored with
  | Some t => negb (String.eqb t token)
  | None => true
  end.

(** The comparison [new Date() > expiry] on [Date | null]: [null]
    converts to 0 and an Invalid Date to [NaN], and a comparison with
    [NaN] is false. *)
Definition date_gt (now : Z) (expiry : option JsDate) : bool :=
  match expiry with
  | Some (DateAt time) => now >? time
  | Some InvalidDate => false
  | None => now >? 0
  end.

(** [!d] on [Date | null]: a [Date] object is truthy, also an invalid
    one. *)
Definition falsy_date {D : Type} (d : option D) : bool :=
  match d with Some _ => false | None => true end.

(** [verifyEmailToken(email, token)]; [now] is the value of
    [new Date()]. *)
Definition verifyEmailToken (now : Z) (email token : string) : M bool :=
  pendingUser <- getPendingUserByEmail email ;;
  match pendingUser with
  | None => ret false
  | Some pendingUser =>
      if negb (truthy_str (PendingUser.verificationToken pendingUser))
         || falsy_date (PendingUser.verificationTokenExpiry pendingUser)
      then ret false
      else if str_neq (PendingUser.verificationToken pendingUser) token
      then ret false
      else if date_gt now (PendingUser.verificationTokenExpiry pendingUser)
      then ret false
      else ret true
  end.

(** [completeUserRegistration(email, password)]. *)
Definition completeUserRegistration (now : Z) (email password : string)
    : M User.t :=
  pendingUser <- getPendingUserByEmail email ;;
  match pendingUser with
  | None => throw "No pending registration found for this email"
  | Some _ =>
      user <- createUser now
                (UserData.mk email password None None None (Some true)
                   None None None) ;;
      modify (fun s =>
        with_pendingUsers (JsMap.delete email (pendingUsers s)) s) ;;;
      ret user
  end.

(** [{ ...user, ...updates }]. *)
Definition mergeUser (user : User.t) (updates : UserUpdates.t) : User.t :=
  User.mk
    (spread (User.id user) (UserUpdates.id updates))
    (spread (User.email user) (UserUpdates.email updates))
    (spread (User.password user) (UserUpdates.password updates))
    (spread (User.displayName user) (UserUpdates.displayName updates))
    (spread (User.mobileNumber user) (UserUpdates.mobileNumber updates))
    (spread (User.resetToken user) (UserUpdates.resetToken updates))
    (spread (User.resetTokenExpiry user) (UserUpdates.resetTokenExpiry updates))
    (spread (User.verificationToken user)
       (UserUpdates.verificationToken updates))
    (spread (User.verificationTokenExpiry user)
       (UserUpdates.verificationTokenExpiry updates))
    (spread (User.isVerified user) (UserUpdates.isVerified updates))
    (spread (User.isAdmin user) (UserUpdates.isAdmin updates))
    (spread (User.isSuspended user) (UserUpdates.isSuspended updates))
    (spread (User.createdAt user) (UserUpdates.createdAt updates)).

(** [updateUser(id, updates)]. *)
Definition updateUser (id : Z) (updates : UserUpdates.t) : M User.t :=
  user <- gets (fun s => JsMap.get id (users s)) ;;
  match user with
  | None => throw "User not found"
  | Some user =>
      let updatedUser := mergeUser user updates in
      modify (fun s => with_users (JsMap.set id updatedUser (users s)) s) ;;;
      ret updatedUser
  end.

(** [toggleUserSuspension(id)]. *)
Definition toggleUserSuspension (id : Z) : M User.t :=
  user <- gets (fun s => JsMap.get id (users s)) ;;
  match user with
  | None => throw "User not found"
  | Some user =>
      updateUser id
        (UserUpdates.mk None None None None None None None None None None None
           (Some (Some (negb (truthy_bool (User.isSuspended user))))) None)
  end.

(** [toggleUserAdmin(id)]. *)
Definition toggleUserAdmin (id : Z) : M User.t :=
  user <- gets (fun s => JsMap.get id (users s)) ;;
  match user with
  | None => throw "User not found"
  | Some user =>
      updateUser id
        (UserUpdates.mk None None None None None None None None None None
           (Some (Some (negb (truthy_bool (User.isAdmin user))))) None None)
  end.

(** ** [MemStorage]: products *)

(** [createProduct(product)]; [now] is the value of [new Date()]. *)
Definition createProduct (now : Z) (product : InsertProduct.t) : M Product.t :=
  id <- next_product_id ;;
  let newProduct :=
    Product.mk id
      (InsertProduct.name product)
      (InsertProduct.description product)
      (InsertProduct.purchase_price product)
      (InsertProduct.price product)
      (InsertProduct.imageUrl product)
      (InsertProduct.category product)
      (Some (nullish (InsertProduct.featured product) false))
      (nullish (InsertProduct.stock product) 0)
      (Some (nullish (InsertProduct.minStock product) 5))
      (InsertProduct.tax product)
      (InsertProduct.unit product)
      (InsertProduct.barcode product)
      (Some now) in
  modify (fun s => with_products (JsMap.set id newProduct (products s)) s) ;;;
  ret newProduct.

(** [{ ...product, ...updates }]. *)
Definition mergeProduct (product : Product.t) (updates : ProductUpdates.t)
    : Product.t :=
  Product.mk
    (spread (Product.id product) (ProductUpdates.id updates))
    (spread (Product.name product) (ProductUpdates.name updates))
    (spread (Product.description product) (ProductUpdates.description updates))
    (spread (Product.purchase_price product)
       (ProductUpdates.purchase_price updates))
    (spread (Product.price product) (ProductUpdates.price updates))
    (spread (Product.imageUrl product) (ProductUpdates.imageUrl updates))
    (spread (Product.category product) (ProductUpdates.category updates))
    (spread (Product.featured product) (ProductUpdates.featured updates))
    (spread (Product.stock product) (ProductUpdates.stock updates))
    (spread (Product.minStock product) (ProductUpdates.minStock updates))
    (spread (Product.tax product) (ProductUpdates.tax updates))
    (spread (Product.unit product) (ProductUpdates.unit updates))
    (spread (Product.barcode product) (ProductUpdates.barcode updates))
    (spread (Product.createdAt product) (ProductUpdates.createdAt updates)).

(** [updateProduct(id, updates)]. *)
Definition updateProduct (id : Z) (updates : ProductUpdates.t) : M Product.t :=
  product <- gets (fun s => JsMap.get id (products s)) ;;
  match product with
  | None => throw "Product not found"
  | Some product =>
      let updatedProduct := mergeProduct product updates in
      modify (fun s =>
        with_products (JsMap.set id updatedProduct (products s)) s) ;;;
      ret updatedProduct
  end.

(** [deleteProduct(id)]. *)
Definition deleteProduct (id : Z) : M bool :=
  present <- gets (fun s => JsMap.has id (products s)) ;;
  if negb present then ret false
  else
    modify (fun s => with_products (JsMap.delete id (products s)) s) ;;;
    ret true.

(** ** [MemStorage]: contact messages and preferences *)

(** [createContactMessage(message)]. *)
Definition createContactMessage (message : InsertContactMessage.t)
    : M ContactMessage.t :=
  id <- next_message_id ;;
  let newMessage :=
    ContactMessage.mk id
      (InsertContactMessage.name message)
      (InsertContactMessage.email message)
      (InsertContactMessage.message message) in
  modify (fun s => with_messages (JsMap.set id newMessage (messages s)) s) ;;;
  ret newMessage.

(** [createUserPreferences(data)]. *)
Definition createUserPreferences (data : InsertUserPreference.t)
    : M UserPreference.t :=
  id <- next_preference_id ;;
  let newPrefs :=
    UserPreference.mk id
      (InsertUserPreference.userId data)
      (Some (nullish (InsertUserPreference.emailNotifications data) true))
      (Some (nullish (InsertUserPreference.orderUpdates data) true))
      (Some (nullish (InsertUserPreference.promotions data) false))
      (Some (nullish (InsertUserPreference.accountAlerts data) true))
      (Some (nullish (InsertUserPreference.darkMode data) false))
      (Some (nullish (InsertUserPreference.language data) "en"))
      (Some (nullish (InsertUserPreference.currency data) "inr")) in
  modify (fun s =>
    with_userPrefs
      (JsMap.set (InsertUserPreference.userId data) newPrefs (userPrefs s)) s) ;;;
  ret newPrefs.

(** [{ ...prefs, ...updates }]. *)
Definition mergePreference (prefs : UserPreference.t)
    (updates : PreferenceUpdates.t) : UserPreference.t :=
  UserPreference.mk
    (spread (UserPreference.id prefs) (PreferenceUpdates.id updates))
    (spread (UserPreference.userId prefs) (PreferenceUpdates.userId updates))
    (spread (UserPreference.emailNotifications prefs)
       (PreferenceUpdates.emailNotifications updates))
    (spread (UserPreference.orderUpdates prefs)
       (PreferenceUpdates.orderUpdates updates))
    (spread (UserPreference.promotions prefs)
       (PreferenceUpdates.promotions updates))
    (spread (UserPreference.accountAlerts prefs)
       (PreferenceUpdates.accountAlerts updates))
    (spread (UserPreference.darkMode prefs)
       (PreferenceUpdates.darkMode updates))
    (spread (UserPreference.language prefs)
       (PreferenceUpdates.language updates))
    (spread (UserPreference.currency prefs)
       (PreferenceUpdates.currency updates)).

(** [updateUserPreferences(userId, updates)]. *)
Definition updateUserPreferences (userId : Z) (updates : PreferenceUpdates.t)
    : M UserPreference.t :=
  prefs <- gets (fun s => JsMap.get userId (userPrefs s)) ;;
  match prefs with
  | None =>
      createUserPreferences
        (InsertUserPreference.mk
           (spread userId (PreferenceUpdates.userId updates))
           (spread (Some true) (PreferenceUpdates.emailNotifications updates))
           (spread (Some true) (PreferenceUpdates.orderUpdates updates))
           (spread (Some false) (PreferenceUpdates.promotions updates))
           (spread (Some true) (PreferenceUpdates.accountAlerts updates))
           (spread (Some false) (PreferenceUpdates.darkMode updates))
           (spread (Some "en") (PreferenceUpdates.language updates))
           (spread (Some "inr") (PreferenceUpdates.currency updates)))
  | Some prefs =>
      let updatedPrefs := mergePreference prefs updates in
      modify (fun s =>
        with_userPrefs (JsMap.set userId updatedPrefs (userPrefs s)) s) ;;;
      ret updatedPrefs
  end.

(** ** [MemStorage]: addresses

    The address objects are mutated in place ([addr.isPrimary = false])
    and written back under [addr.id].  Every object the storage creates
    is stored under its own [id], so the write at key [addr.id] is the
    in-place assignment; [addresses_keyed] below states that agreement
    and the theorems about addresses assume it. *)

(** The body of the two [forEach] loops. *)
Definition clearPrimaryOf (addr : UserAddress.t) : M unit :=
  modify (fun s =>
    with_addresses
      (JsMap.set (UserAddress.id addr) (UserAddress.clearPrimary addr)
         (addresses s)) s).

(** [createUserAddress(data)]; [now] is the value of [new Date()]. *)
Definition createUserAddress (now : Z) (data : InsertUserAddress.t)
    : M UserAddress.t :=
  id <- next_address_id ;;
  (if truthy_bool (InsertUserAddress.isPrimary data) then
     snapshot <- gets (fun s => JsMap.values (addresses s)) ;;
     forEach
       (filter (fun addr =>
          UserAddress.userId addr =? InsertUserAddress.userId data) snapshot)
       clearPrimaryOf
   else ret tt) ;;;
  let newAddress :=
    UserAddress.mk id
      (InsertUserAddress.userId data)
      (InsertUserAddress.addressLine1 data)
      (or_null_str (InsertUserAddress.addressLine2 data))
      (InsertUserAddress.city data)
      (InsertUserAddress.state data)
      (InsertUserAddress.postalCode data)
      (or_null_str (InsertUserAddress.country data))
      (or_null_bool (InsertUserAddress.isPrimary data))
      (or_null_str (InsertUserAddress.label data))
      (or_null_str (InsertUserAddress.phone data))
      (Some now) in
  modify (fun s => with_addresses (JsMap.set id newAddress (addresses s)) s) ;;;
  ret newAddress.

(** [{ ...address, ...updates }]. *)
Definition mergeAddress (address : UserAddress.t) (updates : AddressUpdates.t)
    : UserAddress.t :=
  UserAddress.mk
    (spread (UserAddress.id address) (AddressUpdates.id updates))
    (spread (UserAddress.userId address) (AddressUpdates.userId updates))
    (spread (UserAddress.addressLine1 address)
       (AddressUpdates.addressLine1 updates))
    (spread (UserAddress.addressLine2 address)
       (AddressUpdates.addressLine2 updates))
    (spread (UserAddress.city address) (AddressUpdates.city updates))
    (spread (UserAddress.state address) (AddressUpdates.state updates))
    (spread (UserAddress.postalCode address)
       (AddressUpdates.postalCode updates))
    (spread (UserAddress.country address) (AddressUpdates.country updates))
    (spread (UserAddress.isPrimary address) (AddressUpdates.isPrimary updates))
    (spread (UserAddress.label address) (AddressUpdates.label updates))
    (spread (UserAddress.phone address) (AddressUpdates.phone updates))
    (spread (UserAddress.createdAt address)
       (AddressUpdates.createdAt updates)).

(** [if (updates.isPrimary)]. *)
Definition truthy_update (b : option (option bool)) : bool :=
  match b with Some v => truthy_bool v | None => false end.

(** [updateUserAddress(id, userId, updates)]. *)
Definition updateUserAddress (id userId : Z) (updates : AddressUpdates.t)
    : M UserAddress.t :=
  address <- gets (fun s =>
    find (fun addr =>
      (UserAddress.id addr =? id) && (UserAddress.userId addr =? userId))
      (JsMap.values (addresses s))) ;;
  match address with
  | None => throw "Address not found or doesn't belong to user"
  | Some address =>
      (if truthy_update (AddressUpdates.isPrimary updates) then
         snapshot <- gets (fun s => JsMap.values (addresses s)) ;;
         forEach
           (filter (fun addr =>
              (UserAddress.userId addr =? userId)
              && negb (UserAddress.id addr =? id)) snapshot)
           clearPrimaryOf
       else ret tt) ;;;
      let updatedAddress := mergeAddress address updates in
      modify (fun s =>
        with_addresses (JsMap.set id updatedAddress (addresses s)) s) ;;;
      ret updatedAddress
  end.

(** [deleteUserAddress(id, userId)]. *)
Definition deleteUserAddress (id userId : Z) : M bool :=
  address <- gets (fun s =>
    find (fun addr =>
      (UserAddress.id addr =? id) && (UserAddress.userId addr =? userId))
      (JsMap.values (addresses s))) ;;
  match address with
  | None => ret false
  | Some _ =>
      present <- gets (fun s => JsMap.has id (addresses s)) ;;
      modify (fun s => with_addresses (JsMap.delete id (addresses s)) s) ;;;
      ret present
  end.

(** ** [MemStorage]: inventory *)

(** [createInventoryLog(log)]; [now] is the value of [new Date()]. *)
Definition createInventoryLog (now : Z) (log : InsertInventoryLog.t)
    : M InventoryLog.t :=
  id <- gets currentInventoryLogId ;;
  modify (with_currentInventoryLogId (id + 1)) ;;;
  let newLog :=
    InventoryLog.mk id
      (InsertInventoryLog.productId log)
      (InsertInventoryLog.quantity log)
      (InsertInventoryLog.type log)
      (or_null_str (InsertInventoryLog.note log))
      (Some now) in
  modify (fun s =>
    with_inventoryLogs (JsMap.set id newLog (inventoryLogs s)) s) ;;;
  ret newLog.

(** An integer inside a template literal. *)
Definition show_nat (n : Z) : string :=
  NilZero.string_of_uint (N.to_uint (Z.to_N n)).

(** The template literal of the log note.  The amount is printed in
    decimal digits, as the template literal does below [10^21]. *)
Definition stock_note (quantityChange : Z) : string :=
  String.append "Stock updated by "
    (String.append (if quantityChange >? 0 then "adding" else "removing")
       (String.append " "
          (String.append (show_nat (Z.abs quantityChange)) " units"))).

(** [updateProductStock(productId, quantityChange)]. *)
Definition updateProductStock (now : Z) (productId quantityChange : Z)
    : M Product.t :=
  product <- gets (fun s => JsMap.get productId (products s)) ;;
  match product with
  | None => throw "Product not found"
  | Some product =>
      let newStock :=
        Z.max 0 (js_add (Product.stock product) quantityChange) in
      updatedProduct <-
        updateProduct productId (ProductUpdates.only_stock newStock) ;;
      createInventoryLog now
        (InsertInventoryLog.mk productId quantityChange
           (if quantityChange >? 0 then "add" else "remove")
           (Some (stock_note quantityChange))) ;;;
      ret updatedProduct
  end.

(** [Array.prototype.sort(compare)] is a stable sort; with a comparator
    that orders by one numeric key its result is the stable insertion
    sort. *)
Fixpoint insertBy {A : Type} (compare : A -> A -> Z) (x : A) (l : list A)
    : list A :=
  match l with
  | [] => [x]
  | y :: rest =>
      if compare x y <=? 0 then x :: y :: rest
      else y :: insertBy compare x rest
  end.

Definition sortBy {A : Type} (compare : A -> A -> Z) (l : list A) : list A :=
  fold_right (insertBy compare) [] l.

(** The filter callback of [getLowStockProducts]. *)
Definition isLowStock (threshold : option Z) (product : Product.t) : bool :=
  if truthy_num threshold
  then Product.stock product <=? nullish threshold 0
  else Product.stock product <=? or_num (Product.minStock product) 5.

(** [getLowStockProducts(threshold?)]. *)
Definition getLowStockProducts (threshold : option Z) : M (list Product.t) :=
  gets (fun s =>
    sortBy (fun a b => Product.stock a - Product.stock b)
      (filter (isLowStock threshold) (JsMap.values (products s)))).

(** The threshold the specification gives,
    [threshold ?? product.minStock ?? 5]: only an absent value falls
    through to the next one. *)
Definition spec_threshold (threshold : option Z) (product : Product.t) : Z :=
  nullish threshold (nullish (Product.minStock product) 5).

Definition spec_isLowStock (threshold : option Z) (product : Product.t)
    : bool :=
  Product.stock product <=? spec_threshold threshold product.

(** ** The constructor *)

Definition sampleProducts : list InsertProduct.t :=
  [ InsertProduct.mk "Classic Cotton Shirt"
      (Some "Premium cotton formal shirt") None 2999
      "https://images.unsplash.com/photo-1603347585534-badcc8b973c0"
      "Formal Wear" (Some true) (Some 10) (Some 5) None None None;
    InsertProduct.mk "Casual Denim Jacket"
      (Some "Stylish denim jacket for casual occasions") None 4999
      "https://images.unsplash.com/photo-1527905804285-2f67b86e3bf6"
      "Casual Wear" (Some true) (Some 15) (Some 5) None None None ].

Definition emptyStorage : MemStorage :=
  mkMemStorage JsMap.empty JsMap.empty JsMap.empty JsMap.empty JsMap.empty
    JsMap.empty (CurrentIds.mk 1 1 1 1 1) JsMap.empty 1.

(** [new MemStorage()], run at time [now]. *)
Definition newMemStorage (now : Z) : MemStorage :=
  state_after
    (createUser now
       (UserData.mk ADMIN_EMAIL "admin123" (Some "+919467092793") None None
          (Some true) None None None) ;;;
     forEach sampleProducts (fun product => createProduct now product ;;; ret tt))
    emptyStorage.

(** ** The verification code *)

(** One hexadecimal digit of [Buffer.toString('hex')]. *)
Definition hexDigit (n : N) : ascii :=
  match n with
  | 0%N => "0" | 1%N => "1" | 2%N => "2" | 3%N => "3"
  | 4%N => "4" | 5%N => "5" | 6%N => "6" | 7%N => "7"
  | 8%N => "8" | 9%N => "9" | 10%N => "a" | 11%N => "b"
  | 12%N => "c" | 13%N => "d" | 14%N => "e" | _ => "f"
  end%char.

(** [buffer.toString('hex')]: two lower-case digits per byte. *)
Fixpoint toHex (buffer : list Byte.byte) : string :=
  match buffer with
  | [] => EmptyString
  | b :: rest =>
      String (hexDigit (N.div (Byte.to_N b) 16))
        (String (hexDigit (N.modulo (Byte.to_N b) 16)) (toHex rest))
  end.

(** [String.prototype.toUpperCase] on one ASCII character. *)
Definition upperChar (c : ascii) : ascii :=
  let n := N_of_ascii c in
  if ((97 <=? n) && (n <=? 122))%N then ascii_of_N (n - 32) else c.

Fixpoint toUpperCase (s : string) : string :=
  match s with
  | EmptyString => EmptyString
  | String c rest => String (upperChar c) (toUpperCase rest)
  end.

(** [randomBytes(3).toString('hex').toUpperCase()], for the buffer that
    [randomBytes] returned. *)
Definition verificationCode (randomBytes : list Byte.byte) : string :=
  toUpperCase (toHex randomBytes).

(** [new Date(Date.now() + 30 * 60 * 1000)]. *)
Definition tokenExpiryAt (now : Z) : Z := now + 30 * 60 * 1000.

(** A digit or an upper-case letter. *)
Definition isUpperAlnum (c : ascii) : bool :=
  let n := N_of_ascii c in
  (((48 <=? n) && (n <=? 57)) || ((65 <=? n) && (n <=? 90)))%N.

Fixpoint allChars (p : ascii -> bool) (s : string) : bool :=
  match s with
  | EmptyString => true
  | String c rest => p c && allChars p rest
  end.

(** ** The HTTP handlers *)

(** [req.session.user]. *)
Module SessionUser.
Record t := mk {
  id : Z;
  email : string
}.
End SessionUser.

(** The JSON bodies the handlers send.  The [errors] array that goes with
    a validation message is not part of the model. *)
Inductive Json :=
| JMessage (message : string)
| JMessageEmail (message email : string)
| JUser (email : string) (isAdmin : option bool)
| JProduct (product : Product.t)
| JError (error : string).

Record Response := mkResponse {
  status : Z;
  json : Json
}.

(** What a request leaves behind: the response, the session and the
    storage. *)
Record Reply := mkReply {
  response : Response;
  session : option SessionUser.t;
  storage : MemStorage
}.

(** A number as a request delivers it after [Number(...)]: [NaN] when the
    text is not numeric, an integer otherwise. *)
Inductive JsNumber :=
| NaN
| Int (value : Z).

Definition isNaN (n : JsNumber) : bool :=
  match n with NaN => true | Int _ => false end.

(** What the two delivery calls of the registration handler did:
    both returned, or one of them threw. *)
Inductive Delivery :=
| Delivered (emailSent whatsappSent : bool)
| DeliveryFailed.

Section Routes.

(** [z.string().email()]. *)
Variable isEmail : string -> bool.

(** [registrationInitSchema.parse(req.body)]; a property that is missing
    or not a string is [None]. *)
Definition parseInit (email : option string) : option string :=
  match email with
  | Some e => if isEmail e then Some e else None
  | None => None
  end.

(** [POST /api/auth/register/init]. *)
Definition registerInit (randomBytes : list Byte.byte) (now : Z)
    (delivery : Delivery) (email : option string)
    (sess : option SessionUser.t) (s : MemStorage) : Reply :=
  match parseInit email with
  | None => mkReply (mkResponse 400 (JMessage "Invalid email address")) sess s
  | Some email =>
      match getUserByEmail email s with
      | (Ok (Some _), s1) =>
          mkReply (mkResponse 400 (JMessage "Email already registered"))
            sess s1
      | (Ok None, s1) =>
          let verificationToken := verificationCode randomBytes in
          let tokenExpiry := DateAt (tokenExpiryAt now) in
          match createPendingUser email verificationToken tokenExpiry s1 with
          | (Ok _, s2) =>
              match delivery with
              | Delivered false false =>
                  mkReply
                    (mkResponse 500
                       (JMessage "Failed to send verification code"))
                    sess s2
              | Delivered _ _ =>
                  mkReply
                    (mkResponse 200
                       (JMessageEmail "Verification code sent to your email"
                          email))
                    sess s2
              | DeliveryFailed =>
                  mkReply
                    (mkResponse 500
                       (JMessage "Registration initialization failed"))
                    sess s2
              end
          | (Throw _, s2) =>
              mkReply
                (mkResponse 500
                   (JMessage "Registration initialization failed"))
                sess s2
          end
      | (Throw _, s1) =>
          mkReply
            (mkResponse 500 (JMessage "Registration initialization failed"))
            sess s1
      end
  end.

(** [loginSchema.parse(req.body)]. *)
Definition parseLogin (email password : option string)
    : option (string * string) :=
  match email, password with
  | Some e, Some p => if isEmail e then Some (e, p) else None
  | _, _ => None
  end.

(** [POST /api/auth/login]. *)
Definition login (email password : option string)
    (sess : option SessionUser.t) (s : MemStorage) : Reply :=
  match parseLogin email password with
  | None => mkReply (mkResponse 400 (JMessage "Invalid form data")) sess s
  | Some (email, password) =>
      match getUserByEmail email s with
      | (Ok None, s1) =>
          mkReply (mkResponse 401 (JMessage "Invalid email or password"))
            sess s1
      | (Ok (Some user), s1) =>
          if negb (String.eqb (User.password user) password) then
            mkReply (mkResponse 401 (JMessage "Invalid email or password"))
              sess s1
          else if truthy_bool (User.isSuspended user) then
            mkReply
              (mkResponse 403
                 (JMessage
                    "Your account has been suspended. Please contact support."))
              sess s1
          else
            mkReply
              (mkResponse 200 (JUser (User.email user) (User.isAdmin user)))
              (Some (SessionUser.mk (User.id user) (User.email user)))
              s1
      | (Throw _, s1) =>
          mkReply (mkResponse 500 (JMessage "Login failed")) sess s1
      end
  end.

End Routes.

(** [isAuthenticated] of [server/auth.ts]. *)
Definition isAuthenticated (sess : option SessionUser.t) : bool :=
  match sess with Some _ => true | None => false end.

(** [PUT /api/inventory/stock/:productId]; [productId] and [quantity] are
    [Number(req.params.productId)] and [Number(req.body.quantity)].  No
    product is stored under the key [NaN]. *)
Definition putStock (now : Z) (productId quantity : JsNumber)
    (sess : option SessionUser.t) (s : MemStorage) : Reply :=
  if negb (isAuthenticated sess) then
    mkReply (mkResponse 401 (JMessage "Not authenticated")) sess s
  else
    match quantity with
    | NaN => mkReply (mkResponse 400 (JError "Quantity must be a number")) sess s
    | Int quantity =>
        match productId with
        | NaN => mkReply (mkResponse 500 (JError "Product not found")) sess s
        | Int productId =>
            match updateProductStock now productId quantity s with
            | (Ok updatedProduct, s1) =>
                mkReply (mkResponse 200 (JProduct updatedProduct)) sess s1
            | (Throw (MkError message), s1) =>
                mkReply (mkResponse 500 (JError message)) sess s1
            end
        end
    end.

(** ** Reachable storages *)

(** One call of a method of [IStorage] that can write to the storage. *)
Inductive Call :=
| CreateUser (now : Z) (userData : UserData.t)
| CreatePendingUser (email verificationToken : string) (tokenExpiry : JsDate)
| CompleteUserRegistration (now : Z) (email password : string)
| UpdateUser (id : Z) (updates : UserUpdates.t)
| ToggleUserSuspension (id : Z)
| ToggleUserAdmin (id : Z)
| CreateProduct (now : Z) (product : InsertProduct.t)
| UpdateProduct (id : Z) (updates : ProductUpdates.t)
| DeleteProduct (id : Z)
| CreateContactMessage (message : InsertContactMessage.t)
| CreateUserPreferences (data : InsertUserPreference.t)
| UpdateUserPreferences (userId : Z) (updates : PreferenceUpdates.t)
| CreateUserAddress (now : Z) (data : InsertUserAddress.t)
| UpdateUserAddress (id userId : Z) (updates : AddressUpdates.t)
| DeleteUserAddress (id userId : Z)
| CreateInventoryLog (now : Z) (log : InsertInventoryLog.t)
| UpdateProductStock (now : Z) (productId quantityChange : Z).

(** The storage after a call, whether it returned or threw. *)
Definition exec (c : Call) (s : MemStorage) : MemStorage :=
  match c with
  | CreateUser now userData => state_after (createUser now userData) s
  | CreatePendingUser email token expiry =>
      state_after (createPendingUser email token expiry) s
  | CompleteUserRegistration now email password =>
      state_after (completeUserRegistration now email password) s
  | UpdateUser id updates => state_after (updateUser id updates) s
  | ToggleUserSuspension id => state_after (toggleUserSuspension id) s
  | ToggleUserAdmin id => state_after (toggleUserAdmin id) s
  | CreateProduct now product => state_after (createProduct now product) s
  | UpdateProduct id updates => state_after (updateProduct id updates) s
  | DeleteProduct id => state_after (deleteProduct id) s
  | CreateContactMessage message => state_after (createContactMessage message) s
  | CreateUserPreferences data => state_after (createUserPreferences data) s
  | UpdateUserPreferences userId updates =>
      state_after (updateUserPreferences userId updates) s
  | CreateUserAddress now data => state_after (createUserAddress now data) s
  | UpdateUserAddress id userId updates =>
      state_after (updateUserAddress id userId updates) s
  | DeleteUserAddress id userId => state_after (deleteUserAddress id userId) s
  | CreateInventoryLog now log => state_after (createInventoryLog now log) s
  | UpdateProductStock now productId quantityChange =>
      state_after (updateProductStock now productId quantityChange) s
  end.

(** The storages the server can be in: the constructor's, and any storage
    a sequence of calls leads to. *)
Inductive reachable : MemStorage -> Prop :=
| reachable_new : forall now, reachable (newMemStorage now)
| reachable_call : forall c s, reachable s -> reachable (exec c s).

(** ** Properties stated about the storage *)

(** The pending records that carry a given email. *)
Definition pendingFor (email : string) (s : MemStorage) : list PendingUser.t :=
  filter (fun p => String.eqb (PendingUser.email p) email)
    (JsMap.values (pendingUsers s)).

(** Every pending record is stored under its own email, once. *)
Definition pending_keyed (s : MemStorage) : Prop :=
  NoDup (JsMap.keys (pendingUsers s)) /\
  forall k p, In (k, p) (pendingUsers s) -> PendingUser.email p = k.

(** Every log entry was numbered by the counter. *)
Definition logs_numbered (s : MemStorage) : Prop :=
  forall k, In k (JsMap.keys (inventoryLogs s)) -> k < currentInventoryLogId s.

(** The addresses of a user that are flagged primary. *)
Definition primaryOf (userId : Z) (s : MemStorage) : list UserAddress.t :=
  filter (fun a =>
    (UserAddress.userId a =? userId) && truthy_bool (UserAddress.isPrimary a))
    (JsMap.values (addresses s)).

(** Every address is stored under its own id, once, and was numbered by
    the counter. *)
Definition addresses_keyed (s : MemStorage) : Prop :=
  NoDup (JsMap.keys (addresses s)) /\
  (forall k a, In (k, a) (addresses s) -> UserAddress.id a = k) /\
  (forall k, In k (JsMap.keys (addresses s)) ->
     k < CurrentIds.address (currentIds s)).

(** No user has two primary addresses. *)
Definition single_primary (s : MemStorage) : Prop :=
  forall userId, (List.length (primaryOf userId s) <= 1)%nat.

(** The error of a completion without a pending record. *)
Definition NO_PENDING : Error :=
  MkError "No pending registration found for this email".

(** The user that [completeUserRegistration] builds. *)
Definition completedUser (now : Z) (email password : string) (s : MemStorage)
    : User.t :=
  User.mk (CurrentIds.user (currentIds s)) email password None (Some "")
    None None None None (Some true) (Some (String.eqb email ADMIN_EMAIL))
    (Some false) (Some now).

(** What a [forEach] loop over [clearPrimaryOf] leaves in the address
    map. *)
Definition clearAll (l : list UserAddress.t) (m : JsMap.t Z UserAddress.t)
    : JsMap.t Z UserAddress.t :=
  fold_left
    (fun m addr => JsMap.set (UserAddress.id addr) (UserAddress.clearPrimary addr) m)
    l m.

(** [this.currentIds.address++], as a storage. *)
Definition bumpAddressId (s : MemStorage) : MemStorage :=
  let c := currentIds s in
  with_currentIds
    (CurrentIds.mk (CurrentIds.user c) (CurrentIds.product c)
       (CurrentIds.message c) (CurrentIds.preference c)
       (CurrentIds.address c + 1)) s.

(** The address that [createUserAddress] builds. *)
Definition newAddressOf (now : Z) (data : InsertUserAddress.t) (s : MemStorage)
    : UserAddress.t :=
  UserAddress.mk (CurrentIds.address (currentIds s))
    (InsertUserAddress.userId data)
    (InsertUserAddress.addressLine1 data)
    (or_null_str (InsertUserAddress.addressLine2 data))
    (InsertUserAddress.city data)
    (InsertUserAddress.state data)
    (InsertUserAddress.postalCode data)
    (or_null_str (InsertUserAddress.country data))
    (or_null_bool (InsertUserAddress.isPrimary data))
    (or_null_str (InsertUserAddress.label data))
    (or_null_str (InsertUserAddress.phone data))
    (Some now).

(** The address map after the loop of [createUserAddress]. *)
Definition clearedForCreate (data : InsertUserAddress.t)
    (m : JsMap.t Z UserAddress.t) : JsMap.t Z UserAddress.t :=
  if truthy_bool (InsertUserAddress.isPrimary data) then
    clearAll
      (filter (fun addr =>
         UserAddress.userId addr =? InsertUserAddress.userId data)
         (JsMap.values m)) m
  else m.

(** The address map after the loop of [updateUserAddress]. *)
Definition clearedForUpdate (id userId : Z) (updates : AddressUpdates.t)
    (m : JsMap.t Z UserAddress.t) : JsMap.t Z UserAddress.t :=
  if truthy_update (AddressUpdates.isPrimary updates) then
    clearAll
      (filter (fun addr =>
         (UserAddress.userId addr =? userId)
         && negb (UserAddress.id addr =? id)) (JsMap.values m)) m
  else m.

(** The lookup both [updateUserAddress] and [deleteUserAddress] start
    with. *)
Definition findAddress (id userId : Z) (s : MemStorage)
    : option UserAddress.t :=
  find (fun addr =>
    (UserAddress.id addr =? id) && (UserAddress.userId addr =? userId))
    (JsMap.values (addresses s)).

(** The product that [updateProductStock] writes and returns. *)
Definition restocked (product : Product.t) (quantityChange : Z) : Product.t :=
  mergeProduct product
    (ProductUpdates.only_stock
       (Z.max 0 (js_add (Product.stock product) quantityChange))).

(** The log entry that [updateProductStock] appends. *)
Definition stockLog (now productId quantityChange : Z) (s : MemStorage)
    : InventoryLog.t :=
  InventoryLog.mk (currentInventoryLogId s) productId quantityChange
    (if quantityChange >? 0 then "add" else "remove")
    (or_null_str (Some (stock_note quantityChange)))
    (Some now).

(** ** [DatabaseStorage]

    The durable implementation of [IStorage] issues drizzle queries
    against the tables of [shared/schema.ts].  A table is the list of its
    rows.  [select().from(t).where(c)] keeps the rows that satisfy [c], in
    table order; [update(t).set(u).where(c)] changes those rows in place
    and [returning()] yields the changed rows; [insert(t).values(v)]
    appends one row, numbered by the table's [serial] sequence and
    completed with the column defaults; [const [row] = ...] takes the
    first row, [undefined] when there is none.  A [select] without
    [orderBy] is answered in table order.  The database answers every
    query, except that it refuses a value outside the 32 bits of an
    [integer] column where the stock methods bind one ([bindInteger]
    below); the identifiers handed to the other methods are taken to fit.
    A [timestamp] column holds valid dates only: the driver cannot
    serialise an Invalid Date.  Only the tables of the methods modelled
    here are part of the state. *)

Module Database.
Record t := mk {
  users : list User.t;
  users_id_seq : Z;
  products : list Product.t;
  products_id_seq : Z;
  inventoryLogs : list InventoryLog.t;
  inventoryLogs_id_seq : Z;
  userAddresses : list UserAddress.t;
  userAddresses_id_seq : Z
}.

Definition empty : t := mk [] 1 [] 1 [] 1 [] 1.

Definition with_users (rows : list User.t) (seq : Z) (db : t) : t :=
  mk rows seq (products db) (products_id_seq db) (inventoryLogs db)
    (inventoryLogs_id_seq db) (userAddresses db) (userAddresses_id_seq db).

Definition with_products (rows : list Product.t) (db : t) : t :=
  mk (users db) (users_id_seq db) rows (products_id_seq db) (inventoryLogs db)
    (inventoryLogs_id_seq db) (userAddresses db) (userAddresses_id_seq db).

Definition with_inventoryLogs (rows : list InventoryLog.t) (seq : Z) (db : t)
    : t :=
  mk (users db) (users_id_seq db) (products db) (products_id_seq db) rows seq
    (userAddresses db) (userAddresses_id_seq db).

Definition with_userAddresses (rows : list UserAddress.t) (db : t) : t :=
  mk (users db) (users_id_seq db) (products db) (products_id_seq db)
    (inventoryLogs db) (inventoryLogs_id_seq db) rows
    (userAddresses_id_seq db).
End Database.

(** [select().from(table).where(condition)]. *)
Definition selectWhere {R : Type} (condition : R -> bool) (table : list R)
    : list R :=
  filter condition table.

(** The table after [update(table).set(...).where(condition)]. *)
Definition updateWhere {R : Type} (condition : R -> bool) (set : R -> R)
    (table : list R) : list R :=
  map (fun row => if condition row then set row else row) table.

(** What [.returning()] yields after that update. *)
Definition updatedRows {R : Type} (condition : R -> bool) (set : R -> R)
    (table : list R) : list R :=
  map set (filter condition table).

(** [const [row] = rows]. *)
Definition firstRow {R : Type} (rows : list R) : option R := hd_error rows.

Module DatabaseStorage.

Definition PENDING_REGISTRATION : string := "PENDING_REGISTRATION".

(** [getUserByEmail(email)]. *)
Definition getUserByEmail (email : string)
    : Method Database.t (option User.t) :=
  gets (fun db =>
    firstRow
      (selectWhere (fun row => String.eqb (User.email row) email)
         (Database.users db))).

(** [createUser(userData)]; [now] is the clock of [defaultNow()]. *)
Definition createUser (now : Z) (userData : UserData.t)
    : Method Database.t User.t :=
  let isAdmin :=
    match UserData.isAdmin userData with
    | Some b => b
    | None => String.eqb (UserData.email userData) ADMIN_EMAIL
    end in
  id <- gets Database.users_id_seq ;;
  let user :=
    User.mk id
      (UserData.email userData)
      (UserData.password userData)
      None
      (Some (or_str (UserData.mobileNumber userData) ""))
      None
      None
      (or_null_str (UserData.verificationToken userData))
      (UserData.verificationTokenExpiry userData)
      (Some (nullish (UserData.isVerified userData) false))
      (Some isAdmin)
      (Some (nullish (UserData.isSuspended userData) false))
      (Some (nullish (UserData.createdAt userData) now)) in
  modify (fun db =>
    Database.with_users (Database.users db ++ [user]) (id + 1) db) ;;;
  ret user.

(** [createPendingUser(email, verificationToken, tokenExpiry)]: the
    pending registration is a row of [users] whose password is the
    placeholder. *)
Definition createPendingUser (now : Z) (email verificationToken : string)
    (tokenExpiry : Z) : Method Database.t PendingUser.t :=
  existingUser <- getUserByEmail email ;;
  match existingUser with
  | Some _ => throw "User with this email already exists"
  | None =>
      id <- gets Database.users_id_seq ;;
      let pendingUser :=
        User.mk id email PENDING_REGISTRATION None (Some "") None None
          (Some verificationToken) (Some tokenExpiry) (Some false)
          (Some false) (Some false) (Some now) in
      modify (fun db =>
        Database.with_users (Database.users db ++ [pendingUser]) (id + 1) db) ;;;
      ret (PendingUser.mk (User.email pendingUser)
             (User.verificationToken pendingUser)
             (option_map DateAt (User.verificationTokenExpiry pendingUser))
             None)
  end.

(** [getPendingUserByEmail(email)]. *)
Definition getPendingUserByEmail (email : string)
    : Method Database.t (option PendingUser.t) :=
  rows <- gets (fun db =>
    selectWhere
      (fun row =>
         String.eqb (User.email row) email
         && String.eqb (User.password row) PENDING_REGISTRATION)
      (Database.users db)) ;;
  match firstRow rows with
  | Some pendingUser =>
      ret (Some
             (PendingUser.mk (User.email pendingUser)
                (User.verificationToken pendingUser)
                (option_map DateAt (User.verificationTokenExpiry pendingUser))
                (or_null_str (User.mobileNumber pendingUser))))
  | None => ret None
  end.

(** [verifyEmailToken(email, token)]. *)
Definition verifyEmailToken (now : Z) (email token : string)
    : Method Database.t bool :=
  pendingUser <- getPendingUserByEmail email ;;
  match pendingUser with
  | None => ret false
  | Some pendingUser =>
      if negb (truthy_str (PendingUser.verificationToken pendingUser))
         || falsy_date (PendingUser.verificationTokenExpiry pendingUser)
      then ret false
      else if str_neq (PendingUser.verificationToken pendingUser) token
      then ret false
      else if date_gt now (PendingUser.verificationTokenExpiry pendingUser)
      then ret false
      else ret true
  end.

(** The [set] of [completeUserRegistration]. *)
Definition completed (password : string) (row : User.t) : User.t :=
  User.mk (User.id row) (User.email row) password (User.displayName row)
    (User.mobileNumber row) (User.resetToken row) (User.resetTokenExpiry row)
    None None (Some true) (User.isAdmin row) (User.isSuspended row)
    (User.createdAt row).

(** [completeUserRegistration(email, password)]; the result is
    [undefined] when the update changed no row. *)
Definition completeUserRegistration (email password : string)
    : Method Database.t (option User.t) :=
  pendingUser <- getPendingUserByEmail email ;;
  match pendingUser with
  | None => throw "No pending registration found for this email"
  | Some _ =>
      let condition := fun row => String.eqb (User.email row) email in
      rows <- gets (fun db =>
        updatedRows condition (completed password) (Database.users db)) ;;
      modify (fun db =>
        Database.with_users
          (updateWhere condition (completed password) (Database.users db))
          (Database.users_id_seq db) db) ;;;
      ret (firstRow rows)
  end.

Section IntegerColumns.

(** The error with which the database answers a query that binds, to an
    [integer] column, a value outside its 32 bits.  The wording is the
    database's. *)
Variable outOfRange : Z -> Error.

(** Binding [value] to an [integer] column in a query: the query is
    refused, and nothing is written, when the value does not fit. *)
Definition bindInteger (value : Z) : Method Database.t unit :=
  fun db =>
    if int4 value then (Ok tt, db) else (Throw (outOfRange value), db).

(** [createInventoryLog(log)]; [now] is the value of [new Date()].  The
    columns [product_id] and [quantity] are [integer]. *)
Definition createInventoryLog (now : Z) (log : InsertInventoryLog.t)
    : Method Database.t InventoryLog.t :=
  bindInteger (InsertInventoryLog.productId log) ;;;
  bindInteger (InsertInventoryLog.quantity log) ;;;
  id <- gets Database.inventoryLogs_id_seq ;;
  let newLog :=
    InventoryLog.mk id
      (InsertInventoryLog.productId log)
      (InsertInventoryLog.quantity log)
      (InsertInventoryLog.type log)
      (InsertInventoryLog.note log)
      (Some now) in
  modify (fun db =>
    Database.with_inventoryLogs (Database.inventoryLogs db ++ [newLog])
      (id + 1) db) ;;;
  ret newLog.

(** The [set] of [updateProductStock]. *)
Definition setStock (newStock : Z) (row : Product.t) : Product.t :=
  mergeProduct row (ProductUpdates.only_stock newStock).

(** [updateProductStock(productId, quantityChange)].  Three queries run
    one after the other, each committed on its own: the [select] binds
    [productId], the [update] binds the new stock, the [insert] of the log
    binds [productId] and [quantityChange]. *)
Definition updateProductStock (now : Z) (productId quantityChange : Z)
    : Method Database.t (option Product.t) :=
  bindInteger productId ;;;
  rows <- gets (fun db =>
    selectWhere (fun row => Product.id row =? productId)
      (Database.products db)) ;;
  match firstRow rows with
  | None => throw "Product not found"
  | Some product =>
      let newStock :=
        Z.max 0 (js_add (Product.stock product) quantityChange) in
      let condition := fun row => Product.id row =? productId in
      bindInteger newStock ;;;
      updated <- gets (fun db =>
        updatedRows condition (setStock newStock) (Database.products db)) ;;
      modify (fun db =>
        Database.with_products
          (updateWhere condition (setStock newStock) (Database.products db))
          db) ;;;
      createInventoryLog now
        (InsertInventoryLog.mk productId quantityChange
           (if quantityChange >? 0 then "add" else "remove")
           (Some (stock_note quantityChange))) ;;;
      ret (firstRow updated)
  end.

End IntegerColumns.

(** [getLowStockProducts(threshold?)]. *)
Definition getLowStockProducts (threshold : option Z)
    : Method Database.t (list Product.t) :=
  allProducts <- gets Database.products ;;
  if truthy_num threshold then
    ret (sortBy (fun a b => Product.stock a - Product.stock b)
           (filter (fun product =>
              Product.stock product <=? nullish threshold 0) allProducts))
  else
    ret (sortBy (fun a b => Product.stock a - Product.stock b)
           (filter (fun product =>
              Product.stock product <=? or_num (Product.minStock product) 5)
              allProducts)).

(** [updateUserAddress(id, userId, updates)]: the flags are cleared
    before the address is looked for. *)
Definition updateUserAddress (id userId : Z) (updates : AddressUpdates.t)
    : Method Database.t UserAddress.t :=
  (if truthy_update (AddressUpdates.isPrimary updates) then
     modify (fun db =>
       Database.with_userAddresses
         (updateWhere (fun row => UserAddress.userId row =? userId)
            UserAddress.clearPrimary (Database.userAddresses db)) db)
   else ret tt) ;;;
  let condition := fun row =>
    (UserAddress.id row =? id) && (UserAddress.userId row =? userId) in
  rows <- gets (fun db =>
    updatedRows condition (fun row => mergeAddress row updates)
      (Database.userAddresses db)) ;;
  modify (fun db =>
    Database.with_userAddresses
      (updateWhere condition (fun row => mergeAddress row updates)
         (Database.userAddresses db)) db) ;;;
  match firstRow rows with
  | None => throw "Address not found or doesn't belong to user"
  | Some updatedAddress => ret updatedAddress
  end.

End DatabaseStorage.

(** What both implementations of [verifyEmailToken] answer, as a function
    of the pending record they looked up. *)
Definition tokenVerdict (now : Z) (token : string)
    (pendingUser : option PendingUser.t) : bool :=
  match pendingUser with
  | None => false
  | Some pendingUser =>
      if negb (truthy_str (PendingUser.verificationToken pendingUser))
         || falsy_date (PendingUser.verificationTokenExpiry pendingUser)
      then false
      else if str_neq (PendingUser.verificationToken pendingUser) token
      then false
      else if date_gt now (PendingUser.verificationTokenExpiry pendingUser)
      then false
      else true
  end.

(** The pending record [DatabaseStorage] reads for an email. *)
Definition pendingRow (email : string) (db : Database.t) : option User.t :=
  firstRow
    (selectWhere
       (fun row =>
          String.eqb (User.email row) email
          && String.eqb (User.password row)
               DatabaseStorage.PENDING_REGISTRATION)
       (Database.users db)).

(** The product row [DatabaseStorage] reads for an id. *)
Definition productRow (productId : Z) (db : Database.t) : option Product.t :=
  firstRow
    (selectWhere (fun row => Product.id row =? productId)
       (Database.products db)).

(** An update that leaves the address's [id] and [userId] as they are. *)
Definition keepsOwner (id userId : Z) (updates : AddressUpdates.t) : Prop :=
  (AddressUpdates.id updates = None \/ AddressUpdates.id updates = Some id) /\
  (AddressUpdates.userId updates = None
   \/ AddressUpdates.userId updates = Some userId).

(** The calls in which no address update reassigns [id] or [userId]. *)
Definition ownerKept (c : Call) : Prop :=
  match c with
  | UpdateUserAddress id userId updates => keepsOwner id userId updates
  | _ => True
  end.

(** The storages that such calls lead to. *)
Inductive reachableOwnerKept : MemStorage -> Prop :=
| reachableOwnerKept_new : forall now, reachableOwnerKept (newMemStorage now)
| reachableOwnerKept_call :
    forall c s,
      ownerKept c -> reachableOwnerKept s -> reachableOwnerKept (exec c s).

(** Any two primary addresses of one user are the same address. *)
Definition primary_unique (s : MemStorage) : Prop :=
  forall a b,
    In a (JsMap.values (addresses s)) ->
    In b (JsMap.values (addresses s)) ->
    UserAddress.userId a = UserAddress.userId b ->
    truthy_bool (UserAddress.isPrimary a) = true ->
    truthy_bool (UserAddress.isPrimary b) = true ->
    UserAddress.id a = UserAddress.id b.

(** The address map after a loop that clears the flag on the addresses
    that satisfy [p]. *)
Definition clearWhere (p : UserAddress.t -> bool)
    (m : JsMap.t Z UserAddress.t) : JsMap.t Z UserAddress.t :=
  map (fun e => if p (snd e) then (fst e, UserAddress.clearPrimary (snd e))
                else e) m.

(** The invariant of the address map. *)
Definition address_inv (s : MemStorage) : Prop :=
  addresses_keyed s /\ primary_unique s.

(** The rows of a user that are flagged primary, in [DatabaseStorage]. *)
Definition primaryRows (userId : Z) (db : Database.t) : list UserAddress.t :=
  selectWhere
    (fun row =>
       (UserAddress.userId row =? userId)
       && truthy_bool (UserAddress.isPrimary row))
    (Database.userAddresses db).

(** The row [DatabaseStorage.updateUserAddress] is to change. *)
Definition addressRow (id userId : Z) (db : Database.t)
    : option UserAddress.t :=
  firstRow
    (selectWhere
       (fun row =>
          (UserAddress.id row =? id) && (UserAddress.userId row =? userId))
       (Database.userAddresses db)).

(** ** More of the HTTP handlers *)

(** [sendVerificationEmail] of [server/email.ts]: the mail is sent inside
    a [try] and both the [try] and the [catch] return [true]. *)
Definition sendVerificationEmail (to code : string) : bool := true.

(** [z.string().min(6)], on a string of one-byte characters. *)
Definition min6 (text : string) : bool := (6 <=? String.length text)%nat.

Section MoreRoutes.

(** [z.string().email()]. *)
Variable isEmail : string -> bool.

(** [verifyEmailSchema.parse(req.body)]. *)
Definition parseVerify (email token : option string)
    : option (string * string) :=
  match email, token with
  | Some e, Some t => if isEmail e && min6 t then Some (e, t) else None
  | _, _ => None
  end.

(** [POST /api/auth/register/verify]. *)
Definition registerVerify (now : Z) (email token : option string)
    (sess : option SessionUser.t) (s : MemStorage) : Reply :=
  match parseVerify email token with
  | None => mkReply (mkResponse 400 (JMessage "Invalid form data")) sess s
  | Some (email, token) =>
      match verifyEmailToken now email token s with
      | (Ok isValid, s1) =>
          if negb isValid then
            mkReply
              (mkResponse 400
                 (JMessage "Invalid or expired verification code"))
              sess s1
          else
            mkReply
              (mkResponse 200
                 (JMessageEmail "Email verification successful" email))
              sess s1
      | (Throw _, s1) =>
          mkReply (mkResponse 500 (JMessage "Verification failed")) sess s1
      end
  end.

(** [completeRegistrationSchema.parse(req.body)]. *)
Definition parseComplete (email password confirmPassword : option string)
    : option (string * string) :=
  match email, password, confirmPassword with
  | Some e, Some p, Some c =>
      if isEmail e && min6 p && String.eqb p c then Some (e, p) else None
  | _, _, _ => None
  end.

(** [POST /api/auth/register/complete]. *)
Definition registerComplete (now : Z)
    (email password confirmPassword : option string)
    (sess : option SessionUser.t) (s : MemStorage) : Reply :=
  match parseComplete email password confirmPassword with
  | None => mkReply (mkResponse 400 (JMessage "Invalid form data")) sess s
  | Some (email, password) =>
      match completeUserRegistration now email password s with
      | (Ok user, s1) =>
          let isAdmin := String.eqb (User.email user) ADMIN_EMAIL in
          mkReply
            (mkResponse 200
               (JUser (User.email user)
                  (Some (nullish (User.isAdmin user) isAdmin))))
            (Some (SessionUser.mk (User.id user) (User.email user)))
            s1
      | (Throw (MkError message), s1) =>
          mkReply (mkResponse 400 (JMessage message)) sess s1
      end
  end.

(** [POST /api/auth/forgot-password]. *)
Definition forgotPassword (randomBytes : list Byte.byte) (now : Z)
    (email : option string) (sess : option SessionUser.t) (s : MemStorage)
    : Reply :=
  match parseInit isEmail email with
  | None => mkReply (mkResponse 400 (JMessage "Invalid email address")) sess s
  | Some email =>
      match getUserByEmail email s with
      | (Ok None, s1) =>
          mkReply (mkResponse 404 (JMessage "User not found")) sess s1
      | (Ok (Some user), s1) =>
          let resetToken := verificationCode randomBytes in
          let resetTokenExpiry := tokenExpiryAt now in
          match
            updateUser (User.id user)
              (UserUpdates.mk None None None None None
                 (Some (Some resetToken)) (Some (Some resetTokenExpiry))
                 None None None None None None) s1
          with
          | (Ok _, s2) =>
              if negb (sendVerificationEmail email resetToken) then
                mkReply
                  (mkResponse 500
                     (JMessage "Failed to send verification email"))
                  sess s2
              else
                mkReply
                  (mkResponse 200
                     (JMessage "Reset instructions sent to your email"))
                  sess s2
          | (Throw _, s2) =>
              mkReply (mkResponse 500 (JMessage "Failed to process request"))
                sess s2
          end
      | (Throw _, s1) =>
          mkReply (mkResponse 500 (JMessage "Failed to process request"))
            sess s1
      end
  end.

(** [verifyResetTokenSchema.parse(req.body)]. *)
Definition parseReset (email token newPassword confirmPassword : option string)
    : option (string * string * string) :=
  match email, token, newPassword, confirmPassword with
  | Some e, Some t, Some p, Some c =>
      if isEmail e && min6 t && min6 p && String.eqb p c
      then Some (e, t, p) else None
  | _, _, _, _ => None
  end.

(** [POST /api/auth/reset-password]. *)
Definition resetPassword (now : Z)
    (email token newPassword confirmPassword : option string)
    (sess : option SessionUser.t) (s : MemStorage) : Reply :=
  match parseReset email token newPassword confirmPassword with
  | None => mkReply (mkResponse 400 (JMessage "Invalid form data")) sess s
  | Some (email, token, newPassword) =>
      match getUserByEmail email s with
      | (Ok None, s1) =>
          mkReply
            (mkResponse 400 (JMessage "Invalid or expired reset token"))
            sess s1
      | (Ok (Some user), s1) =>
          if negb (truthy_str (User.resetToken user))
             || falsy_date (User.resetTokenExpiry user)
          then
            mkReply
              (mkResponse 400 (JMessage "Invalid or expired reset token"))
              sess s1
          else if str_neq (User.resetToken user) token then
            mkReply (mkResponse 400 (JMessage "Invalid verification code"))
              sess s1
          else if date_gt now (option_map DateAt (User.resetTokenExpiry user))
          then
            mkReply (mkResponse 400 (JMessage "Reset token has expired"))
              sess s1
          else
            match
              updateUser (User.id user)
                (UserUpdates.mk None None (Some newPassword) None None
                   (Some None) (Some None) None None None None None None) s1
            with
            | (Ok _, s2) =>
                mkReply
                  (mkResponse 200 (JMessage "Password reset successful"))
                  sess s2
            | (Throw _, s2) =>
                mkReply
                  (mkResponse 500 (JMessage "Failed to reset password"))
                  sess s2
            end
      | (Throw _, s1) =>
          mkReply (mkResponse 500 (JMessage "Failed to reset password"))
            sess s1
      end
  end.

End MoreRoutes.

(** The middleware [isAdmin] of [registerRoutes]: [None] when it calls
    [next()].  The session user holds [id] and [email] only (the type
    [SessionData], and the two handlers that write it), so that
    [user.isAdmin] is [undefined]. *)
Definition isAdmin (sess : option SessionUser.t) : option Response :=
  match sess with
  | None =>
      Some (mkResponse 401 (JMessage "Please login to access this feature"))
  | Some user =>
      if negb (String.eqb (SessionUser.email user) ADMIN_EMAIL)
         && negb (truthy_bool None)
      then Some (mkResponse 403 (JMessage "Admin access required"))
      else None
  end.

(** Every user is stored under its own id, once. *)
Definition users_keyed (s : MemStorage) : Prop :=
  NoDup (JsMap.keys (users s)) /\
  forall k u, In (k, u) (users s) -> User.id u = k.

(** The updates that [forgot-password] and [reset-password] pass to
    [updateUser]. *)
Definition issueUpdates (resetToken : string) (resetTokenExpiry : Z)
    : UserUpdates.t :=
  UserUpdates.mk None None None None None
    (Some (Some resetToken)) (Some (Some resetTokenExpiry))
    None None None None None None.

Definition passwordUpdates (newPassword : string) : UserUpdates.t :=
  UserUpdates.mk None None (Some newPassword) None None
    (Some None) (Some None) None None None None None None.

(** The test of [getUserByEmail]. *)
Definition hasEmail (email : string) (user : User.t) : bool :=
  String.eqb (User.email user) email.

(** ** [MemStorage]: reading the inventory log and the addresses *)

(** [log.timestamp?.getTime() || 0]. *)
Definition logTime (log : InventoryLog.t) : Z :=
  or_num (InventoryLog.timestamp log) 0.

(** [getInventoryLogs(productId?)]. *)
Definition getInventoryLogs (productId : option Z)
    : M (list InventoryLog.t) :=
  gets (fun s =>
    let logs := JsMap.values (inventoryLogs s) in
    if truthy_num productId then
      sortBy (fun a b => logTime b - logTime a)
        (filter (fun log => InventoryLog.productId log =? nullish productId 0)
           logs)
    else sortBy (fun a b => logTime b - logTime a) logs).

(** The comparator of [getUserAddresses]; the last line is reached with
    two dates only. *)
Definition compareAddresses (a b : UserAddress.t) : Z :=
  if truthy_bool (UserAddress.isPrimary a)
     && negb (truthy_bool (UserAddress.isPrimary b)) then -1
  else if negb (truthy_bool (UserAddress.isPrimary a))
          && truthy_bool (UserAddress.isPrimary b) then 1
  else if falsy_date (UserAddress.createdAt a)
          && falsy_date (UserAddress.createdAt b) then 0
  else if falsy_date (UserAddress.createdAt a) then 1
  else if falsy_date (UserAddress.createdAt b) then -1
  else nullish (UserAddress.createdAt a) 0 - nullish (UserAddress.createdAt b) 0.

(** [getUserAddresses(userId)]. *)
Definition getUserAddresses (userId : Z) : M (list UserAddress.t) :=
  gets (fun s =>
    sortBy compareAddresses
      (filter (fun addr => UserAddress.userId addr =? userId)
         (JsMap.values (addresses s)))).

(** Every product was numbered by the counter. *)
Definition products_numbered (s : MemStorage) : Prop :=
  forall k,
    In k (JsMap.keys (products s)) -> k < CurrentIds.product (currentIds s).

(** The product that [createProduct] builds. *)
Definition newProductOf (now : Z) (product : InsertProduct.t) (s : MemStorage)
    : Product.t :=
  Product.mk (CurrentIds.product (currentIds s))
    (InsertProduct.name product)
    (InsertProduct.description product)
    (InsertProduct.purchase_price product)
    (InsertProduct.price product)
    (InsertProduct.imageUrl product)
    (InsertProduct.category product)
    (Some (nullish (InsertProduct.featured product) false))
    (nullish (InsertProduct.stock product) 0)
    (Some (nullish (InsertProduct.minStock product) 5))
    (InsertProduct.tax product)
    (InsertProduct.unit product)
    (InsertProduct.barcode product)
    (Some now).

(** [getProducts()]. *)
Definition getProducts : M (list Product.t) :=
  gets (fun s => JsMap.values (products s)).

(** [getUserPreferences(userId)]. *)
Definition getUserPreferences (userId : Z) : M (option UserPreference.t) :=
  gets (fun s => JsMap.get userId (userPrefs s)).

(** An update property that is absent or holds a value, not [null]. *)
Definition definite {A : Type} (upd : option (option A)) : bool :=
  match upd with Some None => false | _ => true end.

(** No preference is updated to [null]. *)
Definition noNull (updates : PreferenceUpdates.t) : bool :=
  definite (PreferenceUpdates.emailNotifications updates)
  && definite (PreferenceUpdates.orderUpdates updates)
  && definite (PreferenceUpdates.promotions updates)
  && definite (PreferenceUpdates.accountAlerts updates)
  && definite (PreferenceUpdates.darkMode updates)
  && definite (PreferenceUpdates.language updates)
  && definite (PreferenceUpdates.currency updates).

(** One preference after the first [updateUserPreferences] of a user: the
    updated value, or the default when the update has none or [null]. *)
Definition firstPreference {A : Type} (default : A) (upd : option (option A))
    : option A :=
  match upd with
  | Some (Some v) => Some v
  | _ => Some default
  end.

(** An update of a user that leaves [id] and [email] alone. *)
Definition keepsAccount (updates : UserUpdates.t) : Prop :=
  UserUpdates.id updates = None /\ UserUpdates.email updates = None.

(** The calls the HTTP handlers make: they create users through
    [completeUserRegistration] only, and their [updateUser] calls
    ([forgot-password], [reset-password]) pass neither [id] nor
    [email]. *)
Definition accountKept (c : Call) : Prop :=
  match c with
  | CreateUser _ _ => False
  | UpdateUser _ updates => keepsAccount updates
  | _ => True
  end.

(** The storages that such calls lead to. *)
Inductive reachableAccountKept : MemStorage -> Prop :=
| reachableAccountKept_new :
    forall now, reachableAccountKept (newMemStorage now)
| reachableAccountKept_call :
    forall c s,
      accountKept c -> reachableAccountKept s ->
      reachableAccountKept (exec c s).

(** The emails of the users, in storage order. *)
Definition emails (s : MemStorage) : list string :=
  map User.email (JsMap.values (users s)).

(** The invariant of the users and the pending registrations. *)
Definition accounts_inv (s : MemStorage) : Prop :=
  users_keyed s /\
  (forall k,
     In k (JsMap.keys (users s)) -> k < CurrentIds.user (currentIds s)) /\
  NoDup (emails s) /\
  (forall email,
     In email (JsMap.keys (pendingUsers s)) -> ~ In email (emails s)).

(** The row [DatabaseStorage] holds for a user who registered through
    [createPendingUser] at time [now] and [completeUserRegistration]. *)
Definition registeredRow (now : Z) (email password : string) (db : Database.t)
    : User.t :=
  User.mk (Database.users_id_seq db) email password None (Some "") None None
    None None (Some true) (Some false) (Some false) (Some now).

(** Every user was numbered by the counter. *)
Definition users_numbered (s : MemStorage) : Prop :=
  forall k,
    In k (JsMap.keys (users s)) -> k < CurrentIds.user (currentIds s).

(** The time is not after the expiry: at or before a date, and at every
    time when the date is invalid. *)
Definition notAfter (now : Z) (expiry : JsDate) : Prop :=
  match expiry with
  | DateAt time => now <= time
  | InvalidDate => True
  end.

(** * Proofs *)

(** ** Facts about insertion-ordered maps *)

Module JsMapFacts.
Import JsMap.
Section Facts.
Context {K V : Type} `{EqDec K}.
Implicit Types (m : JsMap.t K V) (k : K) (v : V).

Lemma get_set_same k v m : get k (set k v m) = Some v.
Proof.
  induction m as [|[k' v'] rest IH]; simpl.
  - destruct (eq_dec k k); congruence.
  - destruct (eq_dec k k') as [E|N]; simpl.
    + destruct (eq_dec k k'); congruence.
    + destruct (eq_dec k k'); congruence.
Qed.

Lemma get_set_other k k' v m : k <> k' -> get k' (set k v m) = get k' m.
Proof.
  intros N. induction m as [|[k0 v0] rest IH]; simpl.
  - destruct (eq_dec k' k); congruence.
  - destruct (eq_dec k k0) as [E|N0]; simpl.
    + subst k0. destruct (eq_dec k' k); congruence.
    + destruct (eq_dec k' k0); congruence.
Qed.

Lemma get_delete_same k m : get k (delete k m) = None.
Proof.
  induction m as [|[k' v'] rest IH]; simpl; auto.
  destruct (eq_dec k k') as [E|N]; simpl; auto.
  destruct (eq_dec k k'); congruence.
Qed.

Lemma get_delete_other k k' m : k <> k' -> get k' (delete k m) = get k' m.
Proof.
  intros N. induction m as [|[k0 v0] rest IH]; simpl; auto.
  destruct (eq_dec k k0) as [E|N0]; simpl.
  - subst k0. destruct (eq_dec k' k); congruence.
  - destruct (eq_dec k' k0); congruence.
Qed.

Lemma get_None_notin k m : get k m = None <-> ~ In k (keys m).
Proof.
  induction m as [|[k' v'] rest IH]; simpl.
  - tauto.
  - destruct (eq_dec k k') as [E|N].
    + subst. split; [discriminate | intros F; exfalso; apply F; auto].
    + rewrite IH. split.
      * intros F [E|I]; [congruence | tauto].
      * intros F I. apply F. auto.
Qed.

Lemma get_Some_in k v m : get k m = Some v -> In (k, v) m.
Proof.
  induction m as [|[k' v'] rest IH]; simpl; [discriminate|].
  destruct (eq_dec k k') as [E|N].
  - intros [= ->]. subst. auto.
  - auto.
Qed.

Lemma in_get_NoDup k v m : NoDup (keys m) -> In (k, v) m -> get k m = Some v.
Proof.
  induction m as [|[k' v'] rest IH]; simpl; [tauto|].
  intros ND [E|I].
  - inversion E; subst. destruct (eq_dec k k); congruence.
  - inversion ND as [|? ? NI ND']; subst.
    destruct (eq_dec k k') as [E|N].
    + subst k'. exfalso. apply NI. unfold keys.
      change k with (fst (k, v)). apply in_map. exact I.
    + auto.
Qed.

(** A fresh key is appended at the end. *)
Lemma set_fresh k v m : get k m = None -> set k v m = m ++ [(k, v)].
Proof.
  induction m as [|[k' v'] rest IH]; simpl; auto.
  destruct (eq_dec k k') as [E|N]; [discriminate|].
  intros G. rewrite IH; auto.
Qed.

(** An existing key keeps its position: the keys do not change. *)
Lemma keys_set_present k v m : get k m <> None -> keys (set k v m) = keys m.
Proof.
  induction m as [|[k' v'] rest IH]; simpl; [congruence|].
  destruct (eq_dec k k') as [E|N]; simpl; auto.
  intros G. rewrite IH; auto.
Qed.

Lemma keys_set k v m :
  keys (set k v m) = if has k m then keys m else keys m ++ [k].
Proof.
  unfold has. destruct (get k m) eqn:G.
  - apply keys_set_present. congruence.
  - rewrite set_fresh by exact G. unfold keys. rewrite map_app. reflexivity.
Qed.

Lemma in_keys_set k k' v m : In k' (keys (set k v m)) <-> k' = k \/ In k' (keys m).
Proof.
  rewrite keys_set. unfold has. destruct (get k m) eqn:G.
  - split; auto. intros [E|I]; auto. subst.
    destruct (in_dec eq_dec k (keys m)) as [I|NI]; auto.
    apply get_None_notin in NI. congruence.
  - rewrite in_app_iff. simpl. intuition.
Qed.

Lemma NoDup_keys_set k v m : NoDup (keys m) -> NoDup (keys (set k v m)).
Proof.
  intros ND. rewrite keys_set. unfold has. destruct (get k m) eqn:G; auto.
  apply get_None_notin in G.
  apply NoDup_rev in ND. rewrite <- (rev_involutive (keys m ++ [k])).
  apply NoDup_rev. rewrite rev_app_distr. simpl. constructor; auto.
  rewrite <- in_rev. exact G.
Qed.

Lemma in_delete e k m : In e (delete k m) <-> In e m /\ fst e <> k.
Proof.
  unfold delete. rewrite filter_In.
  destruct (eq_dec k (fst e)); intuition congruence.
Qed.

Lemma NoDup_keys_delete k m : NoDup (keys m) -> NoDup (keys (delete k m)).
Proof.
  induction m as [|[k' v'] rest IH]; simpl; auto.
  intros ND. inversion ND as [|? ? NI ND']; subst.
  destruct (eq_dec k k'); simpl; auto.
  constructor; auto.
  intros I. apply NI. unfold keys in *. apply in_map_iff in I.
  destruct I as [e [E I]]. apply in_delete in I. destruct I as [I _].
  apply in_map_iff. exists e. auto.
Qed.

Lemma in_set e k v m : In e (set k v m) -> e = (k, v) \/ In e m.
Proof.
  induction m as [|[k' v'] rest IH]; simpl.
  - intros [E|[]]; auto.
  - destruct (eq_dec k k') as [E|N]; simpl.
    + subst k'. intros [E|I]; auto.
    + intros [E|I]; auto. destruct (IH I); auto.
Qed.

Lemma in_set_other e k v m : In e m -> fst e <> k -> In e (set k v m).
Proof.
  intros I N. induction m as [|[k' v'] rest IH]; simpl in *; [tauto|].
  destruct (eq_dec k k') as [E|N']; simpl.
  - subst k'. destruct I as [E|I]; [subst e; simpl in N; congruence | auto].
  - destruct I as [E|I]; auto.
Qed.

Lemma in_set_same k v m : In (k, v) (set k v m).
Proof. apply get_Some_in. apply get_set_same. Qed.

(** Writing back the value a key already has changes nothing. *)
Lemma set_same_value k v m : get k m = Some v -> set k v m = m.
Proof.
  induction m as [|[k' v'] rest IH]; simpl; [discriminate|].
  destruct (eq_dec k k') as [E|N].
  - intros [= ->]. reflexivity.
  - intros G. rewrite IH; auto.
Qed.

Lemma values_set_fresh k v m :
  ~ In k (keys m) -> values (set k v m) = values m ++ [v].
Proof.
  intros NI. apply get_None_notin in NI. rewrite set_fresh by exact NI.
  unfold values. rewrite map_app. reflexivity.
Qed.

End Facts.
End JsMapFacts.

(** ** Running the storage monad *)

#[local] Arguments String.eqb : simpl never.
#[local] Arguments Z.gtb : simpl never.
#[local] Arguments Z.leb : simpl never.
#[local] Arguments Z.eqb : simpl never.
#[local] Arguments Z.max : simpl never.
#[local] Arguments Z.add : simpl never.
#[local] Arguments Z.mul : simpl never.

Ltac run_storage :=
  unfold state_after, result_of, bind, gets, modify, ret, throw in *;
  simpl in *.

Lemma bind_ok {S A B : Type} (m : Method S A) (k : A -> Method S B) s a s' :
  m s = (Ok a, s') -> bind m k s = k a s'.
Proof. intros E. unfold bind. rewrite E. reflexivity. Qed.

Lemma bind_throw {S A B : Type} (m : Method S A) (k : A -> Method S B)
    s e s' :
  m s = (Throw e, s') -> bind m k s = (Throw e, s').
Proof. intros E. unfold bind. rewrite E. reflexivity. Qed.

Lemma string_eqb_refl (a : string) : String.eqb a a = true.
Proof. apply String.eqb_eq. reflexivity. Qed.

Lemma string_eqb_neq (a b : string) : a <> b -> String.eqb a b = false.
Proof. intros N. apply String.eqb_neq. exact N. Qed.

(** ** Registration: verify *)

(** [verifyEmailToken] always returns a boolean. *)
Lemma verifyEmailToken_returns now email token s :
  exists b, verifyEmailToken now email token s = (Ok b, s).
Proof.
  unfold verifyEmailToken, getPendingUserByEmail. run_storage.
  destruct (JsMap.get email (pendingUsers s)) as [p|]; [|eauto].
  destruct (negb (truthy_str (PendingUser.verificationToken p))
            || falsy_date (PendingUser.verificationTokenExpiry p)); [eauto|].
  destruct (str_neq (PendingUser.verificationToken p) token); [eauto|].
  destruct (date_gt now (PendingUser.verificationTokenExpiry p)); eauto.
Qed.

(** When [verifyEmailToken] answers [true]. *)
Lemma verifyEmailToken_true_iff now email token s :
  result_of (verifyEmailToken now email token) s = Ok true <->
  exists pending expiry,
    JsMap.get email (pendingUsers s) = Some pending /\
    PendingUser.verificationToken pending = Some token /\
    token <> "" /\
    PendingUser.verificationTokenExpiry pending = Some expiry /\
    notAfter now expiry.
Proof.
  unfold verifyEmailToken, getPendingUserByEmail. run_storage.
  destruct (JsMap.get email (pendingUsers s)) as [p|]; simpl.
  2:{ split; [discriminate | intros (q & e & F & _); discriminate]. }
  destruct p as [pe ptok pexp pmob]; simpl.
  destruct ptok as [tok|]; simpl.
  2:{ split; [discriminate | intros (q & e & [= <-] & F & _); discriminate]. }
  destruct pexp as [exp|]; simpl.
  2:{ destruct tok; simpl;
      (split; [discriminate
              | intros (q & e & [= <-] & _ & _ & F & _); discriminate]). }
  destruct tok as [|c tok]; simpl.
  { split; [discriminate|].
    intros (q & e & [= <-] & [= <-] & F & _). congruence. }
  destruct (String.eqb (String c tok) token) eqn:E; simpl.
  - apply String.eqb_eq in E. subst token.
    destruct exp as [time|]; simpl.
    + destruct (now >? time) eqn:G; simpl.
      * split; [discriminate|].
        intros (q & e & [= <-] & _ & _ & [= <-] & L). simpl in *. lia.
      * split; [|reflexivity]. intros _.
        exists (PendingUser.mk pe (Some (String c tok)) (Some (DateAt time))
                  pmob), (DateAt time).
        repeat split; try reflexivity; [discriminate | simpl; lia].
    + split; [|reflexivity]. intros _.
      exists (PendingUser.mk pe (Some (String c tok)) (Some InvalidDate)
                pmob), InvalidDate.
      repeat split; try reflexivity. discriminate.
  - apply String.eqb_neq in E.
    split; [discriminate|].
    intros (q & e & [= <-] & [= T] & _). congruence.
Qed.

(** C4 -- [verifyEmailToken] is a pure check: for every email, token,
    time and storage it returns a boolean and leaves the whole storage
    (users, pending registrations, products, messages, preferences,
    addresses, logs and counters) as it was; the pending record is neither
    consumed nor marked. *)
Theorem verifyEmailToken_pure :
  forall (now : Z) (email token : string) (s : MemStorage),
    state_after (verifyEmailToken now email token) s = s /\
    exists valid, verifyEmailToken now email token s = (Ok valid, s).
Proof.
  intros now email token s.
  destruct (verifyEmailToken_returns now email token s) as [b E].
  split; [|eauto]. unfold state_after. rewrite E. reflexivity.
Qed.

(** ** The verification code and the registration handler *)

Lemma hex_pair_upper (b : Byte.byte) :
  isUpperAlnum (upperChar (hexDigit (N.div (Byte.to_N b) 16))) = true /\
  isUpperAlnum (upperChar (hexDigit (N.modulo (Byte.to_N b) 16))) = true.
Proof. destruct b; split; reflexivity. Qed.

Lemma verificationCode_length (buffer : list Byte.byte) :
  String.length (verificationCode buffer) = (2 * List.length buffer)%nat.
Proof.
  unfold verificationCode.
  induction buffer as [|b rest IH]; simpl; [reflexivity|].
  rewrite IH. lia.
Qed.

Lemma verificationCode_chars (buffer : list Byte.byte) :
  allChars isUpperAlnum (verificationCode buffer) = true.
Proof.
  unfold verificationCode.
  induction buffer as [|b rest IH]; [reflexivity|].
  destruct (hex_pair_upper b) as [Hhi Hlo].
  cbn [toHex toUpperCase allChars].
  rewrite Hhi, Hlo, IH. reflexivity.
Qed.

Lemma verificationCode_nonempty b0 b1 b2 :
  verificationCode [b0; b1; b2] <> "".
Proof.
  intros E. apply (f_equal String.length) in E.
  rewrite verificationCode_length in E. discriminate.
Qed.

Lemma getUserByEmail_run email s :
  getUserByEmail email s =
  (Ok (find (fun user => String.eqb (User.email user) email)
         (JsMap.values (users s))), s).
Proof. reflexivity. Qed.

Lemma createPendingUser_free email token expiry s :
  find (fun user => String.eqb (User.email user) email) (JsMap.values (users s)) = None ->
  createPendingUser email token expiry s =
  (Ok (PendingUser.mk email (Some token) (Some expiry) None),
   with_pendingUsers
     (JsMap.set email (PendingUser.mk email (Some token) (Some expiry) None)
        (pendingUsers s)) s).
Proof.
  intros F. unfold createPendingUser.
  rewrite (bind_ok _ _ _ _ _ (getUserByEmail_run email s)).
  rewrite F. reflexivity.
Qed.

Lemma createPendingUser_taken email token expiry s user :
  find (fun user => String.eqb (User.email user) email) (JsMap.values (users s)) = Some user ->
  createPendingUser email token expiry s =
  (Throw (MkError "User with this email already exists"), s).
Proof.
  intros F. unfold createPendingUser.
  rewrite (bind_ok _ _ _ _ _ (getUserByEmail_run email s)).
  rewrite F. reflexivity.
Qed.

Lemma registerInit_storage isEmail randomBytes now delivery email sess s :
  isEmail email = true ->
  find (fun user => String.eqb (User.email user) email) (JsMap.values (users s)) = None ->
  storage (registerInit isEmail randomBytes now delivery (Some email) sess s) =
  with_pendingUsers
    (JsMap.set email
       (PendingUser.mk email (Some (verificationCode randomBytes))
          (Some (DateAt (tokenExpiryAt now))) None)
       (pendingUsers s)) s.
Proof.
  intros V F. unfold registerInit, parseInit. rewrite V.
  rewrite getUserByEmail_run, F.
  rewrite (createPendingUser_free _ _ _ _ F).
  destruct delivery as [[|] [|]|]; reflexivity.
Qed.

Lemma getUserByEmail_none email s :
  result_of (getUserByEmail email) s = Ok None ->
  find (fun user => String.eqb (User.email user) email)
    (JsMap.values (users s)) = None.
Proof. unfold result_of. rewrite getUserByEmail_run. simpl. congruence. Qed.

Lemma getUserByEmail_some email s user :
  result_of (getUserByEmail email) s = Ok (Some user) ->
  find (fun user => String.eqb (User.email user) email)
    (JsMap.values (users s)) = Some user.
Proof. unfold result_of. rewrite getUserByEmail_run. simpl. congruence. Qed.

(** C8 -- Registration init generates a verification code of exactly six
    characters, each of them a digit or an upper-case letter, whatever
    three bytes [randomBytes(3)] returned, and the expiry it computes is
    exactly 30 minutes (1 800 000 ms) after the time of generation; for a
    valid email that no user has, the pending record it stores carries
    that code and that expiry. *)
Theorem registerInit_code_and_expiry :
  forall (isEmail : string -> bool) (b0 b1 b2 : Byte.byte) (now : Z)
         (delivery : Delivery) (email : string)
         (sess : option SessionUser.t) (s : MemStorage),
    let code := verificationCode [b0; b1; b2] in
    String.length code = 6%nat /\
    allChars isUpperAlnum code = true /\
    tokenExpiryAt now = now + 1800000 /\
    (isEmail email = true ->
     result_of (getUserByEmail email) s = Ok None ->
     JsMap.get email
       (pendingUsers
          (storage
             (registerInit isEmail [b0; b1; b2] now delivery (Some email)
                sess s)))
     = Some (PendingUser.mk email (Some code)
               (Some (DateAt (now + 1800000))) None)).
Proof.
  intros isEmail b0 b1 b2 now delivery email sess s code.
  split; [apply verificationCode_length|].
  split; [apply verificationCode_chars|].
  split; [unfold tokenExpiryAt; lia|].
  intros V F. apply getUserByEmail_none in F.
  rewrite (registerInit_storage _ _ _ _ _ _ _ V F). simpl.
  rewrite JsMapFacts.get_set_same. unfold tokenExpiryAt.
  replace (now + 30 * 60 * 1000) with (now + 1800000) by lia. reflexivity.
Qed.

(** ** Registration: complete *)

Lemma completeUserRegistration_missing now email password s :
  JsMap.get email (pendingUsers s) = None ->
  completeUserRegistration now email password s = (Throw NO_PENDING, s).
Proof.
  intros G. unfold completeUserRegistration, getPendingUserByEmail.
  run_storage. rewrite G. reflexivity.
Qed.

Lemma completeUserRegistration_present now email password s pending :
  JsMap.get email (pendingUsers s) = Some pending ->
  exists s',
    completeUserRegistration now email password s
    = (Ok (completedUser now email password s), s') /\
    users s' = JsMap.set (CurrentIds.user (currentIds s))
                 (completedUser now email password s) (users s) /\
    pendingUsers s' = JsMap.delete email (pendingUsers s).
Proof.
  intros G. unfold completeUserRegistration, getPendingUserByEmail.
  run_storage. rewrite G. simpl.
  eexists. split; [reflexivity|]. split; reflexivity.
Qed.

(** ** Frames: what each call leaves alone *)

Ltac break_match :=
  match goal with
  | |- context [match ?x with _ => _ end] => destruct x eqn:?
  end.

Ltac crush_frame := simpl; repeat (break_match; simpl); try reflexivity.

Lemma forEach_clearPrimaryOf l s :
  forEach l clearPrimaryOf s
  = (Ok tt, with_addresses (clearAll l (addresses s)) s).
Proof.
  revert s. induction l as [|a rest IH]; intros s.
  - destruct s; reflexivity.
  - simpl. unfold bind at 1. unfold clearPrimaryOf at 1. unfold modify.
    rewrite IH. destruct s; reflexivity.
Qed.

Lemma createUserAddress_run now data s :
  createUserAddress now data s
  = (Ok (newAddressOf now data s),
     with_addresses
       (JsMap.set (CurrentIds.address (currentIds s)) (newAddressOf now data s)
          (clearedForCreate data (addresses s)))
       (bumpAddressId s)).
Proof.
  unfold createUserAddress, next_address_id, clearedForCreate.
  unfold bind, gets, modify, ret. simpl.
  destruct (truthy_bool (InsertUserAddress.isPrimary data)).
  - rewrite forEach_clearPrimaryOf. destruct s; reflexivity.
  - destruct s; reflexivity.
Qed.

Lemma updateUserAddress_run id userId updates s address :
  findAddress id userId s = Some address ->
  updateUserAddress id userId updates s
  = (Ok (mergeAddress address updates),
     with_addresses
       (JsMap.set id (mergeAddress address updates)
          (clearedForUpdate id userId updates (addresses s))) s).
Proof.
  unfold findAddress. intros F.
  unfold updateUserAddress, clearedForUpdate.
  unfold bind, gets, modify, ret. simpl. rewrite F.
  destruct (truthy_update (AddressUpdates.isPrimary updates)).
  - rewrite forEach_clearPrimaryOf. destruct s; reflexivity.
  - destruct s; reflexivity.
Qed.

Lemma updateUserAddress_missing id userId updates s :
  findAddress id userId s = None ->
  updateUserAddress id userId updates s
  = (Throw (MkError "Address not found or doesn't belong to user"), s).
Proof.
  unfold findAddress. intros F.
  unfold updateUserAddress. unfold bind, gets, throw. simpl. rewrite F.
  reflexivity.
Qed.

Lemma deleteUserAddress_run id userId s :
  deleteUserAddress id userId s
  = match findAddress id userId s with
    | None => (Ok false, s)
    | Some _ =>
        (Ok (JsMap.has id (addresses s)),
         with_addresses (JsMap.delete id (addresses s)) s)
    end.
Proof.
  unfold deleteUserAddress, findAddress. unfold bind, gets, modify, ret. simpl.
  destruct (find _ _); reflexivity.
Qed.

Lemma updateProductStock_run now productId quantityChange s product :
  JsMap.get productId (products s) = Some product ->
  updateProductStock now productId quantityChange s
  = (Ok (restocked product quantityChange),
     with_inventoryLogs
       (JsMap.set (currentInventoryLogId s)
          (stockLog now productId quantityChange s) (inventoryLogs s))
       (with_currentInventoryLogId (currentInventoryLogId s + 1)
          (with_products
             (JsMap.set productId (restocked product quantityChange)
                (products s)) s))).
Proof.
  intros G. unfold updateProductStock, updateProduct, createInventoryLog.
  unfold bind, gets, modify, ret. simpl. rewrite G. simpl. rewrite G.
  reflexivity.
Qed.

Lemma updateProductStock_missing now productId quantityChange s :
  JsMap.get productId (products s) = None ->
  updateProductStock now productId quantityChange s
  = (Throw (MkError "Product not found"), s).
Proof.
  intros G. unfold updateProductStock. unfold bind, gets, throw. simpl.
  rewrite G. reflexivity.
Qed.

Lemma exec_updateProductStock now productId quantityChange s :
  exec (UpdateProductStock now productId quantityChange) s
  = match JsMap.get productId (products s) with
    | None => s
    | Some product =>
        with_inventoryLogs
          (JsMap.set (currentInventoryLogId s)
             (stockLog now productId quantityChange s) (inventoryLogs s))
          (with_currentInventoryLogId (currentInventoryLogId s + 1)
             (with_products
                (JsMap.set productId (restocked product quantityChange)
                   (products s)) s))
    end.
Proof.
  unfold exec, state_after. destruct (JsMap.get productId (products s)) eqn:G.
  - rewrite (updateProductStock_run _ _ _ _ _ G). reflexivity.
  - rewrite (updateProductStock_missing _ _ _ _ G). reflexivity.
Qed.

Ltac unfold_calls :=
  unfold createUser, createPendingUser, completeUserRegistration, updateUser,
    toggleUserSuspension, toggleUserAdmin, createProduct, updateProduct,
    deleteProduct, createContactMessage, createUserPreferences,
    updateUserPreferences, createUserPreferences, createInventoryLog,
    updateProduct, createInventoryLog, createUser,
    getUserByEmail, getPendingUserByEmail, next_user_id, next_product_id,
    next_message_id, next_preference_id in *.

Ltac run_call :=
  try rewrite exec_updateProductStock;
  unfold exec, state_after;
  try rewrite createUserAddress_run;
  try rewrite deleteUserAddress_run;
  try rewrite exec_updateProductStock;
  repeat (progress unfold_calls);
  unfold bind, gets, modify, ret, throw;
  crush_frame.

Lemma exec_updateUserAddress id userId updates s :
  exec (UpdateUserAddress id userId updates) s
  = match findAddress id userId s with
    | None => s
    | Some address =>
        with_addresses
          (JsMap.set id (mergeAddress address updates)
             (clearedForUpdate id userId updates (addresses s))) s
    end.
Proof.
  unfold exec, state_after. destruct (findAddress id userId s) eqn:F.
  - rewrite (updateUserAddress_run _ _ _ _ _ F). reflexivity.
  - rewrite (updateUserAddress_missing _ _ _ _ F). reflexivity.
Qed.

(** Only the two inventory methods touch the log. *)
Lemma exec_frame_logs c s :
  match c with
  | CreateInventoryLog _ _ | UpdateProductStock _ _ _ => True
  | _ =>
      inventoryLogs (exec c s) = inventoryLogs s /\
      currentInventoryLogId (exec c s) = currentInventoryLogId s
  end.
Proof.
  destruct c; try exact I;
    try (rewrite exec_updateUserAddress; destruct (findAddress _ _ _); auto);
    run_call; auto.
Qed.

(** Only [createPendingUser] and [completeUserRegistration] touch the
    pending registrations. *)
Lemma exec_frame_pending c s :
  match c with
  | CreatePendingUser _ _ _ | CompleteUserRegistration _ _ _ => True
  | _ => pendingUsers (exec c s) = pendingUsers s
  end.
Proof.
  destruct c; try exact I;
    try (rewrite exec_updateUserAddress; destruct (findAddress _ _ _); auto);
    run_call; auto.
Qed.

(** Only the three address methods touch the addresses and their
    counter. *)
Lemma exec_frame_addresses c s :
  match c with
  | CreateUserAddress _ _ | UpdateUserAddress _ _ _ | DeleteUserAddress _ _ =>
      True
  | _ =>
      addresses (exec c s) = addresses s /\
      CurrentIds.address (currentIds (exec c s))
      = CurrentIds.address (currentIds s)
  end.
Proof.
  destruct c; try exact I; run_call; auto.
Qed.

(** ** Invariants of the reachable storages *)

Lemma newMemStorage_logs now :
  inventoryLogs (newMemStorage now) = [] /\
  pendingUsers (newMemStorage now) = [] /\
  addresses (newMemStorage now) = [].
Proof. repeat split; reflexivity. Qed.

Lemma createInventoryLog_run now log s :
  createInventoryLog now log s
  = (Ok (InventoryLog.mk (currentInventoryLogId s)
           (InsertInventoryLog.productId log)
           (InsertInventoryLog.quantity log)
           (InsertInventoryLog.type log)
           (or_null_str (InsertInventoryLog.note log))
           (Some now)),
     with_inventoryLogs
       (JsMap.set (currentInventoryLogId s)
          (InventoryLog.mk (currentInventoryLogId s)
             (InsertInventoryLog.productId log)
             (InsertInventoryLog.quantity log)
             (InsertInventoryLog.type log)
             (or_null_str (InsertInventoryLog.note log))
             (Some now))
          (inventoryLogs s))
       (with_currentInventoryLogId (currentInventoryLogId s + 1) s)).
Proof. reflexivity. Qed.

Lemma logs_numbered_step s k v :
  logs_numbered s ->
  logs_numbered
    (with_inventoryLogs (JsMap.set (currentInventoryLogId s) v (inventoryLogs s))
       (with_currentInventoryLogId (currentInventoryLogId s + 1) k)).
Proof.
  unfold logs_numbered. simpl. intros I x Hx.
  apply JsMapFacts.in_keys_set in Hx. destruct Hx as [->|Hx]; [lia|].
  specialize (I x Hx). lia.
Qed.

Lemma reachable_logs_numbered s : reachable s -> logs_numbered s.
Proof.
  induction 1 as [now|c s R IH].
  - intros k Hk. destruct (newMemStorage_logs now) as (E & _).
    rewrite E in Hk. destruct Hk.
  - pose proof (exec_frame_logs c s) as F.
    destruct c;
      try (match type of F with
           | _ /\ _ =>
               destruct F as [F1 F2]; unfold logs_numbered in *;
               rewrite F1, F2; exact IH
           end).
    + unfold exec, state_after. rewrite createInventoryLog_run. simpl.
      apply logs_numbered_step. exact IH.
    + rewrite exec_updateProductStock.
      destruct (JsMap.get productId (products s)); [|exact IH].
      apply logs_numbered_step. exact IH.
Qed.

Lemma exec_createPendingUser email token expiry s :
  exec (CreatePendingUser email token expiry) s = s \/
  exec (CreatePendingUser email token expiry) s
  = with_pendingUsers
      (JsMap.set email (PendingUser.mk email (Some token) (Some expiry) None)
         (pendingUsers s)) s.
Proof.
  unfold exec, state_after.
  destruct (find (fun user => String.eqb (User.email user) email)
              (JsMap.values (users s))) eqn:F.
  - left. rewrite (createPendingUser_taken _ _ _ _ _ F). reflexivity.
  - right. rewrite (createPendingUser_free _ _ _ _ F). reflexivity.
Qed.

Lemma exec_completeUserRegistration now email password s :
  pendingUsers (exec (CompleteUserRegistration now email password) s)
  = pendingUsers s \/
  pendingUsers (exec (CompleteUserRegistration now email password) s)
  = JsMap.delete email (pendingUsers s).
Proof.
  unfold exec, state_after.
  destruct (JsMap.get email (pendingUsers s)) eqn:G.
  - right.
    destruct (completeUserRegistration_present now email password s _ G)
      as (s' & E & _ & Q).
    rewrite E. exact Q.
  - left. rewrite (completeUserRegistration_missing _ _ _ _ G). reflexivity.
Qed.

Lemma pending_keyed_set s email p :
  PendingUser.email p = email ->
  pending_keyed s ->
  pending_keyed (with_pendingUsers (JsMap.set email p (pendingUsers s)) s).
Proof.
  intros E [ND K]. split; simpl.
  - apply JsMapFacts.NoDup_keys_set. exact ND.
  - intros k q I. apply JsMapFacts.in_set in I. destruct I as [I|I].
    + injection I as -> ->. exact E.
    + eauto.
Qed.

Lemma reachable_pending_keyed s : reachable s -> pending_keyed s.
Proof.
  induction 1 as [now|c s R IH].
  - destruct (newMemStorage_logs now) as (_ & E & _).
    unfold pending_keyed. rewrite E. split; [constructor | intros k p []].
  - pose proof (exec_frame_pending c s) as F.
    destruct c; try (unfold pending_keyed in *; rewrite F; exact IH).
    + destruct (exec_createPendingUser email verificationToken tokenExpiry s)
        as [E|E]; rewrite E; [exact IH|].
      apply pending_keyed_set; [reflexivity | exact IH].
    + destruct IH as [ND K].
      destruct (exec_completeUserRegistration now email password s) as [E|E];
        unfold pending_keyed; rewrite E.
      * split; assumption.
      * split; [apply JsMapFacts.NoDup_keys_delete; exact ND|].
        intros k p I. apply JsMapFacts.in_delete in I. destruct I as [I _].
        eauto.
Qed.

(** ** Inventory: stock adjustment *)

Lemma roundDouble_exact n : Z.abs n <= two53 -> roundDouble n = n.
Proof.
  intros L. unfold roundDouble. apply Z.leb_le in L. rewrite L. reflexivity.
Qed.

Lemma js_add_0_r a : js_add a 0 = a.
Proof. reflexivity. Qed.

(** A sum within [+-2^53] is exact. *)
Lemma js_add_exact a b : Z.abs (a + b) <= 2 ^ 53 -> js_add a b = a + b.
Proof.
  intros L. unfold js_add.
  destruct (b =? 0) eqn:B; [apply Z.eqb_eq in B; lia|].
  destruct (a =? 0) eqn:A; [apply Z.eqb_eq in A; lia|].
  apply roundDouble_exact. exact L.
Qed.

Lemma restocked_stock product quantityChange :
  Product.stock (restocked product quantityChange)
  = Z.max 0 (js_add (Product.stock product) quantityChange).
Proof. reflexivity. Qed.

Lemma restocked_zero product :
  0 <= Product.stock product -> restocked product 0 = product.
Proof.
  intros L. destruct product. unfold restocked, mergeProduct. simpl.
  f_equal. unfold spread. simpl in L. rewrite js_add_0_r. lia.
Qed.

Lemma stock_log_appended now productId quantityChange s k :
  logs_numbered s ->
  JsMap.values
    (JsMap.set (currentInventoryLogId s)
       (stockLog now productId quantityChange k) (inventoryLogs s))
  = JsMap.values (inventoryLogs s) ++ [stockLog now productId quantityChange k].
Proof.
  intros I. apply JsMapFacts.values_set_fresh.
  intros Hin. specialize (I _ Hin). lia.
Qed.

Lemma putStock_numeric now productId quantity s product user :
  JsMap.get productId (products s) = Some product ->
  putStock now (Int productId) (Int quantity) (Some user) s
  = mkReply (mkResponse 200 (JProduct (restocked product quantity)))
      (Some user)
      (snd (updateProductStock now productId quantity s)).
Proof.
  intros G. unfold putStock. simpl.
  rewrite (updateProductStock_run _ _ _ _ _ G). reflexivity.
Qed.

Lemma putStock_400 now productId quantity user s :
  status (response (putStock now productId quantity (Some user) s)) = 400
  <-> quantity = NaN.
Proof.
  unfold putStock. simpl. destruct quantity as [|q]; simpl.
  - split; reflexivity.
  - split; [|discriminate]. destruct productId as [|pid]; simpl.
    + discriminate.
    + destruct (updateProductStock now pid q s) as [[p|[msg]] s1]; simpl;
        discriminate.
Qed.

(** C10 -- [updateProductStock] does not require a non-zero delta: called
    with delta 0 on an existing product it returns, sets the stock to
    [max(0, stock + 0)] -- the stock itself, and the product and the whole
    product map unchanged, whenever the stock is not negative -- and still
    appends one log entry, with quantity 0 and type ["remove"].  The stock
    route of an authenticated session answers 200 with that product for a
    quantity of zero, and answers 400 only for a quantity that is not a
    number. *)
Theorem updateProductStock_zero_delta :
  forall (now productId : Z) (product : Product.t) (user : SessionUser.t)
         (s : MemStorage),
    reachable s ->
    JsMap.get productId (products s) = Some product ->
    exists updated s',
      updateProductStock now productId 0 s = (Ok updated, s') /\
      Product.stock updated = Z.max 0 (Product.stock product + 0) /\
      (0 <= Product.stock product ->
       updated = product /\ products s' = products s) /\
      (exists entry,
         JsMap.values (inventoryLogs s')
         = JsMap.values (inventoryLogs s) ++ [entry] /\
         InventoryLog.productId entry = productId /\
         InventoryLog.quantity entry = 0 /\
         InventoryLog.type entry = "remove") /\
      putStock now (Int productId) (Int 0) (Some user) s
      = mkReply (mkResponse 200 (JProduct updated)) (Some user) s' /\
      (forall anyProduct quantity,
         status (response (putStock now anyProduct quantity (Some user) s))
         = 400
         <-> quantity = NaN).
Proof.
  intros now productId product user s R G.
  exists (restocked product 0). eexists.
  split; [apply (updateProductStock_run _ _ _ _ _ G)|].
  split; [rewrite restocked_stock, js_add_0_r, Z.add_0_r; reflexivity|].
  split.
  { intros L. rewrite (restocked_zero _ L). split; [reflexivity|].
    simpl. apply JsMapFacts.set_same_value. exact G. }
  split.
  { exists (stockLog now productId 0 s). split; [|repeat split].
    apply stock_log_appended. apply reachable_logs_numbered. exact R. }
  split.
  { rewrite (putStock_numeric _ _ _ _ _ _ G).
    rewrite (updateProductStock_run _ _ _ _ _ G). reflexivity. }
  intros anyProduct quantity. apply putStock_400.
Qed.

(** A zero adjustment of the first sample product, through the route. *)
Lemma updateProductStock_zero_delta_witness :
  exists product,
    reachable (newMemStorage 0) /\
    JsMap.get 1 (products (newMemStorage 0)) = Some product /\
    exists s',
      putStock 5 (Int 1) (Int 0) (Some (SessionUser.mk 1 ADMIN_EMAIL))
        (newMemStorage 0)
      = mkReply (mkResponse 200 (JProduct product))
          (Some (SessionUser.mk 1 ADMIN_EMAIL)) s' /\
      products s' = products (newMemStorage 0) /\
      exists entry,
        JsMap.values (inventoryLogs s') = [entry] /\
        InventoryLog.quantity entry = 0 /\
        InventoryLog.type entry = "remove".
Proof.
  eexists. split; [apply reachable_new|]. split; [reflexivity|].
  destruct (updateProductStock_zero_delta 5 1 _
              (SessionUser.mk 1 ADMIN_EMAIL) (newMemStorage 0)
              (reachable_new 0) eq_refl)
    as (updated & s' & _ & _ & U & (entry & L & _ & Q & T) & P & _).
  destruct U as [U1 U2]; [vm_compute; discriminate|].
  exists s'. split; [rewrite <- U1; exact P|]. split; [exact U2|].
  exists entry. split; [exact L|]. split; [exact Q | exact T].
Defined.

(** ** Registration: the pending store *)

Lemma pendingFor_lookup (m : JsMap.t string PendingUser.t) email :
  NoDup (JsMap.keys m) ->
  (forall k p, In (k, p) m -> PendingUser.email p = k) ->
  filter (fun p => String.eqb (PendingUser.email p) email) (JsMap.values m)
  = match JsMap.get email m with Some p => [p] | None => [] end.
Proof.
  induction m as [|[k0 p0] rest IH]; intros ND K; [reflexivity|].
  inversion ND as [|? ? NI ND']; subst.
  assert (E0 : PendingUser.email p0 = k0) by (apply K; left; reflexivity).
  assert (K' : forall k p, In (k, p) rest -> PendingUser.email p = k)
    by (intros k p I; apply K; right; exact I).
  specialize (IH ND' K').
  cbn [JsMap.values map snd filter JsMap.get]. fold (JsMap.values rest).
  rewrite E0. clear E0. destruct (eq_dec email k0) as [E|N].
  - subst email. rewrite string_eqb_refl. rewrite IH.
    apply JsMapFacts.get_None_notin in NI. rewrite NI. reflexivity.
  - rewrite string_eqb_neq by congruence. exact IH.
Qed.

Lemma pendingFor_keyed s email :
  pending_keyed s ->
  pendingFor email s
  = match JsMap.get email (pendingUsers s) with
    | Some p => [p]
    | None => []
    end.
Proof. intros [ND K]. apply pendingFor_lookup; assumption. Qed.

(** C5 -- In every reachable storage at most one pending record carries
    a given email.  [createPendingUser] throws "User with this email
    already exists" when a user has the email, and then leaves the storage
    (and so the pending store) unchanged.  When no user has the email, a
    first call stores one pending record for it and a second call for the
    same email replaces that record by one with the new code and expiry,
    in the same place, instead of adding another. *)
Theorem pending_store_invariant :
  (forall s email,
     reachable s -> (List.length (pendingFor email s) <= 1)%nat) /\
  (forall s email token expiry user,
     result_of (getUserByEmail email) s = Ok (Some user) ->
     createPendingUser email token expiry s
     = (Throw (MkError "User with this email already exists"), s)) /\
  (forall s email token1 expiry1 token2 expiry2,
     reachable s ->
     result_of (getUserByEmail email) s = Ok None ->
     let s1 := state_after (createPendingUser email token1 expiry1) s in
     let s2 := state_after (createPendingUser email token2 expiry2) s1 in
     pendingFor email s1
     = [PendingUser.mk email (Some token1) (Some expiry1) None] /\
     pendingFor email s2
     = [PendingUser.mk email (Some token2) (Some expiry2) None] /\
     JsMap.keys (pendingUsers s2) = JsMap.keys (pendingUsers s1)).
Proof.
  split; [|split].
  - intros s email R. rewrite (pendingFor_keyed _ _ (reachable_pending_keyed _ R)).
    destruct (JsMap.get email (pendingUsers s)); simpl; lia.
  - intros s email token expiry user F. apply getUserByEmail_some in F.
    apply (createPendingUser_taken _ _ _ _ _ F).
  - intros s email token1 expiry1 token2 expiry2 R F s1 s2.
    apply getUserByEmail_none in F.
    assert (E1 : s1 = with_pendingUsers
                        (JsMap.set email
                           (PendingUser.mk email (Some token1) (Some expiry1) None)
                           (pendingUsers s)) s).
    { unfold s1, state_after. rewrite (createPendingUser_free _ _ _ _ F).
      reflexivity. }
    assert (F1 : find (fun user => String.eqb (User.email user) email)
                   (JsMap.values (users s1)) = None)
      by (rewrite E1; exact F).
    assert (E2 : s2 = with_pendingUsers
                        (JsMap.set email
                           (PendingUser.mk email (Some token2) (Some expiry2) None)
                           (pendingUsers s1)) s1).
    { unfold s2, state_after. rewrite (createPendingUser_free _ _ _ _ F1).
      reflexivity. }
    assert (R1 : reachable s1)
      by (apply (reachable_call (CreatePendingUser email token1 expiry1) s R)).
    assert (R2 : reachable s2)
      by (apply (reachable_call (CreatePendingUser email token2 expiry2) s1 R1)).
    split; [|split].
    + rewrite (pendingFor_keyed _ _ (reachable_pending_keyed _ R1)).
      rewrite E1. simpl. rewrite JsMapFacts.get_set_same. reflexivity.
    + rewrite (pendingFor_keyed _ _ (reachable_pending_keyed _ R2)).
      rewrite E2. simpl. rewrite JsMapFacts.get_set_same. reflexivity.
    + rewrite E2. simpl. apply JsMapFacts.keys_set_present.
      rewrite E1. simpl. rewrite JsMapFacts.get_set_same. discriminate.
Qed.

(** ** Login *)

(** C9 -- For a well-formed request, login answers 401 when no user has
    the email or when the password differs from the stored one, whether or
    not the account is suspended; it answers 403 when the password matches
    and the account is suspended; otherwise it answers 200 and stores the
    user's id and email in the session.  A refused login leaves the
    session as it was. *)
Theorem login_spec :
  forall (isEmail : string -> bool) (email password : string)
         (sess : option SessionUser.t) (s : MemStorage),
    isEmail email = true ->
    let reply := login isEmail (Some email) (Some password) sess s in
    (result_of (getUserByEmail email) s = Ok None ->
     status (response reply) = 401 /\ session reply = sess) /\
    (forall user,
       result_of (getUserByEmail email) s = Ok (Some user) ->
       (User.password user <> password ->
        status (response reply) = 401 /\ session reply = sess) /\
       (User.password user = password ->
        truthy_bool (User.isSuspended user) = true ->
        status (response reply) = 403 /\ session reply = sess) /\
       (User.password user = password ->
        truthy_bool (User.isSuspended user) = false ->
        status (response reply) = 200 /\
        session reply
        = Some (SessionUser.mk (User.id user) (User.email user)))).
Proof.
  intros isEmail email password sess s V reply.
  unfold reply, login, parseLogin. rewrite V. rewrite getUserByEmail_run.
  split.
  - intros F. apply getUserByEmail_none in F. rewrite F. simpl. auto.
  - intros user F. apply getUserByEmail_some in F. rewrite F.
    split; [|split].
    + intros N. rewrite string_eqb_neq by exact N. simpl. auto.
    + intros E S. rewrite E, string_eqb_refl. simpl. rewrite S. simpl. auto.
    + intros E S. rewrite E, string_eqb_refl. simpl. rewrite S. simpl. auto.
Qed.

(** The administrator the constructor creates logs in with the right
    password, is refused with a wrong one, and is refused with 401, not
    403, with a wrong one after being suspended. *)
Lemma login_spec_witness :
  let s := newMemStorage 0 in
  let suspended := exec (ToggleUserSuspension 1) s in
  (status (response (login (fun _ => true) (Some ADMIN_EMAIL)
                       (Some "admin123") None s)) = 200 /\
   session (login (fun _ => true) (Some ADMIN_EMAIL) (Some "admin123") None s)
   = Some (SessionUser.mk 1 ADMIN_EMAIL)) /\
  status (response (login (fun _ => true) (Some ADMIN_EMAIL)
                      (Some "admin123") None suspended)) = 403 /\
  status (response (login (fun _ => true) (Some ADMIN_EMAIL)
                      (Some "wrong") None suspended)) = 401.
Proof.
  intros s suspended.
  destruct (login_spec (fun _ => true) ADMIN_EMAIL "admin123" None s eq_refl)
    as [_ A].
  destruct (login_spec (fun _ => true) ADMIN_EMAIL "admin123" None suspended
              eq_refl) as [_ B].
  destruct (login_spec (fun _ => true) ADMIN_EMAIL "wrong" None suspended
              eq_refl) as [_ C].
  split; [|split].
  - destruct (A _ eq_refl) as (_ & _ & A3). apply (A3 eq_refl eq_refl).
  - destruct (B _ eq_refl) as (_ & B2 & _).
    destruct (B2 eq_refl eq_refl) as [B3 _]. exact B3.
  - destruct (C _ eq_refl) as (C1 & _).
    destruct C1 as [C2 _]; [discriminate | exact C2].
Defined.

(** ** Inventory: low stock *)

(** C6 -- The code departs from [stock <= (threshold ?? minStock ?? 5)] on
    a zero.  After the first sample product (minimum stock 5) is brought
    down to a stock of 3, [getLowStockProducts(0)] returns it, although
    3 <= 0 is false: the test [if (threshold)] treats a threshold of 0 as
    absent and falls back to the product's own minimum.  The other
    products and the storage are as the specification says: nothing is
    written. *)
Theorem getLowStockProducts_zero_threshold :
  let s := exec (UpdateProductStock 0 1 (-7)) (newMemStorage 0) in
  exists shirt,
    JsMap.get 1 (products s) = Some shirt /\
    Product.stock shirt = 3 /\
    Product.minStock shirt = Some 5 /\
    getLowStockProducts (Some 0) s = (Ok [shirt], s) /\
    spec_isLowStock (Some 0) shirt = false /\
    filter (spec_isLowStock (Some 0)) (JsMap.values (products s)) = [].
Proof.
  eexists. split; [reflexivity|]. repeat split.
Qed.

(** ** Addresses: the primary flag *)

(** C7 -- The single-primary rule is lost when an update reassigns the
    owner.  Users 1 and 2 each create a primary address (ids 1 and 2);
    every user then has one primary address.  The call
    [updateUserAddress(2, 2, { isPrimary: true, userId: 1 })] finds
    address 2 under user 2, clears the flag on the other addresses of
    user 2 (there are none) and stores the merged address, which now
    belongs to user 1: user 1 owns two primary addresses. *)
Theorem updateUserAddress_reassigned_owner :
  let home userId :=
    InsertUserAddress.mk userId "1 Main Road" None "Ambala" "Haryana"
      "134003" None (Some true) None None in
  let s1 := exec (CreateUserAddress 0 (home 1)) (newMemStorage 0) in
  let s2 := exec (CreateUserAddress 0 (home 2)) s1 in
  let updates :=
    AddressUpdates.mk None (Some 1) None None None None None None
      (Some (Some true)) None None None in
  let s3 := exec (UpdateUserAddress 2 2 updates) s2 in
  single_primary s2 /\
  List.length (primaryOf 1 s2) = 1%nat /\
  (exists updated, updateUserAddress 2 2 updates s2 = (Ok updated, s3) /\
                   UserAddress.userId updated = 1 /\
                   UserAddress.isPrimary updated = Some true) /\
  map UserAddress.id (primaryOf 1 s3) = [1; 2] /\
  ~ single_primary s3.
Proof.
  intros home s1 s2 updates s3.
  assert (P2 : forall userId, primaryOf userId s2
               = filter (fun a => UserAddress.userId a =? userId)
                   (JsMap.values (addresses s2))).
  { intros userId. unfold primaryOf. apply filter_ext_in. intros a I.
    vm_compute in I. destruct I as [<-|[<-|[]]]; simpl;
      rewrite andb_true_r; reflexivity. }
  split; [|split; [|split; [|split]]].
  - intros userId. rewrite P2.
    change (JsMap.values (addresses s2))
      with [newAddressOf 0 (home 1) (newMemStorage 0);
            newAddressOf 0 (home 2) s1].
    simpl. destruct (1 =? userId) eqn:E1; destruct (2 =? userId) eqn:E2;
      simpl; lia.
  - reflexivity.
  - unfold s3, exec, state_after.
    destruct (updateUserAddress 2 2 updates s2) as [r st] eqn:E.
    vm_compute in E. injection E as <- <-.
    eexists. split; [reflexivity|]. split; reflexivity.
  - reflexivity.
  - intros S. specialize (S 1). vm_compute in S. lia.
Qed.

(** ** Facts about tables *)

Lemma firstRow_updated {R : Type} (condition : R -> bool) (set : R -> R)
    (table : list R) :
  firstRow (updatedRows condition set table)
  = option_map set (firstRow (selectWhere condition table)).
Proof.
  unfold updatedRows, selectWhere, firstRow.
  destruct (filter condition table); reflexivity.
Qed.

Lemma select_updated_same {R : Type} (condition : R -> bool) (set : R -> R)
    (table : list R) :
  (forall row, condition row = true -> condition (set row) = true) ->
  selectWhere condition (updateWhere condition set table)
  = map set (selectWhere condition table).
Proof.
  intros P. unfold selectWhere, updateWhere.
  induction table as [|row rest IH]; simpl; [reflexivity|].
  destruct (condition row) eqn:C.
  - rewrite (P _ C). simpl. rewrite IH. reflexivity.
  - rewrite C. exact IH.
Qed.

Lemma select_updated_other {R : Type} (condition other : R -> bool)
    (set : R -> R) (table : list R) :
  (forall row, condition row = true -> other row = false) ->
  (forall row, condition row = true -> other (set row) = false) ->
  selectWhere other (updateWhere condition set table)
  = selectWhere other table.
Proof.
  intros P Q. unfold selectWhere, updateWhere.
  induction table as [|row rest IH]; simpl; [reflexivity|].
  destruct (condition row) eqn:C.
  - rewrite (P _ C), (Q _ C). exact IH.
  - destruct (other row); rewrite IH; reflexivity.
Qed.

(** ** [DatabaseStorage]: the methods, run *)

Lemma db_getPendingUserByEmail_run email db :
  DatabaseStorage.getPendingUserByEmail email db
  = (Ok (option_map
           (fun row =>
              PendingUser.mk (User.email row) (User.verificationToken row)
                (option_map DateAt (User.verificationTokenExpiry row))
                (or_null_str (User.mobileNumber row)))
           (pendingRow email db)), db).
Proof.
  unfold DatabaseStorage.getPendingUserByEmail, pendingRow.
  unfold bind, gets, ret. simpl.
  destruct (firstRow _); reflexivity.
Qed.

Lemma db_verifyEmailToken_run now email token db :
  DatabaseStorage.verifyEmailToken now email token db
  = (Ok (tokenVerdict now token
           (option_map
              (fun row =>
                 PendingUser.mk (User.email row) (User.verificationToken row)
                   (option_map DateAt (User.verificationTokenExpiry row))
                   (or_null_str (User.mobileNumber row)))
              (pendingRow email db))), db).
Proof.
  unfold DatabaseStorage.verifyEmailToken.
  rewrite (bind_ok _ _ _ _ _ (db_getPendingUserByEmail_run email db)).
  unfold tokenVerdict. destruct (option_map _ _) as [p|]; [|reflexivity].
  repeat (match goal with
          | |- context [if ?b then _ else _] => destruct b
          end; try reflexivity).
Qed.

Lemma verifyEmailToken_run now email token s :
  verifyEmailToken now email token s
  = (Ok (tokenVerdict now token (JsMap.get email (pendingUsers s))), s).
Proof.
  unfold verifyEmailToken, getPendingUserByEmail.
  unfold bind, gets. simpl.
  unfold tokenVerdict. destruct (JsMap.get email (pendingUsers s)) as [p|];
    [|reflexivity].
  repeat (match goal with
          | |- context [if ?b then _ else _] => destruct b
          end; try reflexivity).
Qed.

Lemma tokenVerdict_true_iff now token pendingUser :
  tokenVerdict now token pendingUser = true <->
  exists pending expiry,
    pendingUser = Some pending /\
    PendingUser.verificationToken pending = Some token /\
    token <> "" /\
    PendingUser.verificationTokenExpiry pending = Some expiry /\
    notAfter now expiry.
Proof.
  unfold tokenVerdict. destruct pendingUser as [p|].
  2:{ split; [discriminate | intros (q & e & F & _); discriminate]. }
  destruct p as [pe ptok pexp pmob]; simpl.
  destruct ptok as [tok|]; simpl.
  2:{ split; [discriminate | intros (q & e & [= <-] & F & _); discriminate]. }
  destruct pexp as [exp|]; simpl.
  2:{ destruct tok; simpl;
      (split; [discriminate
              | intros (q & e & [= <-] & _ & _ & F & _); discriminate]). }
  destruct tok as [|c tok]; simpl.
  { split; [discriminate|].
    intros (q & e & [= <-] & [= <-] & F & _). congruence. }
  destruct (String.eqb (String c tok) token) eqn:E; simpl.
  - apply String.eqb_eq in E. subst token.
    destruct exp as [time|]; simpl.
    + destruct (now >? time) eqn:G; simpl.
      * split; [discriminate|].
        intros (q & e & [= <-] & _ & _ & [= <-] & L). simpl in *. lia.
      * split; [|reflexivity]. intros _.
        exists (PendingUser.mk pe (Some (String c tok)) (Some (DateAt time))
                  pmob), (DateAt time).
        repeat split; try reflexivity; [discriminate | simpl; lia].
    + split; [|reflexivity]. intros _.
      exists (PendingUser.mk pe (Some (String c tok)) (Some InvalidDate)
                pmob), InvalidDate.
      repeat split; try reflexivity. discriminate.
  - apply String.eqb_neq in E.
    split; [discriminate|].
    intros (q & e & [= <-] & [= T] & _). congruence.
Qed.

Lemma db_updateProductStock_run outOfRange now productId quantityChange db
    product :
  productRow productId db = Some product ->
  int4 productId = true ->
  int4 (Z.max 0 (js_add (Product.stock product) quantityChange)) = true ->
  int4 quantityChange = true ->
  DatabaseStorage.updateProductStock outOfRange now productId quantityChange db
  = (Ok (Some (restocked product quantityChange)),
     Database.with_inventoryLogs
       (Database.inventoryLogs db
        ++ [InventoryLog.mk (Database.inventoryLogs_id_seq db) productId
              quantityChange
              (if quantityChange >? 0 then "add" else "remove")
              (Some (stock_note quantityChange)) (Some now)])
       (Database.inventoryLogs_id_seq db + 1)
       (Database.with_products
          (updateWhere (fun row => Product.id row =? productId)
             (DatabaseStorage.setStock
                (Z.max 0 (js_add (Product.stock product) quantityChange)))
             (Database.products db)) db)).
Proof.
  unfold productRow. intros G Ip Is Iq.
  unfold DatabaseStorage.updateProductStock,
    DatabaseStorage.createInventoryLog, DatabaseStorage.bindInteger.
  unfold bind, gets, modify, ret. rewrite Ip. cbn [fst snd].
  rewrite G. cbn [fst snd]. rewrite Is. cbn [fst snd].
  cbn [InsertInventoryLog.productId InsertInventoryLog.quantity].
  rewrite Ip, Iq. cbn [fst snd].
  rewrite firstRow_updated. rewrite G. reflexivity.
Qed.

Lemma db_updateProductStock_missing outOfRange now productId quantityChange
    db :
  int4 productId = true ->
  productRow productId db = None ->
  DatabaseStorage.updateProductStock outOfRange now productId quantityChange db
  = (Throw (MkError "Product not found"), db).
Proof.
  unfold productRow. intros Ip G.
  unfold DatabaseStorage.updateProductStock, DatabaseStorage.bindInteger.
  unfold bind, gets, throw. rewrite Ip. cbn [fst snd]. rewrite G.
  reflexivity.
Qed.

(** The [select] is refused. *)
Lemma db_updateProductStock_refused_id outOfRange now productId
    quantityChange db :
  int4 productId = false ->
  DatabaseStorage.updateProductStock outOfRange now productId quantityChange db
  = (Throw (outOfRange productId), db).
Proof.
  intros Ip.
  unfold DatabaseStorage.updateProductStock, DatabaseStorage.bindInteger.
  unfold bind. rewrite Ip. reflexivity.
Qed.

(** The [update] is refused. *)
Lemma db_updateProductStock_refused_stock outOfRange now productId
    quantityChange db product :
  productRow productId db = Some product ->
  int4 productId = true ->
  int4 (Z.max 0 (js_add (Product.stock product) quantityChange)) = false ->
  DatabaseStorage.updateProductStock outOfRange now productId quantityChange db
  = (Throw
       (outOfRange (Z.max 0 (js_add (Product.stock product) quantityChange))),
     db).
Proof.
  unfold productRow. intros G Ip Is.
  unfold DatabaseStorage.updateProductStock, DatabaseStorage.bindInteger.
  unfold bind, gets. rewrite Ip. cbn [fst snd]. rewrite G. cbn [fst snd].
  rewrite Is. reflexivity.
Qed.

(** The [insert] of the log is refused, after the [update] was done. *)
Lemma db_updateProductStock_refused_delta outOfRange now productId
    quantityChange db product :
  productRow productId db = Some product ->
  int4 productId = true ->
  int4 (Z.max 0 (js_add (Product.stock product) quantityChange)) = true ->
  int4 quantityChange = false ->
  DatabaseStorage.updateProductStock outOfRange now productId quantityChange db
  = (Throw (outOfRange quantityChange),
     Database.with_products
       (updateWhere (fun row => Product.id row =? productId)
          (DatabaseStorage.setStock
             (Z.max 0 (js_add (Product.stock product) quantityChange)))
          (Database.products db)) db).
Proof.
  unfold productRow. intros G Ip Is Iq.
  unfold DatabaseStorage.updateProductStock,
    DatabaseStorage.createInventoryLog, DatabaseStorage.bindInteger.
  unfold bind, gets, modify, ret. rewrite Ip. cbn [fst snd].
  rewrite G. cbn [fst snd]. rewrite Is. cbn [fst snd].
  cbn [InsertInventoryLog.productId InsertInventoryLog.quantity].
  rewrite Ip, Iq. reflexivity.
Qed.

Lemma productRow_after_update productId newStock db :
  firstRow
    (selectWhere (fun row => Product.id row =? productId)
       (updateWhere (fun row => Product.id row =? productId)
          (DatabaseStorage.setStock newStock) (Database.products db)))
  = option_map (DatabaseStorage.setStock newStock) (productRow productId db).
Proof.
  rewrite select_updated_same by (intros row C; exact C).
  unfold productRow, firstRow.
  destruct (selectWhere _ _); reflexivity.
Qed.

Lemma productRow_other_after_update productId other newStock db :
  other <> productId ->
  selectWhere (fun row => Product.id row =? other)
    (updateWhere (fun row => Product.id row =? productId)
       (DatabaseStorage.setStock newStock) (Database.products db))
  = selectWhere (fun row => Product.id row =? other) (Database.products db).
Proof.
  intros N. apply select_updated_other.
  - intros row C. apply Z.eqb_eq in C. apply Z.eqb_neq. congruence.
  - intros row C. apply Z.eqb_eq in C. apply Z.eqb_neq. simpl. congruence.
Qed.

Lemma db_getLowStockProducts_run threshold db :
  DatabaseStorage.getLowStockProducts threshold db
  = (Ok (sortBy (fun a b => Product.stock a - Product.stock b)
           (filter (isLowStock threshold) (Database.products db))), db).
Proof.
  unfold DatabaseStorage.getLowStockProducts, isLowStock.
  unfold bind, gets, ret. simpl.
  destruct (truthy_num threshold); reflexivity.
Qed.

Lemma db_completeUserRegistration_run email password db row :
  pendingRow email db = Some row ->
  DatabaseStorage.completeUserRegistration email password db
  = (Ok (firstRow
           (updatedRows (fun r => String.eqb (User.email r) email)
              (DatabaseStorage.completed password) (Database.users db))),
     Database.with_users
       (updateWhere (fun r => String.eqb (User.email r) email)
          (DatabaseStorage.completed password) (Database.users db))
       (Database.users_id_seq db) db).
Proof.
  intros G. unfold DatabaseStorage.completeUserRegistration.
  rewrite (bind_ok _ _ _ _ _ (db_getPendingUserByEmail_run email db)).
  rewrite G. reflexivity.
Qed.

Lemma db_completeUserRegistration_missing email password db :
  pendingRow email db = None ->
  DatabaseStorage.completeUserRegistration email password db
  = (Throw NO_PENDING, db).
Proof.
  intros G. unfold DatabaseStorage.completeUserRegistration.
  rewrite (bind_ok _ _ _ _ _ (db_getPendingUserByEmail_run email db)).
  rewrite G. reflexivity.
Qed.

(** After a completion with a password other than the placeholder, no row
    of that email is pending. *)
Lemma pendingRow_after_complete email password db :
  password <> DatabaseStorage.PENDING_REGISTRATION ->
  pendingRow email
    (Database.with_users
       (updateWhere (fun r => String.eqb (User.email r) email)
          (DatabaseStorage.completed password) (Database.users db))
       (Database.users_id_seq db) db)
  = None.
Proof.
  intros N. unfold pendingRow. simpl.
  assert (E : selectWhere
                (fun row =>
                   String.eqb (User.email row) email
                   && String.eqb (User.password row)
                        DatabaseStorage.PENDING_REGISTRATION)
                (updateWhere (fun r => String.eqb (User.email r) email)
                   (DatabaseStorage.completed password) (Database.users db))
              = []).
  { unfold selectWhere, updateWhere.
    induction (Database.users db) as [|row rest IH]; simpl; [reflexivity|].
    destruct (String.eqb (User.email row) email) eqn:C; simpl.
    - rewrite C. simpl. rewrite string_eqb_neq by exact N. simpl. exact IH.
    - rewrite C. simpl. exact IH. }
  rewrite E. reflexivity.
Qed.

(** ** Inventory: stock adjustment, on both storages *)

(** C1 (amended) -- For every existing product and every integer delta
    whose sum with the stock lies within [+-2^53], the integers that a
    JavaScript sum holds exactly, [updateProductStock(productId, delta)]
    returns the product with its stock set to [max(0, stock + delta)] and
    nothing else changed, stores it under [productId] without touching
    the other products, and appends exactly one entry to the inventory
    log, whose quantity is the requested delta as given (not the clamped
    difference) and whose type is ["add"] when the delta is positive and
    ["remove"] otherwise.  A negative delta larger than the stock leaves
    the stock at zero.  [DatabaseStorage] does the same when, besides,
    the product id, the delta and the new stock fit its 32-bit [integer]
    columns. *)
Theorem updateProductStock_spec :
  forall (now productId delta : Z) (product : Product.t),
    Z.abs (Product.stock product + delta) <= 2 ^ 53 ->
    (forall s : MemStorage,
       reachable s ->
       JsMap.get productId (products s) = Some product ->
       exists updated s',
         updateProductStock now productId delta s = (Ok updated, s') /\
         updated
         = mergeProduct product
             (ProductUpdates.only_stock
                (Z.max 0 (Product.stock product + delta))) /\
         Product.stock updated = Z.max 0 (Product.stock product + delta) /\
         (Product.stock product + delta <= 0 -> Product.stock updated = 0) /\
         JsMap.get productId (products s') = Some updated /\
         (forall other,
            other <> productId ->
            JsMap.get other (products s') = JsMap.get other (products s)) /\
         exists entry,
           JsMap.values (inventoryLogs s')
           = JsMap.values (inventoryLogs s) ++ [entry] /\
           InventoryLog.productId entry = productId /\
           InventoryLog.quantity entry = delta /\
           InventoryLog.type entry
           = (if delta >? 0 then "add" else "remove")) /\
    (forall (outOfRange : Z -> Error) (db : Database.t),
       productRow productId db = Some product ->
       int4 productId = true ->
       int4 delta = true ->
       int4 (Z.max 0 (Product.stock product + delta)) = true ->
       exists updated db',
         DatabaseStorage.updateProductStock outOfRange now productId delta db
         = (Ok (Some updated), db') /\
         updated
         = mergeProduct product
             (ProductUpdates.only_stock
                (Z.max 0 (Product.stock product + delta))) /\
         Product.stock updated = Z.max 0 (Product.stock product + delta) /\
         (Product.stock product + delta <= 0 -> Product.stock updated = 0) /\
         productRow productId db' = Some updated /\
         (forall other,
            other <> productId ->
            selectWhere (fun row => Product.id row =? other)
              (Database.products db')
            = selectWhere (fun row => Product.id row =? other)
                (Database.products db)) /\
         exists entry,
           Database.inventoryLogs db' = Database.inventoryLogs db ++ [entry] /\
           InventoryLog.productId entry = productId /\
           InventoryLog.quantity entry = delta /\
           InventoryLog.type entry
           = (if delta >? 0 then "add" else "remove")).
Proof.
  intros now productId delta product Safe.
  pose proof (js_add_exact _ _ Safe) as Sum.
  assert (restocked product delta
          = mergeProduct product
              (ProductUpdates.only_stock
                 (Z.max 0 (Product.stock product + delta)))) as Re.
  { unfold restocked. rewrite Sum. reflexivity. }
  assert (Product.stock (restocked product delta)
          = Z.max 0 (Product.stock product + delta)) as St.
  { rewrite restocked_stock, Sum. reflexivity. }
  split.
  - intros s R G.
    exists (restocked product delta). eexists.
    split; [apply (updateProductStock_run _ _ _ _ _ G)|].
    split; [exact Re|].
    split; [exact St|].
    split; [rewrite St; lia|].
    simpl. split; [apply JsMapFacts.get_set_same|].
    split; [intros other N; apply JsMapFacts.get_set_other; congruence|].
    exists (stockLog now productId delta s).
    split; [|repeat split].
    apply stock_log_appended. apply reachable_logs_numbered. exact R.
  - intros outOfRange db G Ip Iq Is.
    rewrite <- Sum in Is.
    exists (restocked product delta). eexists.
    split; [apply (db_updateProductStock_run _ _ _ _ _ _ G Ip Is Iq)|].
    split; [exact Re|].
    split; [exact St|].
    split; [rewrite St; lia|].
    split.
    { unfold productRow at 1. simpl. rewrite productRow_after_update.
      rewrite G. reflexivity. }
    split.
    { intros other N. simpl. apply productRow_other_after_update. exact N. }
    eexists. split; [reflexivity|]. repeat split.
Qed.

(** The example of the specification: a product with stock 10 and a delta
    of -1000, in the storage the constructor builds and in a database that
    holds the product. *)
Lemma updateProductStock_spec_witness :
  exists product,
    reachable (newMemStorage 0) /\
    JsMap.get 1 (products (newMemStorage 0)) = Some product /\
    Product.stock product = 10 /\
    (exists updated s',
       updateProductStock 5 1 (-1000) (newMemStorage 0) = (Ok updated, s') /\
       Product.stock updated = 0 /\
       exists entry,
         JsMap.values (inventoryLogs s') = [entry] /\
         InventoryLog.quantity entry = -1000 /\
         InventoryLog.type entry = "remove") /\
    (forall outOfRange,
     exists updated db',
       DatabaseStorage.updateProductStock outOfRange 5 1 (-1000)
         (Database.with_products [product] Database.empty)
       = (Ok (Some updated), db') /\
       Product.stock updated = 0 /\
       exists entry,
         Database.inventoryLogs db' = [entry] /\
         InventoryLog.quantity entry = -1000 /\
         InventoryLog.type entry = "remove").
Proof.
  destruct (JsMap.get 1 (products (newMemStorage 0))) as [product|] eqn:G;
    [|vm_compute in G; discriminate].
  assert (Product.stock product = 10) as S10
    by (vm_compute in G; injection G as <-; reflexivity).
  assert (Product.id product = 1) as I1
    by (vm_compute in G; injection G as <-; reflexivity).
  assert (Z.abs (Product.stock product + -1000) <= 2 ^ 53) as Safe
    by (rewrite S10; vm_compute; discriminate).
  destruct (updateProductStock_spec 5 1 (-1000) product Safe) as [Mem Db].
  exists product. split; [apply reachable_new|]. split; [reflexivity|].
  split; [exact S10|]. split.
  - destruct (Mem (newMemStorage 0) (reachable_new 0) G)
      as (updated & s' & E & _ & St & _ & _ & _ & entry & L & _ & Q & T).
    exists updated, s'. split; [exact E|].
    split; [rewrite St, S10; reflexivity|].
    exists entry. split; [exact L|]. split; [exact Q | exact T].
  - intros outOfRange.
    assert (productRow 1 (Database.with_products [product] Database.empty)
            = Some product) as Row.
    { unfold productRow, selectWhere. simpl. rewrite I1. reflexivity. }
    assert (int4 (Z.max 0 (Product.stock product + -1000)) = true) as Is
      by (rewrite S10; reflexivity).
    destruct (Db outOfRange _ Row eq_refl eq_refl Is)
      as (updated & db' & E & _ & St & _ & _ & _ & entry & L & _ & Q & T).
    exists updated, db'. split; [exact E|].
    split; [rewrite St, S10; reflexivity|].
    exists entry. split; [exact L|]. split; [exact Q | exact T].
Defined.

(** Beyond [2^53] the sum is rounded: the second sample product has stock
    15, and a delta of [2^53] gives it the stock 9007199254741008, one
    more than [15 + 2^53].  On [DatabaseStorage] a delta of 3000000000 on
    a stock of 15 is refused by the [integer] column and nothing is
    written. *)
Lemma updateProductStock_beyond_exact_sums :
  let s := newMemStorage 0 in
  (exists product updated s',
     JsMap.get 2 (products s) = Some product /\
     Product.stock product = 15 /\
     updateProductStock 5 2 (2 ^ 53) s = (Ok updated, s') /\
     Product.stock updated = 9007199254741008 /\
     Product.stock updated <> Z.max 0 (Product.stock product + 2 ^ 53)) /\
  (forall outOfRange product,
     JsMap.get 2 (products s) = Some product ->
     let db := Database.with_products [product] Database.empty in
     DatabaseStorage.updateProductStock outOfRange 5 2 3000000000 db
     = (Throw (outOfRange 3000000015), db)).
Proof.
  intros s. split.
  - destruct (JsMap.get 2 (products s)) as [product|] eqn:G;
      [|vm_compute in G; discriminate].
    exists product, (restocked product (2 ^ 53)). eexists.
    split; [reflexivity|].
    assert (Product.stock product = 15) as S15
      by (vm_compute in G; injection G as <-; reflexivity).
    split; [exact S15|].
    split; [apply (updateProductStock_run _ _ _ _ _ G)|].
    rewrite restocked_stock, S15.
    split; [vm_compute; reflexivity | vm_compute; discriminate].
  - intros outOfRange product G db.
    vm_compute in G. injection G as <-. reflexivity.
Qed.

(** ** Sorting by a numeric key *)

Section SortBy.
Context {A : Type} (key : A -> Z).

Let compare := fun a b : A => key a - key b.

Lemma insertBy_perm x l : Permutation (x :: l) (insertBy compare x l).
Proof.
  induction l as [|y rest IH]; simpl; [apply Permutation_refl|].
  destruct (compare x y <=? 0).
  - apply Permutation_refl.
  - eapply perm_trans; [apply perm_swap|]. apply perm_skip. exact IH.
Qed.

Lemma sortBy_perm l : Permutation l (sortBy compare l).
Proof.
  induction l as [|x rest IH]; simpl; [constructor|].
  eapply perm_trans; [apply perm_skip; exact IH|]. apply insertBy_perm.
Qed.

Lemma insertBy_sorted x l :
  StronglySorted (fun a b => key a <= key b) l ->
  StronglySorted (fun a b => key a <= key b) (insertBy compare x l).
Proof.
  induction 1 as [|y rest S IH F]; simpl.
  - constructor; constructor.
  - unfold compare at 1. destruct (key x - key y <=? 0) eqn:C.
    + apply Z.leb_le in C. constructor.
      * constructor; assumption.
      * constructor; [lia|].
        rewrite Forall_forall in *. intros z I. specialize (F z I). lia.
    + apply Z.leb_gt in C. constructor; [exact IH|].
      rewrite Forall_forall in *. intros z I.
      apply (Permutation_in _ (Permutation_sym (insertBy_perm x rest))) in I.
      destruct I as [<-|I]; [lia | auto].
Qed.

Lemma sortBy_sorted l :
  StronglySorted (fun a b => key a <= key b) (sortBy compare l).
Proof.
  induction l as [|x rest IH]; simpl; [constructor|].
  apply insertBy_sorted. exact IH.
Qed.

(** The sort is stable: elements with the same key keep their order. *)
Lemma insertBy_stable k x l :
  filter (fun a => key a =? k) (insertBy compare x l)
  = filter (fun a => key a =? k) (x :: l).
Proof.
  induction l as [|y rest IH]; [reflexivity|].
  cbn [insertBy]. unfold compare at 1.
  destruct (key x - key y <=? 0) eqn:C; [reflexivity|].
  apply Z.leb_gt in C. cbn [filter] in *. rewrite IH.
  destruct (key y =? k) eqn:Y; [|reflexivity].
  apply Z.eqb_eq in Y.
  assert (X : (key x =? k) = false) by (apply Z.eqb_neq; lia).
  rewrite X. reflexivity.
Qed.

Lemma sortBy_stable k l :
  filter (fun a => key a =? k) (sortBy compare l)
  = filter (fun a => key a =? k) l.
Proof.
  induction l as [|x rest IH]; [reflexivity|].
  cbn [sortBy fold_right]. fold (sortBy compare rest).
  rewrite insertBy_stable. cbn [filter]. rewrite IH. reflexivity.
Qed.

End SortBy.

(** ** Inventory: low stock, in general *)

Lemma isLowStock_threshold threshold product :
  isLowStock threshold product
  = (Product.stock product
     <=? or_num threshold (or_num (Product.minStock product) 5)).
Proof.
  unfold isLowStock, truthy_num, or_num, nullish.
  destruct threshold as [t|]; [|reflexivity].
  destruct (t =? 0); reflexivity.
Qed.

(** The code and the specification agree unless a zero is involved. *)
Lemma isLowStock_spec threshold product :
  threshold <> Some 0 ->
  (threshold = None -> Product.minStock product <> Some 0) ->
  isLowStock threshold product = spec_isLowStock threshold product.
Proof.
  intros T Mn. unfold isLowStock, spec_isLowStock, spec_threshold.
  unfold truthy_num, or_num, nullish.
  destruct threshold as [t|].
  - destruct (t =? 0) eqn:E; [apply Z.eqb_eq in E; congruence | reflexivity].
  - simpl. destruct (Product.minStock product) as [m|]; [|reflexivity].
    destruct (m =? 0) eqn:E; [|reflexivity].
    apply Z.eqb_eq in E. subst m. exfalso. apply Mn; reflexivity.
Qed.

(** What [getLowStockProducts] returns, on both implementations: the
    products whose stock is at most [threshold || minStock || 5], in
    ascending order of stock, products of equal stock in storage order,
    and the storage untouched.  Unless the threshold supplied is 0, or
    none is supplied and a product has a minimum stock of 0, these are the
    products with [stock <= (threshold ?? minStock ?? 5)]. *)
Theorem getLowStockProducts_result :
  forall (threshold : option Z) (s : MemStorage) (db : Database.t),
    (exists low,
       getLowStockProducts threshold s = (Ok low, s) /\
       Permutation low
         (filter (isLowStock threshold) (JsMap.values (products s))) /\
       StronglySorted (fun a b => Product.stock a <= Product.stock b) low /\
       (forall k,
          filter (fun p => Product.stock p =? k) low
          = filter (fun p => Product.stock p =? k)
              (filter (isLowStock threshold) (JsMap.values (products s))))) /\
    (exists low,
       DatabaseStorage.getLowStockProducts threshold db = (Ok low, db) /\
       Permutation low (filter (isLowStock threshold) (Database.products db)) /\
       StronglySorted (fun a b => Product.stock a <= Product.stock b) low) /\
    (forall product,
       isLowStock threshold product
       = (Product.stock product
          <=? or_num threshold (or_num (Product.minStock product) 5))) /\
    (forall product,
       threshold <> Some 0 ->
       (threshold = None -> Product.minStock product <> Some 0) ->
       isLowStock threshold product = spec_isLowStock threshold product).
Proof.
  intros threshold s db. split; [|split; [|split]].
  - eexists. split; [reflexivity|]. split; [|split].
    + apply Permutation_sym. apply (sortBy_perm Product.stock).
    + apply (sortBy_sorted Product.stock).
    + intros k. apply (sortBy_stable Product.stock).
  - rewrite db_getLowStockProducts_run. eexists. split; [reflexivity|]. split.
    + apply Permutation_sym. apply (sortBy_perm Product.stock).
    + apply (sortBy_sorted Product.stock).
  - apply isLowStock_threshold.
  - apply isLowStock_spec.
Qed.

(** ** Addresses: the loop that clears the flag *)

Lemma set_NoDup_in (m : JsMap.t Z UserAddress.t) k v e :
  NoDup (JsMap.keys m) ->
  In e (JsMap.set k v m) -> e = (k, v) \/ (In e m /\ fst e <> k).
Proof.
  induction m as [|[k0 v0] rest IH]; simpl; intros ND I.
  - destruct I as [I|[]]. left. congruence.
  - inversion ND as [|? ? NI ND']; subst.
    destruct (eq_dec k k0) as [E|N]; simpl in I.
    + subst k0. destruct I as [I|I]; [left; congruence|].
      right. split; [right; exact I|].
      intros F. apply NI. unfold JsMap.keys. rewrite <- F.
      apply in_map. exact I.
    + destruct I as [I|I].
      * right. subst e. simpl. split; [left; reflexivity | congruence].
      * destruct (IH ND' I) as [H|[H1 H2]]; [left; exact H|].
        right. split; [right; exact H1 | exact H2].
Qed.

Lemma clearAll_skip k x l (rest : JsMap.t Z UserAddress.t) :
  (forall a, In a l -> UserAddress.id a <> k) ->
  clearAll l ((k, x) :: rest) = (k, x) :: clearAll l rest.
Proof.
  revert rest. induction l as [|a l IH]; intros rest P; [reflexivity|].
  unfold clearAll in *. cbn [fold_left]. cbn [JsMap.set].
  destruct (eq_dec (UserAddress.id a) k) as [E|N].
  - exfalso. apply (P a); [left; reflexivity | exact E].
  - apply IH. intros b I. apply P. right. exact I.
Qed.

Lemma clearAll_clearWhere (p : UserAddress.t -> bool)
    (m : JsMap.t Z UserAddress.t) :
  NoDup (JsMap.keys m) ->
  (forall k a, In (k, a) m -> UserAddress.id a = k) ->
  clearAll (filter p (JsMap.values m)) m = clearWhere p m.
Proof.
  induction m as [|[k a] rest IH]; intros ND K; [reflexivity|].
  inversion ND as [|? ? NI ND']; subst.
  assert (Ka : UserAddress.id a = k) by (apply K; left; reflexivity).
  assert (K' : forall k' a', In (k', a') rest -> UserAddress.id a' = k')
    by (intros k' a' I; apply K; right; exact I).
  assert (Skip : forall b, In b (filter p (JsMap.values rest)) ->
                           UserAddress.id b <> k).
  { intros b I. apply filter_In in I. destruct I as [I _].
    unfold JsMap.values in I. apply in_map_iff in I.
    destruct I as [[k' b'] [E I]]. simpl in E. subst b'.
    rewrite (K' _ _ I). intros F. subst k'. apply NI.
    unfold JsMap.keys. change k with (fst (k, b)). apply in_map. exact I. }
  cbn [JsMap.values map snd filter clearWhere fst].
  fold (JsMap.values rest). fold (clearWhere p rest).
  destruct (p a) eqn:Pa.
  - unfold clearAll at 1. cbn [fold_left JsMap.set]. rewrite Ka.
    destruct (eq_dec k k) as [_|F]; [|congruence].
    fold (clearAll (filter p (JsMap.values rest))
            ((k, UserAddress.clearPrimary a) :: rest)).
    rewrite (clearAll_skip _ _ _ _ Skip). rewrite (IH ND' K'). reflexivity.
  - rewrite (clearAll_skip _ _ _ _ Skip). rewrite (IH ND' K'). reflexivity.
Qed.

Lemma clearWhere_keys p m : JsMap.keys (clearWhere p m) = JsMap.keys m.
Proof.
  unfold clearWhere, JsMap.keys. rewrite map_map. apply map_ext.
  intros [k a]. simpl. destruct (p a); reflexivity.
Qed.

Lemma clearWhere_in p m k b :
  In (k, b) (clearWhere p m) ->
  exists a,
    In (k, a) m /\ b = (if p a then UserAddress.clearPrimary a else a).
Proof.
  unfold clearWhere. intros I. apply in_map_iff in I.
  destruct I as [[k' a] [E I]]. simpl in E. exists a.
  destruct (p a); injection E as <- <-; auto.
Qed.

(** ** Addresses: the invariant when the owner is kept *)

Lemma values_in (m : JsMap.t Z UserAddress.t) b :
  In b (JsMap.values m) <-> exists k, In (k, b) m.
Proof.
  unfold JsMap.values. rewrite in_map_iff. split.
  - intros [[k a] [E I]]. simpl in E. subst a. eauto.
  - intros [k I]. exists (k, b). auto.
Qed.

Lemma findAddress_in id userId s a :
  findAddress id userId s = Some a ->
  In a (JsMap.values (addresses s)) /\
  UserAddress.id a = id /\ UserAddress.userId a = userId.
Proof.
  unfold findAddress. intros F. apply find_some in F. destruct F as [I C].
  apply andb_true_iff in C. destruct C as [C1 C2].
  apply Z.eqb_eq in C1, C2. auto.
Qed.

Lemma mergeAddress_keeps id userId updates a :
  keepsOwner id userId updates ->
  UserAddress.id a = id -> UserAddress.userId a = userId ->
  UserAddress.id (mergeAddress a updates) = id /\
  UserAddress.userId (mergeAddress a updates) = userId.
Proof.
  intros [[I|I] [U|U]] Ea Eu; unfold mergeAddress; simpl;
    rewrite I, U; simpl; auto.
Qed.

Lemma mergeAddress_primary updates a :
  UserAddress.isPrimary (mergeAddress a updates)
  = spread (UserAddress.isPrimary a) (AddressUpdates.isPrimary updates).
Proof. reflexivity. Qed.

Lemma clearPrimary_not_primary a :
  truthy_bool (UserAddress.isPrimary (UserAddress.clearPrimary a)) = false.
Proof. reflexivity. Qed.

Lemma address_inv_new now : address_inv (newMemStorage now).
Proof.
  split; [split; [constructor | split]|].
  - intros k a [].
  - intros k [].
  - intros a b [].
Qed.

Lemma address_inv_frame s s' :
  addresses s' = addresses s ->
  CurrentIds.address (currentIds s') = CurrentIds.address (currentIds s) ->
  address_inv s -> address_inv s'.
Proof.
  intros E1 E2 [[ND [K B]] U]. unfold address_inv, addresses_keyed,
    primary_unique. rewrite E1, E2. auto.
Qed.

Lemma address_inv_create now data s :
  address_inv s ->
  address_inv (exec (CreateUserAddress now data) s) /\
  (truthy_bool (InsertUserAddress.isPrimary data) = true ->
   forall b,
     In b (primaryOf (InsertUserAddress.userId data)
             (exec (CreateUserAddress now data) s)) ->
     b = newAddressOf now data s).
Proof.
  intros [[ND [K B]] U].
  unfold exec, state_after. rewrite createUserAddress_run. simpl.
  set (new := newAddressOf now data s).
  set (nid := CurrentIds.address (currentIds s)).
  set (p := fun addr : UserAddress.t =>
              UserAddress.userId addr =? InsertUserAddress.userId data).
  assert (C : clearedForCreate data (addresses s)
              = if truthy_bool (InsertUserAddress.isPrimary data)
                then clearWhere p (addresses s) else addresses s).
  { unfold clearedForCreate.
    destruct (truthy_bool (InsertUserAddress.isPrimary data)); [|reflexivity].
    apply clearAll_clearWhere; assumption. }
  assert (Ck : JsMap.keys (clearedForCreate data (addresses s))
               = JsMap.keys (addresses s)).
  { rewrite C. destruct (truthy_bool _); [apply clearWhere_keys | reflexivity]. }
  assert (Cin : forall k b,
            In (k, b) (clearedForCreate data (addresses s)) ->
            exists a, In (k, a) (addresses s) /\
                      UserAddress.id b = UserAddress.id a /\
                      UserAddress.userId b = UserAddress.userId a /\
                      (truthy_bool (UserAddress.isPrimary b) = true ->
                       b = a /\
                       (truthy_bool (InsertUserAddress.isPrimary data) = true ->
                        p a = false))).
  { intros k b I. rewrite C in I.
    destruct (truthy_bool (InsertUserAddress.isPrimary data)).
    - apply clearWhere_in in I. destruct I as [a [I E]]. exists a.
      split; [exact I|]. destruct (p a); subst b; simpl; auto.
      repeat split; auto; discriminate.
    - exists b. repeat split; auto. discriminate. }
  assert (NDc : NoDup (JsMap.keys (clearedForCreate data (addresses s))))
    by (rewrite Ck; exact ND).
  assert (Fresh : ~ In nid (JsMap.keys (clearedForCreate data (addresses s)))).
  { rewrite Ck. intros I. specialize (B _ I). exact (Z.lt_irrefl _ B). }
  assert (New : forall e,
            In e (JsMap.set nid new (clearedForCreate data (addresses s))) ->
            e = (nid, new)
            \/ In e (clearedForCreate data (addresses s)))
    by (intros e I; apply JsMapFacts.in_set in I; exact I).
  split; [split; [split; [|split]|]|].
  - apply JsMapFacts.NoDup_keys_set. exact NDc.
  - intros k b I. destruct (New _ I) as [E|I'].
    + injection E as -> ->. reflexivity.
    + destruct (Cin _ _ I') as (a & Ia & Eid & _). rewrite Eid. eauto.
  - intros k I. apply JsMapFacts.in_keys_set in I. unfold bumpAddressId.
    simpl. destruct I as [->|I].
    + unfold nid. lia.
    + rewrite Ck in I. specialize (B _ I). lia.
  - intros a b Ia Ib Eu Pa Pb.
    apply values_in in Ia, Ib. destruct Ia as [ka Ia], Ib as [kb Ib].
    destruct (New _ Ia) as [Ea|Ia']; destruct (New _ Ib) as [Eb|Ib'].
    + injection Ea as _ ->. injection Eb as _ ->. reflexivity.
    + injection Ea as _ ->. exfalso.
      destruct (Cin _ _ Ib') as (b0 & _ & _ & Ub & Pb0).
      destruct (Pb0 Pb) as [-> Q].
      assert (T : truthy_bool (InsertUserAddress.isPrimary data) = true).
      { unfold new, newAddressOf in Pa. simpl in Pa. unfold or_null_bool in Pa.
        destruct (truthy_bool (InsertUserAddress.isPrimary data));
          [reflexivity | discriminate]. }
      specialize (Q T). unfold p in Q. apply Z.eqb_neq in Q.
      apply Q. rewrite <- Eu. reflexivity.
    + injection Eb as _ ->. exfalso.
      destruct (Cin _ _ Ia') as (a0 & _ & _ & Ua & Pa0).
      destruct (Pa0 Pa) as [-> Q].
      assert (T : truthy_bool (InsertUserAddress.isPrimary data) = true).
      { unfold new, newAddressOf in Pb. simpl in Pb. unfold or_null_bool in Pb.
        destruct (truthy_bool (InsertUserAddress.isPrimary data));
          [reflexivity | discriminate]. }
      specialize (Q T). unfold p in Q. apply Z.eqb_neq in Q.
      apply Q. rewrite Eu. reflexivity.
    + destruct (Cin _ _ Ia') as (a0 & Ia0 & _ & _ & Pa0).
      destruct (Cin _ _ Ib') as (b0 & Ib0 & _ & _ & Pb0).
      destruct (Pa0 Pa) as [-> _]. destruct (Pb0 Pb) as [-> _].
      apply U; auto; apply values_in; eauto.
  - intros T b I. unfold primaryOf in I. simpl in I.
    apply filter_In in I. destruct I as [I Q].
    apply andb_true_iff in Q. destruct Q as [Q1 Q2]. apply Z.eqb_eq in Q1.
    apply values_in in I. destruct I as [k I].
    destruct (New _ I) as [E|I']; [injection E as _ ->; reflexivity|].
    exfalso. destruct (Cin _ _ I') as (a & _ & _ & Ua & Pa0).
    destruct (Pa0 Q2) as [-> Q]. specialize (Q T). unfold p in Q.
    apply Z.eqb_neq in Q. contradiction.
Qed.

Lemma address_inv_update id userId updates s :
  keepsOwner id userId updates ->
  address_inv s ->
  address_inv (exec (UpdateUserAddress id userId updates) s) /\
  (forall address,
     findAddress id userId s = Some address ->
     In (mergeAddress address updates)
       (JsMap.values
          (addresses (exec (UpdateUserAddress id userId updates) s))) /\
     (truthy_update (AddressUpdates.isPrimary updates) = true ->
      forall b,
        In b (primaryOf userId (exec (UpdateUserAddress id userId updates) s)) ->
        b = mergeAddress address updates)).
Proof.
  intros KO [[ND [K B]] U]. rewrite exec_updateUserAddress.
  destruct (findAddress id userId s) as [a|] eqn:F.
  2:{ split; [split; [split; [|split]|]; assumption | intros ? [=]]. }
  destruct (findAddress_in _ _ _ _ F) as (Ia & Eid & Eu).
  destruct (mergeAddress_keeps _ _ _ _ KO Eid Eu) as [Mid Mu].
  set (merged := mergeAddress a updates) in *.
  set (p := fun addr : UserAddress.t =>
              (UserAddress.userId addr =? userId)
              && negb (UserAddress.id addr =? id)).
  assert (C : clearedForUpdate id userId updates (addresses s)
              = if truthy_update (AddressUpdates.isPrimary updates)
                then clearWhere p (addresses s) else addresses s).
  { unfold clearedForUpdate.
    destruct (truthy_update (AddressUpdates.isPrimary updates)); [|reflexivity].
    apply clearAll_clearWhere; assumption. }
  assert (Ck : JsMap.keys (clearedForUpdate id userId updates (addresses s))
               = JsMap.keys (addresses s)).
  { rewrite C. destruct (truthy_update _); [apply clearWhere_keys | reflexivity]. }
  assert (Cin : forall k b,
            In (k, b) (clearedForUpdate id userId updates (addresses s)) ->
            exists a0, In (k, a0) (addresses s) /\
                       UserAddress.id b = UserAddress.id a0 /\
                       UserAddress.userId b = UserAddress.userId a0 /\
                       (truthy_bool (UserAddress.isPrimary b) = true ->
                        b = a0 /\
                        (truthy_update (AddressUpdates.isPrimary updates) = true ->
                         p a0 = false))).
  { intros k b I. rewrite C in I.
    destruct (truthy_update (AddressUpdates.isPrimary updates)).
    - apply clearWhere_in in I. destruct I as [a0 [I E]]. exists a0.
      split; [exact I|]. destruct (p a0); subst b; simpl; auto.
      repeat split; auto; discriminate.
    - exists b. repeat split; auto. discriminate. }
  assert (NDc : NoDup (JsMap.keys
                         (clearedForUpdate id userId updates (addresses s))))
    by (rewrite Ck; exact ND).
  assert (Iid : In id (JsMap.keys (addresses s))).
  { apply values_in in Ia. destruct Ia as [k Ia].
    rewrite <- Eid. rewrite (K _ _ Ia). unfold JsMap.keys.
    change k with (fst (k, a)). apply in_map. exact Ia. }
  assert (Old : forall k b,
            In (k, b) (clearedForUpdate id userId updates (addresses s)) ->
            k <> id ->
            truthy_bool (UserAddress.isPrimary b) = true ->
            UserAddress.userId b = userId ->
            truthy_update (AddressUpdates.isPrimary updates) = false /\
            In b (JsMap.values (addresses s)) /\ UserAddress.id b = k).
  { intros k b I N Pb Ub. destruct (Cin _ _ I) as (b0 & Ib0 & Eb & _ & Q).
    destruct (Q Pb) as [-> Q']. rewrite (K _ _ Ib0) in *.
    split; [|split; [apply values_in; eauto | reflexivity]].
    destruct (truthy_update (AddressUpdates.isPrimary updates));
      [|reflexivity].
    specialize (Q' eq_refl). unfold p in Q'. rewrite Ub, Z.eqb_refl in Q'.
    rewrite (K _ _ Ib0) in Q'. apply Z.eqb_neq in N. rewrite N in Q'.
    discriminate. }
  assert (Kept : truthy_update (AddressUpdates.isPrimary updates) = false ->
                 truthy_bool (UserAddress.isPrimary merged) = true ->
                 truthy_bool (UserAddress.isPrimary a) = true).
  { unfold merged. rewrite mergeAddress_primary. unfold truthy_update, spread.
    destruct (AddressUpdates.isPrimary updates) as [v|]; [|auto].
    intros T1 T2. congruence. }
  simpl.
  assert (New : forall e,
            In e (JsMap.set id merged
                    (clearedForUpdate id userId updates (addresses s))) ->
            e = (id, merged)
            \/ (In e (clearedForUpdate id userId updates (addresses s))
                /\ fst e <> id))
    by (intros e I; apply set_NoDup_in in I; assumption).
  split; [split; [split; [|split]|]|].
  - apply JsMapFacts.NoDup_keys_set. exact NDc.
  - intros k b I. destruct (New _ I) as [E|[I' _]].
    + injection E as -> ->. exact Mid.
    + destruct (Cin _ _ I') as (b0 & Ib0 & Eb & _). rewrite Eb. eauto.
  - intros k I. apply JsMapFacts.in_keys_set in I. destruct I as [->|I].
    + apply B. exact Iid.
    + rewrite Ck in I. apply B. exact I.
  - intros x y Ix Iy Exy Px Py.
    apply values_in in Ix, Iy. destruct Ix as [kx Ix], Iy as [ky Iy].
    destruct (New _ Ix) as [Ex|[Ix' Nx]]; destruct (New _ Iy) as [Ey|[Iy' Ny]].
    + injection Ex as _ ->. injection Ey as _ ->. reflexivity.
    + injection Ex as _ ->. exfalso. simpl in Ny.
      rewrite Mu in Exy. symmetry in Exy.
      destruct (Old _ _ Iy' Ny Py Exy) as (T & Iy0 & Ey0).
      specialize (Kept T Px).
      assert (E : UserAddress.id a = UserAddress.id y)
        by (apply U; auto; congruence).
      congruence.
    + injection Ey as _ ->. exfalso. simpl in Nx.
      rewrite Mu in Exy.
      destruct (Old _ _ Ix' Nx Px Exy) as (T & Ix0 & Ex0).
      specialize (Kept T Py).
      assert (E : UserAddress.id a = UserAddress.id x)
        by (apply U; auto; congruence).
      congruence.
    + destruct (Cin _ _ Ix') as (x0 & Ix0 & _ & _ & Qx).
      destruct (Cin _ _ Iy') as (y0 & Iy0 & _ & _ & Qy).
      destruct (Qx Px) as [-> _]. destruct (Qy Py) as [-> _].
      apply U; auto; apply values_in; eauto.
  - intros address [= <-]. split.
    + apply values_in. exists id. apply JsMapFacts.in_set_same.
    + intros T b I. unfold primaryOf in I. simpl in I.
      apply filter_In in I. destruct I as [I Q].
      apply andb_true_iff in Q. destruct Q as [Q1 Q2]. apply Z.eqb_eq in Q1.
      apply values_in in I. destruct I as [k I].
      destruct (New _ I) as [E|[I' N]]; [injection E as _ ->; reflexivity|].
      exfalso. simpl in N. destruct (Old _ _ I' N Q2 Q1) as (T' & _).
      congruence.
Qed.

Lemma address_inv_delete id userId s :
  address_inv s -> address_inv (exec (DeleteUserAddress id userId) s).
Proof.
  intros [[ND [K B]] U]. unfold exec, state_after.
  rewrite deleteUserAddress_run.
  destruct (findAddress id userId s); simpl;
    [|split; [split; [|split]|]; assumption].
  assert (Sub : forall e, In e (JsMap.delete id (addresses s)) ->
                          In e (addresses s))
    by (intros e I; apply JsMapFacts.in_delete in I; tauto).
  split; [split; [|split]|].
  - apply JsMapFacts.NoDup_keys_delete. exact ND.
  - intros k a I. apply K. apply Sub. exact I.
  - intros k I. apply B. unfold JsMap.keys in *. apply in_map_iff in I.
    destruct I as [e [E I]]. apply in_map_iff. exists e. auto.
  - intros a b Ia Ib. apply values_in in Ia, Ib.
    destruct Ia as [ka Ia], Ib as [kb Ib].
    apply U; apply values_in; eauto.
Qed.

Lemma reachableOwnerKept_inv s : reachableOwnerKept s -> address_inv s.
Proof.
  induction 1 as [now|c s O R IH]; [apply address_inv_new|].
  pose proof (exec_frame_addresses c s) as F.
  destruct c;
    try (match type of F with
         | _ /\ _ =>
             destruct F as [F1 F2]; apply (address_inv_frame s); assumption
         end).
  - apply address_inv_create. exact IH.
  - apply address_inv_update; [exact O | exact IH].
  - apply address_inv_delete. exact IH.
Qed.

Lemma NoDup_map_filter {X Y : Type} (f : X -> Y) (q : X -> bool) l :
  NoDup (map f l) -> NoDup (map f (filter q l)).
Proof.
  induction l as [|x rest IH]; simpl; intros ND; [constructor|].
  inversion ND as [|? ? NI ND']; subst.
  destruct (q x); simpl; [|auto].
  constructor; [|auto].
  intros I. apply NI. apply in_map_iff in I. destruct I as [y [E I]].
  apply filter_In in I. apply in_map_iff. exists y. tauto.
Qed.

Lemma address_inv_single s : address_inv s -> single_primary s.
Proof.
  intros [[ND [K B]] U] userId. unfold primaryOf.
  set (q := fun a : UserAddress.t =>
              (UserAddress.userId a =? userId)
              && truthy_bool (UserAddress.isPrimary a)).
  assert (Ids : map UserAddress.id (JsMap.values (addresses s))
                = JsMap.keys (addresses s)).
  { unfold JsMap.values, JsMap.keys. rewrite map_map.
    apply map_ext_in. intros [k a] I. simpl. apply K. exact I. }
  assert (NDf : NoDup (map UserAddress.id
                         (filter q (JsMap.values (addresses s)))))
    by (apply NoDup_map_filter; rewrite Ids; exact ND).
  destruct (filter q (JsMap.values (addresses s))) as [|x [|y rest]] eqn:E;
    simpl; try lia.
  exfalso.
  assert (Ix : In x (filter q (JsMap.values (addresses s))))
    by (rewrite E; simpl; auto).
  assert (Iy : In y (filter q (JsMap.values (addresses s))))
    by (rewrite E; simpl; auto).
  apply filter_In in Ix, Iy. destruct Ix as [Ix Qx], Iy as [Iy Qy].
  unfold q in Qx, Qy. apply andb_true_iff in Qx, Qy.
  destruct Qx as [Ux Px], Qy as [Uy Py]. apply Z.eqb_eq in Ux, Uy.
  assert (Exy : UserAddress.id x = UserAddress.id y)
    by (apply U; auto; congruence).
  simpl in NDf. inversion NDf as [|? ? NI _]; subst.
  apply NI. rewrite Exy. left. reflexivity.
Qed.

Lemma singleton_of {X : Type} (l : list X) (x : X) :
  (List.length l <= 1)%nat -> In x l -> l = [x].
Proof.
  destruct l as [|y [|z rest]]; simpl; intros L I.
  - destruct I.
  - destruct I as [->|[]]. reflexivity.
  - lia.
Qed.

(** The single-primary rule for the calls that keep the owner: in every
    storage reached without an update that reassigns an address's [id] or
    [userId], no user has two primary addresses; and after a
    [createUserAddress] or a successful [updateUserAddress] that sets
    [isPrimary = true], the address created or updated is the one primary
    address of its user. *)
Theorem single_primary_when_owner_kept :
  (forall s, reachableOwnerKept s -> single_primary s) /\
  (forall s now data,
     reachableOwnerKept s ->
     truthy_bool (InsertUserAddress.isPrimary data) = true ->
     primaryOf (InsertUserAddress.userId data)
       (exec (CreateUserAddress now data) s)
     = [newAddressOf now data s]) /\
  (forall s id userId updates address,
     reachableOwnerKept s ->
     keepsOwner id userId updates ->
     truthy_update (AddressUpdates.isPrimary updates) = true ->
     findAddress id userId s = Some address ->
     primaryOf userId (exec (UpdateUserAddress id userId updates) s)
     = [mergeAddress address updates]).
Proof.
  split; [|split].
  - intros s R. apply address_inv_single. apply reachableOwnerKept_inv.
    exact R.
  - intros s now data R T.
    pose proof (reachableOwnerKept_inv _ R) as Inv.
    destruct (address_inv_create now data s Inv) as [Inv' Only].
    apply singleton_of; [apply address_inv_single; exact Inv'|].
    unfold primaryOf. apply filter_In. split.
    + unfold exec, state_after. rewrite createUserAddress_run. simpl.
      apply values_in. exists (CurrentIds.address (currentIds s)).
      apply JsMapFacts.in_set_same.
    + simpl. rewrite Z.eqb_refl. simpl. unfold or_null_bool. rewrite T.
      exact T.
  - intros s id userId updates address R KO T F.
    pose proof (reachableOwnerKept_inv _ R) as Inv.
    destruct (address_inv_update id userId updates s KO Inv) as [Inv' Only].
    destruct (Only _ F) as [I _].
    destruct (findAddress_in _ _ _ _ F) as (_ & Eid & Eu).
    destruct (mergeAddress_keeps _ _ _ _ KO Eid Eu) as [_ Mu].
    apply singleton_of; [apply address_inv_single; exact Inv'|].
    unfold primaryOf. apply filter_In. split; [exact I|].
    rewrite Mu, Z.eqb_refl, andb_true_l, mergeAddress_primary.
    unfold truthy_update in T.
    destruct (AddressUpdates.isPrimary updates) as [v|]; [|discriminate].
    exact T.
Qed.

(** ** [DatabaseStorage]: properties *)

Lemma db_verifyEmailToken_row_iff now email token db :
  result_of (DatabaseStorage.verifyEmailToken now email token) db = Ok true <->
  exists row expiry,
    pendingRow email db = Some row /\
    User.verificationToken row = Some token /\
    token <> "" /\
    User.verificationTokenExpiry row = Some expiry /\
    now <= expiry.
Proof.
  unfold result_of. rewrite db_verifyEmailToken_run. simpl. split.
  - intros [= E]. apply tokenVerdict_true_iff in E.
    destruct E as (p & e & E & T & N & X & Lt).
    destruct (pendingRow email db) as [row|]; [|discriminate].
    simpl in E. injection E as <-. simpl in T, X.
    destruct (User.verificationTokenExpiry row) as [time|] eqn:V;
      [|discriminate].
    simpl in X. injection X as <-. simpl in Lt. eauto 10.
  - intros (row & e & G & T & N & X & Lt). f_equal.
    apply tokenVerdict_true_iff. rewrite G. simpl.
    eexists _, (DateAt e). split; [reflexivity|]. simpl. rewrite X. auto.
Qed.

(** [DatabaseStorage.verifyEmailToken] reads the pending row of the email
    -- the first row of [users] with that email and the placeholder
    password -- and answers [true] exactly when that row's token is not
    empty and equals the input token and the time is at or before its
    expiry; it never throws and leaves the database as it was. *)
Theorem db_verifyEmailToken_spec :
  forall (now : Z) (email token : string) (db : Database.t),
    (exists valid,
       DatabaseStorage.verifyEmailToken now email token db = (Ok valid, db)) /\
    (result_of (DatabaseStorage.verifyEmailToken now email token) db = Ok true
     <->
     exists row expiry,
       pendingRow email db = Some row /\
       User.verificationToken row = Some token /\
       token <> "" /\
       User.verificationTokenExpiry row = Some expiry /\
       now <= expiry).
Proof.
  intros now email token db. split.
  - rewrite db_verifyEmailToken_run. eauto.
  - apply db_verifyEmailToken_row_iff.
Qed.

Lemma updateWhere_twice {R : Type} (condition : R -> bool) (set : R -> R)
    (table : list R) :
  (forall row, condition row = true -> condition (set row) = true) ->
  (forall row, set (set row) = set row) ->
  updateWhere condition set (updateWhere condition set table)
  = updateWhere condition set table /\
  updatedRows condition set (updateWhere condition set table)
  = updatedRows condition set table.
Proof.
  intros P Idem. unfold updateWhere, updatedRows.
  induction table as [|row rest [IH1 IH2]]; simpl; [auto|].
  destruct (condition row) eqn:C; simpl.
  - rewrite (P _ C), Idem, IH1. simpl. rewrite Idem, IH2. auto.
  - rewrite C, IH1, IH2. auto.
Qed.

Lemma completed_twice password row :
  DatabaseStorage.completed password (DatabaseStorage.completed password row)
  = DatabaseStorage.completed password row.
Proof. reflexivity. Qed.

Lemma first_with_email email db row :
  pendingRow email db = Some row ->
  exists first,
    firstRow
      (selectWhere (fun r => String.eqb (User.email r) email)
         (Database.users db)) = Some first /\
    User.email first = email.
Proof.
  unfold pendingRow, firstRow, selectWhere. intros G.
  induction (Database.users db) as [|r rest IH]; simpl in *; [discriminate|].
  destruct (String.eqb (User.email r) email) eqn:C; simpl in *.
  - exists r. split; [reflexivity|]. apply String.eqb_eq. exact C.
  - apply IH. exact G.
Qed.

(** After a completion with the placeholder itself as password, the first
    row of the email is pending. *)
Lemma pendingRow_after_placeholder email db first :
  firstRow
    (selectWhere (fun r => String.eqb (User.email r) email)
       (Database.users db)) = Some first ->
  pendingRow email
    (Database.with_users
       (updateWhere (fun r => String.eqb (User.email r) email)
          (DatabaseStorage.completed DatabaseStorage.PENDING_REGISTRATION)
          (Database.users db))
       (Database.users_id_seq db) db)
  = Some (DatabaseStorage.completed DatabaseStorage.PENDING_REGISTRATION first).
Proof.
  unfold pendingRow, firstRow, selectWhere, updateWhere. simpl.
  induction (Database.users db) as [|r rest IH]; simpl; [discriminate|].
  destruct (String.eqb (User.email r) email) eqn:C; simpl.
  - intros [= <-]. rewrite C. rewrite string_eqb_refl. reflexivity.
  - rewrite C. simpl. exact IH.
Qed.

(** [DatabaseStorage.completeUserRegistration(email, password)] succeeds
    exactly when a pending row exists for the email, whatever token and
    expiry it holds, and then returns a row with that email, the given
    password and [isVerified = true].  With any password but the
    placeholder ["PENDING_REGISTRATION"], no row of the email is pending
    afterwards and another call throws "No pending registration found for
    this email".  With the placeholder as password the row stays pending:
    another call returns the same user and changes nothing. *)
Theorem db_completeUserRegistration_spec :
  forall (email password : string) (db : Database.t),
    (pendingRow email db = None ->
     DatabaseStorage.completeUserRegistration email password db
     = (Throw NO_PENDING, db)) /\
    (forall row,
       pendingRow email db = Some row ->
       exists user db',
         DatabaseStorage.completeUserRegistration email password db
         = (Ok (Some user), db') /\
         User.email user = email /\
         User.password user = password /\
         User.isVerified user = Some true /\
         (password <> DatabaseStorage.PENDING_REGISTRATION ->
          pendingRow email db' = None /\
          forall password',
            DatabaseStorage.completeUserRegistration email password' db'
            = (Throw NO_PENDING, db')) /\
         (password = DatabaseStorage.PENDING_REGISTRATION ->
          pendingRow email db' = Some user /\
          DatabaseStorage.completeUserRegistration email password db'
          = (Ok (Some user), db'))).
Proof.
  intros email password db.
  split; [apply db_completeUserRegistration_missing|].
  intros row G.
  rewrite (db_completeUserRegistration_run _ _ _ _ G).
  rewrite firstRow_updated.
  destruct (first_with_email _ _ _ G) as (first & F & E). rewrite F. simpl.
  eexists. eexists. split; [reflexivity|].
  split; [exact E|]. split; [reflexivity|]. split; [reflexivity|]. split.
  - intros N. pose proof (pendingRow_after_complete email password db N) as P.
    split; [exact P|].
    intros password'. apply db_completeUserRegistration_missing. exact P.
  - intros ->. pose proof (pendingRow_after_placeholder _ _ _ F) as P.
    split; [exact P|].
    rewrite (db_completeUserRegistration_run _ _ _ _ P). simpl.
    destruct (updateWhere_twice (fun r => String.eqb (User.email r) email)
                (DatabaseStorage.completed DatabaseStorage.PENDING_REGISTRATION)
                (Database.users db)) as [U1 U2].
    { intros r C. exact C. }
    { intros r. apply completed_twice. }
    rewrite U1, U2. rewrite firstRow_updated, F. reflexivity.
Qed.

Lemma db_getUserByEmail_run email db :
  DatabaseStorage.getUserByEmail email db
  = (Ok (firstRow
           (selectWhere (fun row => String.eqb (User.email row) email)
              (Database.users db))), db).
Proof. reflexivity. Qed.

Lemma firstRow_none_nil {R : Type} (rows : list R) :
  firstRow rows = None -> rows = [].
Proof. destruct rows; [reflexivity | discriminate]. Qed.

Lemma filter_and_nil {R : Type} (c d : R -> bool) (l : list R) :
  filter c l = [] -> filter (fun r => c r && d r) l = [].
Proof.
  induction l as [|r rest IH]; simpl; [reflexivity|].
  destruct (c r); [discriminate|]. simpl. exact IH.
Qed.

(** [DatabaseStorage.createPendingUser] throws "User with this email
    already exists", and changes nothing, when any row of [users] has the
    email.  Otherwise it appends a row with the placeholder password, the
    code and the expiry, which is then the pending row of the email -- and
    also a user row of the email, so that another [createPendingUser] for
    the same email throws instead of replacing the code. *)
Theorem db_createPendingUser_spec :
  forall (now : Z) (email token : string) (expiry : Z) (db : Database.t),
    (forall row,
       result_of (DatabaseStorage.getUserByEmail email) db = Ok (Some row) ->
       DatabaseStorage.createPendingUser now email token expiry db
       = (Throw (MkError "User with this email already exists"), db)) /\
    (result_of (DatabaseStorage.getUserByEmail email) db = Ok None ->
     exists db',
       DatabaseStorage.createPendingUser now email token expiry db
       = (Ok (PendingUser.mk email (Some token) (Some (DateAt expiry)) None),
          db') /\
       Database.users db'
       = Database.users db
         ++ [User.mk (Database.users_id_seq db) email
               DatabaseStorage.PENDING_REGISTRATION None (Some "") None None
               (Some token) (Some expiry) (Some false) (Some false)
               (Some false) (Some now)] /\
       result_of (DatabaseStorage.getPendingUserByEmail email) db'
       = Ok (Some (PendingUser.mk email (Some token) (Some (DateAt expiry))
                     None)) /\
       forall now' token' expiry',
         DatabaseStorage.createPendingUser now' email token' expiry' db'
         = (Throw (MkError "User with this email already exists"), db')).
Proof.
  intros now email token expiry db. split.
  - intros row F. unfold result_of in F. rewrite db_getUserByEmail_run in F.
    simpl in F. injection F as F.
    unfold DatabaseStorage.createPendingUser.
    rewrite (bind_ok _ _ _ _ _ (db_getUserByEmail_run email db)).
    rewrite F. reflexivity.
  - intros F. unfold result_of in F. rewrite db_getUserByEmail_run in F.
    simpl in F. injection F as F.
    set (row := User.mk (Database.users_id_seq db) email
                  DatabaseStorage.PENDING_REGISTRATION None (Some "") None
                  None (Some token) (Some expiry) (Some false) (Some false)
                  (Some false) (Some now)).
    exists (Database.with_users (Database.users db ++ [row])
              (Database.users_id_seq db + 1) db).
    assert (Sel : selectWhere (fun r => String.eqb (User.email r) email)
                    (Database.users db ++ [row]) = [row]).
    { unfold selectWhere in *. rewrite filter_app.
      rewrite (firstRow_none_nil _ F). simpl. rewrite string_eqb_refl.
      reflexivity. }
    split; [|split; [reflexivity|split]].
    + unfold DatabaseStorage.createPendingUser.
      rewrite (bind_ok _ _ _ _ _ (db_getUserByEmail_run email db)).
      rewrite F. reflexivity.
    + unfold result_of. rewrite db_getPendingUserByEmail_run. simpl.
      unfold pendingRow. simpl.
      assert (Sel2 : selectWhere
                       (fun r =>
                          String.eqb (User.email r) email
                          && String.eqb (User.password r)
                               DatabaseStorage.PENDING_REGISTRATION)
                       (Database.users db ++ [row]) = [row]).
      { unfold selectWhere in *. rewrite filter_app.
        assert (E : filter
                      (fun r =>
                         String.eqb (User.email r) email
                         && String.eqb (User.password r)
                              DatabaseStorage.PENDING_REGISTRATION)
                      (Database.users db) = []).
        { apply filter_and_nil. apply firstRow_none_nil. exact F. }
        rewrite E. simpl. rewrite !string_eqb_refl. reflexivity. }
      rewrite Sel2. reflexivity.
    + intros now' token' expiry'.
      unfold DatabaseStorage.createPendingUser.
      rewrite (bind_ok _ _ _ _ _ (db_getUserByEmail_run email _)).
      simpl. rewrite Sel. reflexivity.
Qed.

(** [DatabaseStorage.updateProductStock] and its 32-bit [integer]
    columns.  A product id outside the 32 bits is refused by the
    [select]; an id the table does not hold throws "Product not found";
    in both cases nothing changes.  For a product the table holds, the
    new stock is [max(0, stock + delta)], the sum being exact within
    [+-2^53].  When the new stock does not fit the column the [update]
    is refused and nothing changes.  When it fits but the delta does not,
    the stock is written and then the [insert] of the log row is refused:
    the call throws with the stock changed and no log row.  When both
    fit, the call returns the row with the new stock and nothing else
    changed, leaves the rows of every other id alone and appends one log
    row with the requested delta and the type ["add"] for a positive
    delta, ["remove"] otherwise. *)
Theorem db_updateProductStock_spec :
  forall (outOfRange : Z -> Error) (now productId delta : Z)
         (db : Database.t),
    let call :=
      DatabaseStorage.updateProductStock outOfRange now productId delta db in
    (int4 productId = false -> call = (Throw (outOfRange productId), db)) /\
    (int4 productId = true ->
     productRow productId db = None ->
     call = (Throw (MkError "Product not found"), db)) /\
    (forall product,
       int4 productId = true ->
       productRow productId db = Some product ->
       let newStock := Z.max 0 (js_add (Product.stock product) delta) in
       let updated :=
         mergeProduct product (ProductUpdates.only_stock newStock) in
       (Z.abs (Product.stock product + delta) <= 2 ^ 53 ->
        newStock = Z.max 0 (Product.stock product + delta)) /\
       (int4 newStock = false -> call = (Throw (outOfRange newStock), db)) /\
       (int4 newStock = true ->
        int4 delta = false ->
        exists db',
          call = (Throw (outOfRange delta), db') /\
          productRow productId db' = Some updated /\
          Database.inventoryLogs db' = Database.inventoryLogs db) /\
       (int4 newStock = true ->
        int4 delta = true ->
        exists db',
          call = (Ok (Some updated), db') /\
          Product.stock updated = newStock /\
          productRow productId db' = Some updated /\
          (forall other,
             other <> productId ->
             selectWhere (fun row => Product.id row =? other)
               (Database.products db')
             = selectWhere (fun row => Product.id row =? other)
                 (Database.products db)) /\
          exists entry,
            Database.inventoryLogs db'
            = Database.inventoryLogs db ++ [entry] /\
            InventoryLog.productId entry = productId /\
            InventoryLog.quantity entry = delta /\
            InventoryLog.type entry
            = (if delta >? 0 then "add" else "remove"))).
Proof.
  intros outOfRange now productId delta db call.
  split; [apply db_updateProductStock_refused_id|].
  split; [apply db_updateProductStock_missing|].
  intros product Ip G newStock updated.
  split.
  { intros Safe. unfold newStock. rewrite (js_add_exact _ _ Safe).
    reflexivity. }
  split.
  { intros Is. apply (db_updateProductStock_refused_stock _ _ _ _ _ _ G Ip Is). }
  split.
  { intros Is Iq. eexists.
    split; [apply (db_updateProductStock_refused_delta _ _ _ _ _ _ G Ip Is Iq)|].
    split; [|reflexivity].
    unfold productRow at 1. simpl. rewrite productRow_after_update.
    rewrite G. reflexivity. }
  intros Is Iq. eexists.
  split; [apply (db_updateProductStock_run _ _ _ _ _ _ G Ip Is Iq)|].
  split; [reflexivity|].
  split.
  { unfold productRow at 1. simpl. rewrite productRow_after_update.
    rewrite G. reflexivity. }
  split.
  { intros other N. simpl. apply productRow_other_after_update. exact N. }
  eexists. split; [reflexivity|]. repeat split.
Qed.

(** A shirt with stock 10, under the id 1.  The id 3000000000 is refused
    and the id 7 is not found; a delta of 3000000000 is refused by the
    [update]; a delta of -3000000000 empties the stock and is refused by
    the log; a delta of -4 leaves a stock of 6 and one log row. *)
Lemma db_updateProductStock_spec_witness :
  let shirt :=
    Product.mk 1 "Classic Cotton Shirt" None (Some 1500) 2999 "shirt.jpg"
      "Formal Wear" (Some true) 10 (Some 5) None None None (Some 0) in
  let db := Database.with_products [shirt] Database.empty in
  (forall outOfRange,
     DatabaseStorage.updateProductStock outOfRange 5 3000000000 1 db
     = (Throw (outOfRange 3000000000), db)) /\
  (forall outOfRange,
     DatabaseStorage.updateProductStock outOfRange 5 7 1 db
     = (Throw (MkError "Product not found"), db)) /\
  (forall outOfRange,
     DatabaseStorage.updateProductStock outOfRange 5 1 3000000000 db
     = (Throw (outOfRange 3000000010), db)) /\
  (forall outOfRange,
   exists db',
     DatabaseStorage.updateProductStock outOfRange 5 1 (-3000000000) db
     = (Throw (outOfRange (-3000000000)), db') /\
     option_map Product.stock (productRow 1 db') = Some 0 /\
     Database.inventoryLogs db' = []) /\
  (forall outOfRange,
   exists updated db' entry,
     DatabaseStorage.updateProductStock outOfRange 5 1 (-4) db
     = (Ok (Some updated), db') /\
     Product.stock updated = 6 /\
     Database.inventoryLogs db' = [entry] /\
     InventoryLog.quantity entry = -4 /\
     InventoryLog.type entry = "remove").
Proof.
  intros shirt db.
  split; [|split; [|split; [|split]]]; intros outOfRange.
  - destruct (db_updateProductStock_spec outOfRange 5 3000000000 1 db)
      as (Id & _).
    exact (Id eq_refl).
  - destruct (db_updateProductStock_spec outOfRange 5 7 1 db)
      as (_ & Missing & _).
    exact (Missing eq_refl eq_refl).
  - destruct (db_updateProductStock_spec outOfRange 5 1 3000000000 db)
      as (_ & _ & Up).
    destruct (Up shirt eq_refl eq_refl) as (_ & Refused & _).
    exact (Refused eq_refl).
  - destruct (db_updateProductStock_spec outOfRange 5 1 (-3000000000) db)
      as (_ & _ & Down).
    destruct (Down shirt eq_refl eq_refl) as (_ & _ & Late & _).
    destruct (Late eq_refl eq_refl) as (db' & E & Row & Logs).
    exists db'. split; [exact E|]. split; [rewrite Row; reflexivity|].
    exact Logs.
  - destruct (db_updateProductStock_spec outOfRange 5 1 (-4) db)
      as (_ & _ & Down).
    destruct (Down shirt eq_refl eq_refl) as (_ & _ & _ & Done).
    destruct (Done eq_refl eq_refl)
      as (db' & E & St & _ & _ & entry & L & _ & Q & T).
    eexists. exists db', entry.
    split; [exact E|]. split; [exact St|]. split; [exact L|].
    split; [exact Q | exact T].
Defined.

Lemma updateWhere_none {R : Type} (condition : R -> bool) (set : R -> R)
    (table : list R) :
  selectWhere condition table = [] ->
  updateWhere condition set table = table /\
  updatedRows condition set table = [].
Proof.
  unfold selectWhere, updateWhere, updatedRows. intros E. rewrite E.
  split; [|reflexivity].
  induction table as [|row rest IH]; simpl in *; [reflexivity|].
  destruct (condition row); [discriminate|]. rewrite IH; auto.
Qed.

Lemma select_cleared userId table :
  selectWhere
    (fun row =>
       (UserAddress.userId row =? userId)
       && truthy_bool (UserAddress.isPrimary row))
    (updateWhere (fun row => UserAddress.userId row =? userId)
       UserAddress.clearPrimary table)
  = [].
Proof.
  unfold selectWhere, updateWhere.
  induction table as [|row rest IH]; simpl; [reflexivity|].
  destruct (UserAddress.userId row =? userId) eqn:C; simpl.
  - rewrite C. simpl. exact IH.
  - rewrite C. simpl. exact IH.
Qed.

Lemma select_ids_cleared id userId table :
  selectWhere
    (fun row =>
       (UserAddress.id row =? id) && (UserAddress.userId row =? userId))
    (updateWhere (fun row => UserAddress.userId row =? userId)
       UserAddress.clearPrimary table)
  = map UserAddress.clearPrimary
      (selectWhere
         (fun row =>
            (UserAddress.id row =? id) && (UserAddress.userId row =? userId))
         table).
Proof.
  unfold selectWhere, updateWhere.
  induction table as [|row rest IH]; simpl; [reflexivity|].
  destruct (UserAddress.userId row =? userId) eqn:C; simpl.
  - rewrite C. rewrite !andb_true_r.
    destruct (UserAddress.id row =? id); simpl; rewrite IH; reflexivity.
  - rewrite C. rewrite !andb_false_r. exact IH.
Qed.

(** [DatabaseStorage.updateUserAddress] with [isPrimary: true] clears the
    primary flag of every address of the user before it looks for the
    address: when no address has the given id and user, the call throws
    "Address not found or doesn't belong to user" and the user is left
    without any primary address, the other columns and the other users'
    rows being as before. *)
Theorem db_updateUserAddress_missing :
  forall (id userId : Z) (updates : AddressUpdates.t) (db : Database.t),
    truthy_update (AddressUpdates.isPrimary updates) = true ->
    addressRow id userId db = None ->
    exists db',
      DatabaseStorage.updateUserAddress id userId updates db
      = (Throw (MkError "Address not found or doesn't belong to user"), db') /\
      Database.userAddresses db'
      = updateWhere (fun row => UserAddress.userId row =? userId)
          UserAddress.clearPrimary (Database.userAddresses db) /\
      primaryRows userId db' = [].
Proof.
  intros id userId updates db T G.
  unfold addressRow in G. apply firstRow_none_nil in G.
  set (cleared := updateWhere (fun row => UserAddress.userId row =? userId)
                    UserAddress.clearPrimary (Database.userAddresses db)).
  assert (S : selectWhere
                (fun row =>
                   (UserAddress.id row =? id)
                   && (UserAddress.userId row =? userId)) cleared = []).
  { unfold cleared. rewrite select_ids_cleared, G. reflexivity. }
  destruct (updateWhere_none _ (fun row => mergeAddress row updates) _ S)
    as [U1 U2].
  exists (Database.with_userAddresses cleared db).
  split; [|split].
  - unfold DatabaseStorage.updateUserAddress. rewrite T.
    unfold bind, gets, modify, ret, throw. simpl.
    fold cleared. rewrite U1, U2. simpl. destruct db; reflexivity.
  - reflexivity.
  - unfold primaryRows. simpl. apply select_cleared.
Qed.

(** User 1 has a primary address; an update of an address that does not
    exist takes the flag away. *)
Lemma db_updateUserAddress_missing_witness :
  let home :=
    UserAddress.mk 1 1 "1 Main Road" None "Ambala" "Haryana" "134003"
      (Some "India") (Some true) (Some "Home") None (Some 0) in
  let db := Database.with_userAddresses [home] Database.empty in
  let updates :=
    AddressUpdates.mk None None None None None None None None
      (Some (Some true)) None None None in
  primaryRows 1 db = [home] /\
  exists db',
    DatabaseStorage.updateUserAddress 99 1 updates db
    = (Throw (MkError "Address not found or doesn't belong to user"), db') /\
    primaryRows 1 db' = [].
Proof.
  intros home db updates. split; [reflexivity|].
  destruct (db_updateUserAddress_missing 99 1 updates db eq_refl eq_refl)
    as (db' & E & _ & P).
  exists db'. split; [exact E | exact P].
Defined.

Lemma select_one_id id userId (table : list UserAddress.t) row :
  NoDup (map UserAddress.id table) ->
  firstRow
    (selectWhere
       (fun r => (UserAddress.id r =? id) && (UserAddress.userId r =? userId))
       table) = Some row ->
  selectWhere
    (fun r => (UserAddress.id r =? id) && (UserAddress.userId r =? userId))
    table = [row].
Proof.
  unfold firstRow, selectWhere.
  induction table as [|r rest IH]; simpl; intros ND F; [discriminate|].
  inversion ND as [|? ? NI ND']; subst.
  destruct ((UserAddress.id r =? id) && (UserAddress.userId r =? userId))
    eqn:C.
  - simpl in F. injection F as ->. f_equal.
    apply andb_true_iff in C. destruct C as [C _]. apply Z.eqb_eq in C.
    destruct (filter _ rest) as [|x xs] eqn:E; [reflexivity|].
    exfalso. assert (I : In x (filter
                                 (fun r =>
                                    (UserAddress.id r =? id)
                                    && (UserAddress.userId r =? userId)) rest))
      by (rewrite E; left; reflexivity).
    apply filter_In in I. destruct I as [I Cx].
    apply andb_true_iff in Cx. destruct Cx as [Cx _]. apply Z.eqb_eq in Cx.
    apply NI. rewrite C, <- Cx. apply in_map. exact I.
  - apply IH; assumption.
Qed.

Lemma primary_after_update id userId updates (table : list UserAddress.t) :
  keepsOwner id userId updates ->
  truthy_update (AddressUpdates.isPrimary updates) = true ->
  selectWhere
    (fun row =>
       (UserAddress.userId row =? userId)
       && truthy_bool (UserAddress.isPrimary row))
    (updateWhere
       (fun row =>
          (UserAddress.id row =? id) && (UserAddress.userId row =? userId))
       (fun row => mergeAddress row updates)
       (updateWhere (fun row => UserAddress.userId row =? userId)
          UserAddress.clearPrimary table))
  = map (fun row => mergeAddress (UserAddress.clearPrimary row) updates)
      (selectWhere
         (fun row =>
            (UserAddress.id row =? id) && (UserAddress.userId row =? userId))
         table).
Proof.
  intros KO T. unfold selectWhere, updateWhere.
  induction table as [|r rest IH]; [reflexivity|].
  cbn [filter map]. rewrite IH. clear IH.
  destruct (UserAddress.userId r =? userId) eqn:Cu.
  - change (UserAddress.userId (UserAddress.clearPrimary r))
      with (UserAddress.userId r).
    change (UserAddress.id (UserAddress.clearPrimary r))
      with (UserAddress.id r).
    rewrite Cu, !andb_true_r.
    destruct (UserAddress.id r =? id) eqn:Ci.
    + apply Z.eqb_eq in Cu, Ci.
      destruct (mergeAddress_keeps id userId updates
                  (UserAddress.clearPrimary r) KO Ci Cu) as [_ Mu].
      rewrite Mu, Z.eqb_refl, mergeAddress_primary.
      unfold truthy_update in T.
      destruct (AddressUpdates.isPrimary updates) as [v|]; [|discriminate].
      cbn [spread andb map]. rewrite T. reflexivity.
    + change (UserAddress.userId (UserAddress.clearPrimary r))
        with (UserAddress.userId r).
      rewrite Cu. reflexivity.
  - rewrite Cu, !andb_false_r. rewrite Cu. reflexivity.
Qed.

(** [DatabaseStorage.updateUserAddress] with [isPrimary: true], on a table
    with distinct ids and for updates that leave [id] and [userId] alone:
    when the address exists the call returns it with the update applied
    and it is afterwards the only primary address of the user. *)
Theorem db_updateUserAddress_primary :
  forall (id userId : Z) (updates : AddressUpdates.t) (db : Database.t)
         (row : UserAddress.t),
    NoDup (map UserAddress.id (Database.userAddresses db)) ->
    keepsOwner id userId updates ->
    truthy_update (AddressUpdates.isPrimary updates) = true ->
    addressRow id userId db = Some row ->
    exists db',
      DatabaseStorage.updateUserAddress id userId updates db
      = (Ok (mergeAddress (UserAddress.clearPrimary row) updates), db') /\
      primaryRows userId db'
      = [mergeAddress (UserAddress.clearPrimary row) updates].
Proof.
  intros id userId updates db row ND KO T G. unfold addressRow in G.
  pose proof (select_one_id _ _ _ _ ND G) as One.
  set (cleared := updateWhere (fun r => UserAddress.userId r =? userId)
                    UserAddress.clearPrimary (Database.userAddresses db)).
  exists (Database.with_userAddresses
            (updateWhere
               (fun r =>
                  (UserAddress.id r =? id) && (UserAddress.userId r =? userId))
               (fun r => mergeAddress r updates) cleared) db).
  split.
  - unfold DatabaseStorage.updateUserAddress. rewrite T.
    unfold bind, gets, modify, ret, throw.
    cbn [Database.userAddresses Database.with_userAddresses fst snd].
    fold cleared. unfold updatedRows.
    fold (selectWhere
            (fun r =>
               (UserAddress.id r =? id) && (UserAddress.userId r =? userId))
            cleared).
    unfold cleared at 1. rewrite select_ids_cleared, One.
    cbn [map firstRow hd_error]. destruct db; reflexivity.
  - unfold primaryRows.
    cbn [Database.userAddresses Database.with_userAddresses].
    unfold cleared. rewrite (primary_after_update _ _ _ _ KO T).
    rewrite One. reflexivity.
Qed.

(** User 1 has two addresses, the first one primary; making the second
    one primary leaves it as the only primary address. *)
Lemma db_updateUserAddress_primary_witness :
  let home :=
    UserAddress.mk 1 1 "1 Main Road" None "Ambala" "Haryana" "134003"
      (Some "India") (Some true) (Some "Home") None (Some 0) in
  let shop :=
    UserAddress.mk 2 1 "2 Cloth Market" None "Ambala" "Haryana" "134003"
      (Some "India") (Some false) (Some "Shop") None (Some 5) in
  let db := Database.with_userAddresses [home; shop] Database.empty in
  let updates :=
    AddressUpdates.mk None None None None None None None None
      (Some (Some true)) None None None in
  primaryRows 1 db = [home] /\
  exists updated db',
    DatabaseStorage.updateUserAddress 2 1 updates db = (Ok updated, db') /\
    UserAddress.id updated = 2 /\
    primaryRows 1 db' = [updated].
Proof.
  intros home shop db updates. split; [reflexivity|].
  assert (ND : NoDup (map UserAddress.id (Database.userAddresses db))).
  { simpl. constructor; [intros [F|[]]; discriminate|].
    constructor; [intros []|constructor]. }
  assert (KO : keepsOwner 2 1 updates) by (split; left; reflexivity).
  destruct (db_updateUserAddress_primary 2 1 updates db shop ND KO eq_refl
              eq_refl) as (db' & E & P).
  eexists. exists db'. split; [exact E|]. split; [reflexivity | exact P].
Defined.

(** ** Password reset *)

Lemma find_set_first (p : User.t -> bool) (m : JsMap.t Z User.t) u v :
  NoDup (JsMap.keys m) ->
  (forall k x, In (k, x) m -> User.id x = k) ->
  find p (JsMap.values m) = Some u ->
  p v = true ->
  find p (JsMap.values (JsMap.set (User.id u) v m)) = Some v.
Proof.
  induction m as [|[k0 u0] m IH]; intros ND K F P; [discriminate|].
  simpl in F. simpl.
  inversion ND as [|? ? NI ND']; subst.
  destruct (p u0) eqn:P0.
  - injection F as <-.
    rewrite (K k0 u0 (or_introl eq_refl)).
    destruct (eq_dec k0 k0) as [_|N]; [|congruence].
    simpl. rewrite P. reflexivity.
  - assert (In (User.id u, u) m) as I.
    { apply find_some in F. destruct F as [I _].
      apply in_map_iff in I. destruct I as ([k x] & E & I). simpl in E. subst x.
      rewrite (K k u (or_intror I)). exact I. }
    destruct (eq_dec (User.id u) k0) as [E|N].
    + exfalso. apply NI. rewrite <- E.
      apply in_map_iff. exists (User.id u, u). split; [reflexivity|exact I].
    + simpl. rewrite P0. apply IH; auto.
      intros k x J. apply K. right. exact J.
Qed.

Lemma find_set_none (p : User.t -> bool) (m : JsMap.t Z User.t) k v :
  find p (JsMap.values m) = None ->
  p v = true ->
  find p (JsMap.values (JsMap.set k v m)) = Some v.
Proof.
  induction m as [|[k0 u0] m IH]; intros F P; simpl.
  - rewrite P. reflexivity.
  - simpl in F. destruct (p u0) eqn:P0; [discriminate|].
    destruct (eq_dec k k0); simpl.
    + rewrite P. reflexivity.
    + rewrite P0. apply IH; auto.
Qed.

Lemma users_keyed_found email s user :
  users_keyed s ->
  find (hasEmail email) (JsMap.values (users s)) = Some user ->
  JsMap.get (User.id user) (users s) = Some user /\
  User.email user = email.
Proof.
  intros [ND K] F. apply find_some in F. destruct F as [I E].
  apply in_map_iff in I. destruct I as ([k x] & E' & I). simpl in E'. subst x.
  split.
  - apply JsMapFacts.in_get_NoDup; auto. rewrite (K _ _ I). exact I.
  - apply String.eqb_eq. exact E.
Qed.

Lemma users_keyed_update s user v :
  users_keyed s ->
  JsMap.get (User.id user) (users s) = Some user ->
  User.id v = User.id user ->
  users_keyed (with_users (JsMap.set (User.id user) v (users s)) s).
Proof.
  intros [ND K] G E. split; simpl.
  - apply JsMapFacts.NoDup_keys_set. exact ND.
  - intros k x I. apply JsMapFacts.in_set in I. destruct I as [I|I].
    + injection I as -> ->. exact E.
    + apply K. exact I.
Qed.

Lemma updateUser_run id updates s user :
  JsMap.get id (users s) = Some user ->
  updateUser id updates s =
  (Ok (mergeUser user updates),
   with_users (JsMap.set id (mergeUser user updates) (users s)) s).
Proof. intros G. unfold updateUser. run_storage. rewrite G. reflexivity. Qed.

Lemma updateUser_missing id updates s :
  JsMap.get id (users s) = None ->
  updateUser id updates s = (Throw (MkError "User not found"), s).
Proof. intros G. unfold updateUser. run_storage. rewrite G. reflexivity. Qed.

(** What [forgot-password] does for a registered email. *)
Lemma forgotPassword_run isEmail bytes now email sess s user :
  isEmail email = true ->
  users_keyed s ->
  find (hasEmail email) (JsMap.values (users s)) = Some user ->
  forgotPassword isEmail bytes now (Some email) sess s =
  mkReply (mkResponse 200 (JMessage "Reset instructions sent to your email"))
    sess
    (with_users
       (JsMap.set (User.id user)
          (mergeUser user
             (issueUpdates (verificationCode bytes) (tokenExpiryAt now)))
          (users s)) s).
Proof.
  intros V K F. destruct (users_keyed_found _ _ _ K F) as [G _].
  unfold forgotPassword, parseInit. rewrite V.
  rewrite getUserByEmail_run. fold (hasEmail email). rewrite F.
  fold (issueUpdates (verificationCode bytes) (tokenExpiryAt now)).
  rewrite (updateUser_run _ _ _ _ G). reflexivity.
Qed.

(** Looking a user up again after an update that keeps the email. *)
Lemma find_after_update email s user updates :
  users_keyed s ->
  find (hasEmail email) (JsMap.values (users s)) = Some user ->
  UserUpdates.email updates = None ->
  find (hasEmail email)
    (JsMap.values (JsMap.set (User.id user) (mergeUser user updates) (users s)))
  = Some (mergeUser user updates).
Proof.
  intros [ND K] F U. apply find_set_first; auto.
  unfold hasEmail, mergeUser. simpl. rewrite U. simpl.
  apply find_some in F. apply F.
Qed.
Lemma set_set (m : JsMap.t Z User.t) k v w :
  JsMap.set k w (JsMap.set k v m) = JsMap.set k w m.
Proof.
  induction m as [|[k0 u0] m IH]; simpl.
  - destruct (eq_dec k k); congruence.
  - destruct (eq_dec k k0) as [E|N]; simpl.
    + destruct (eq_dec k k0); congruence.
    + destruct (eq_dec k k0); [congruence|]. rewrite IH. reflexivity.
Qed.

Lemma mergeUser_issue_password user code expiry newPassword :
  mergeUser (mergeUser user (issueUpdates code expiry))
    (passwordUpdates newPassword)
  = mergeUser user (passwordUpdates newPassword).
Proof. destruct user; reflexivity. Qed.

Lemma min6_code b0 b1 b2 : min6 (verificationCode [b0; b1; b2]) = true.
Proof. unfold min6. rewrite verificationCode_length. reflexivity. Qed.

Lemma truthy_str_code b0 b1 b2 :
  truthy_str (Some (verificationCode [b0; b1; b2])) = true.
Proof.
  pose proof (verificationCode_nonempty b0 b1 b2) as NE.
  destruct (verificationCode [b0; b1; b2]); [congruence|reflexivity].
Qed.

(** What [reset-password] does with a well-formed request for a
    registered email. *)
Lemma resetPassword_run isEmail now email token newPassword sess s user :
  isEmail email = true ->
  min6 token = true ->
  min6 newPassword = true ->
  users_keyed s ->
  find (hasEmail email) (JsMap.values (users s)) = Some user ->
  resetPassword isEmail now (Some email) (Some token) (Some newPassword)
    (Some newPassword) sess s =
  if negb (truthy_str (User.resetToken user))
     || falsy_date (User.resetTokenExpiry user)
  then mkReply (mkResponse 400 (JMessage "Invalid or expired reset token"))
         sess s
  else if str_neq (User.resetToken user) token
  then mkReply (mkResponse 400 (JMessage "Invalid verification code")) sess s
  else if date_gt now (option_map DateAt (User.resetTokenExpiry user))
  then mkReply (mkResponse 400 (JMessage "Reset token has expired")) sess s
  else
    mkReply (mkResponse 200 (JMessage "Password reset successful")) sess
      (with_users
         (JsMap.set (User.id user)
            (mergeUser user (passwordUpdates newPassword)) (users s)) s).
Proof.
  intros V T6 P6 K F. destruct (users_keyed_found _ _ _ K F) as [G _].
  unfold resetPassword, parseReset.
  rewrite V, T6, P6, string_eqb_refl. cbn [andb].
  rewrite getUserByEmail_run. fold (hasEmail email). rewrite F.
  fold (passwordUpdates newPassword).
  rewrite (updateUser_run _ _ _ _ G). reflexivity.
Qed.

(** Password reset, end to end: for a registered email the code issued by
    [forgot-password] resets the password when it is presented no later
    than 30 minutes after it was issued.  The reset stores the new
    password and clears the code, so that the user is found with the new
    password, [login] with it is answered as the suspension flag says, and
    the same code presented again is refused. *)
Theorem password_reset_round_trip :
  forall (isEmail : string -> bool) (b0 b1 b2 : Byte.byte) (now now' : Z)
         (email newPassword : string) (sess : option SessionUser.t)
         (s : MemStorage) (user : User.t),
    isEmail email = true ->
    min6 newPassword = true ->
    users_keyed s ->
    result_of (getUserByEmail email) s = Ok (Some user) ->
    now' <= now + 30 * 60 * 1000 ->
    let code := verificationCode [b0; b1; b2] in
    let asked := forgotPassword isEmail [b0; b1; b2] now (Some email) sess s in
    let reset :=
      resetPassword isEmail now' (Some email) (Some code) (Some newPassword)
        (Some newPassword) sess (storage asked) in
    let user' := mergeUser user (passwordUpdates newPassword) in
    response asked
    = mkResponse 200 (JMessage "Reset instructions sent to your email") /\
    response reset = mkResponse 200 (JMessage "Password reset successful") /\
    storage reset
    = with_users (JsMap.set (User.id user) user' (users s)) s /\
    User.password user' = newPassword /\
    User.resetToken user' = None /\
    result_of (getUserByEmail email) (storage reset) = Ok (Some user') /\
    login isEmail (Some email) (Some newPassword) None (storage reset)
    = (if truthy_bool (User.isSuspended user)
       then
         mkReply
           (mkResponse 403
              (JMessage
                 "Your account has been suspended. Please contact support."))
           None (storage reset)
       else
         mkReply (mkResponse 200 (JUser email (User.isAdmin user)))
           (Some (SessionUser.mk (User.id user) email)) (storage reset)) /\
    resetPassword isEmail now' (Some email) (Some code) (Some newPassword)
      (Some newPassword) sess (storage reset)
    = mkReply
        (mkResponse 400 (JMessage "Invalid or expired reset token"))
        sess (storage reset).
Proof.
  intros isEmail b0 b1 b2 now now' email newPassword sess s user
    V P6 K F T code asked reset user'.
  apply getUserByEmail_some in F. fold (hasEmail email) in F.
  destruct (users_keyed_found _ _ _ K F) as [G Em].
  pose (issued := mergeUser user (issueUpdates code (tokenExpiryAt now))).
  assert (asked
          = mkReply
              (mkResponse 200
                 (JMessage "Reset instructions sent to your email")) sess
              (with_users (JsMap.set (User.id user) issued (users s)) s))
    as A by (apply forgotPassword_run; auto).
  assert (users_keyed (storage asked)) as K1.
  { rewrite A. simpl. apply users_keyed_update; auto. }
  assert (find (hasEmail email) (JsMap.values (users (storage asked)))
          = Some issued) as F1.
  { rewrite A. simpl. apply find_after_update; auto. }
  assert (User.id issued = User.id user) as I1 by (destruct user; reflexivity).
  assert (reset
          = mkReply (mkResponse 200 (JMessage "Password reset successful")) sess
              (with_users (JsMap.set (User.id user) user' (users s)) s)) as R.
  { unfold reset.
    rewrite (resetPassword_run _ _ _ _ _ _ _ _ V (min6_code b0 b1 b2) P6 K1 F1).
    change (User.resetToken issued) with (Some code).
    change (User.resetTokenExpiry issued) with (Some (tokenExpiryAt now)).
    unfold code. rewrite truthy_str_code.
    unfold str_neq. rewrite string_eqb_refl.
    cbn [option_map].
    replace (date_gt now' (Some (DateAt (tokenExpiryAt now)))) with false.
    2:{ unfold date_gt, tokenExpiryAt, nullish.
        symmetry. rewrite Z.gtb_ltb. apply Z.ltb_ge. exact T. }
    cbn [negb orb falsy_date]. rewrite I1. unfold issued.
    rewrite mergeUser_issue_password. fold user'.
    rewrite A. destruct s. simpl. rewrite set_set. reflexivity. }
  assert (find (hasEmail email) (JsMap.values (users (storage reset)))
          = Some user') as F2.
  { rewrite R. simpl. apply find_after_update; auto. }
  assert (users_keyed (storage reset)) as K2.
  { rewrite R. simpl. apply users_keyed_update; auto. }
  split; [rewrite A; reflexivity|].
  split; [rewrite R; reflexivity|].
  split; [rewrite R; reflexivity|].
  split; [destruct user; reflexivity|].
  split; [destruct user; reflexivity|].
  split.
  { unfold result_of. rewrite getUserByEmail_run. fold (hasEmail email).
    rewrite F2. reflexivity. }
  split.
  { unfold login, parseLogin. rewrite V. rewrite getUserByEmail_run.
    fold (hasEmail email). rewrite F2.
    replace (User.password user') with newPassword by (destruct user; reflexivity).
    rewrite string_eqb_refl. cbn [negb].
    replace (User.isSuspended user') with (User.isSuspended user)
      by (destruct user; reflexivity).
    replace (User.email user') with email by (destruct user; simpl in *; congruence).
    replace (User.isAdmin user') with (User.isAdmin user)
      by (destruct user; reflexivity).
    replace (User.id user') with (User.id user) by (destruct user; reflexivity).
    reflexivity. }
  rewrite (resetPassword_run _ _ _ _ _ _ _ _ V (min6_code b0 b1 b2) P6 K2 F2).
  replace (User.resetToken user') with (@None string) by (destruct user; reflexivity).
  reflexivity.
Qed.
Lemma users_keyed_new now : users_keyed (newMemStorage now).
Proof.
  split.
  - vm_compute. repeat constructor; simpl; tauto.
  - intros k u I. vm_compute in I. destruct I as [I|[]].
    injection I as <- <-. reflexivity.
Qed.

(** The administrator of a new storage resets the password one second
    after asking, and logs in with the new one. *)
Lemma password_reset_round_trip_witness :
  let s := newMemStorage 0 in
  let asked :=
    forgotPassword (fun _ => true) [Byte.x0a; Byte.x1b; Byte.x2c] 0
      (Some ADMIN_EMAIL) None s in
  let reset :=
    resetPassword (fun _ => true) 1000 (Some ADMIN_EMAIL) (Some "0A1B2C")
      (Some "secret99") (Some "secret99") None (storage asked) in
  status (response reset) = 200 /\
  status
    (response
       (login (fun _ => true) (Some ADMIN_EMAIL) (Some "secret99") None
          (storage reset))) = 200.
Proof.
  intros s asked reset.
  destruct (password_reset_round_trip (fun _ => true)
              Byte.x0a Byte.x1b Byte.x2c 0 1000 ADMIN_EMAIL "secret99" None s
              _ eq_refl eq_refl (users_keyed_new 0) eq_refl
              ltac:(vm_compute; discriminate))
    as (_ & R & _ & _ & _ & _ & L & _).
  split.
  - change (status (response reset)) with
      (status
         (response
            (resetPassword (fun _ => true) 1000 (Some ADMIN_EMAIL)
               (Some (verificationCode [Byte.x0a; Byte.x1b; Byte.x2c]))
               (Some "secret99") (Some "secret99") None (storage asked)))).
    unfold asked. rewrite R. reflexivity.
  - change reset with
      (resetPassword (fun _ => true) 1000 (Some ADMIN_EMAIL)
         (Some (verificationCode [Byte.x0a; Byte.x1b; Byte.x2c]))
         (Some "secret99") (Some "secret99") None (storage asked)).
    unfold asked. rewrite L. reflexivity.
Defined.

(** Password reset, the refusals: after [forgot-password] issued a code
    for a registered email, a different code is answered 400 "Invalid
    verification code" and the issued code presented later than 30
    minutes after it was issued is answered 400 "Reset token has expired";
    neither changes the storage, so the old password stays.  For an email
    no user has, [forgot-password] answers 404 and [reset-password] 400,
    and the storage is as it was. *)
Theorem password_reset_refusals :
  forall (isEmail : string -> bool) (b0 b1 b2 : Byte.byte) (now now' : Z)
         (email token newPassword : string) (sess : option SessionUser.t)
         (s : MemStorage),
    isEmail email = true ->
    min6 token = true ->
    min6 newPassword = true ->
    users_keyed s ->
    let code := verificationCode [b0; b1; b2] in
    let asked := forgotPassword isEmail [b0; b1; b2] now (Some email) sess s in
    let reset (at_ : Z) (token : string) :=
      resetPassword isEmail at_ (Some email) (Some token) (Some newPassword)
        (Some newPassword) sess (storage asked) in
    (forall user,
       result_of (getUserByEmail email) s = Ok (Some user) ->
       (token <> code ->
        reset now' token
        = mkReply (mkResponse 400 (JMessage "Invalid verification code"))
            sess (storage asked)) /\
       (now + 30 * 60 * 1000 < now' ->
        reset now' code
        = mkReply (mkResponse 400 (JMessage "Reset token has expired"))
            sess (storage asked)) /\
       exists user',
         result_of (getUserByEmail email) (storage asked) = Ok (Some user') /\
         User.password user' = User.password user) /\
    (result_of (getUserByEmail email) s = Ok None ->
     asked = mkReply (mkResponse 404 (JMessage "User not found")) sess s /\
     reset now' token
     = mkReply (mkResponse 400 (JMessage "Invalid or expired reset token"))
         sess s).
Proof.
  intros isEmail b0 b1 b2 now now' email token newPassword sess s
    V T6 P6 K code asked reset.
  split.
  - intros user F.
    apply getUserByEmail_some in F. fold (hasEmail email) in F.
    pose (issued := mergeUser user (issueUpdates code (tokenExpiryAt now))).
    assert (asked
            = mkReply
                (mkResponse 200
                   (JMessage "Reset instructions sent to your email")) sess
                (with_users (JsMap.set (User.id user) issued (users s)) s))
      as A by (apply forgotPassword_run; auto).
    destruct (users_keyed_found _ _ _ K F) as [G Em].
    assert (users_keyed (storage asked)) as K1.
    { rewrite A. simpl. apply users_keyed_update; auto. }
    assert (find (hasEmail email) (JsMap.values (users (storage asked)))
            = Some issued) as F1.
    { rewrite A. simpl. apply find_after_update; auto. }
    split; [|split].
    + intros N. unfold reset.
      rewrite (resetPassword_run _ _ _ _ _ _ _ _ V T6 P6 K1 F1).
      change (User.resetToken issued) with (Some code).
      change (User.resetTokenExpiry issued) with (Some (tokenExpiryAt now)).
      unfold code. rewrite truthy_str_code.
      unfold str_neq. rewrite string_eqb_neq by (intros E; apply N; symmetry; exact E).
      reflexivity.
    + intros L. unfold reset.
      rewrite (resetPassword_run _ _ _ _ _ _ _ _ V (min6_code b0 b1 b2) P6 K1 F1).
      change (User.resetToken issued) with (Some code).
      change (User.resetTokenExpiry issued) with (Some (tokenExpiryAt now)).
      unfold code. rewrite truthy_str_code.
      unfold str_neq. rewrite string_eqb_refl.
      cbn [option_map].
      replace (date_gt now' (Some (DateAt (tokenExpiryAt now)))) with true.
      2:{ unfold date_gt, tokenExpiryAt, nullish.
          symmetry. rewrite Z.gtb_ltb. apply Z.ltb_lt. exact L. }
      reflexivity.
    + exists issued. split.
      * unfold result_of. rewrite getUserByEmail_run. fold (hasEmail email).
        rewrite F1. reflexivity.
      * destruct user; reflexivity.
  - intros F. apply getUserByEmail_none in F.
    assert (asked = mkReply (mkResponse 404 (JMessage "User not found")) sess s)
      as A.
    { unfold asked, forgotPassword, parseInit. rewrite V.
      rewrite getUserByEmail_run, F. reflexivity. }
    split; [exact A|].
    unfold reset. rewrite A. cbn [storage].
    unfold resetPassword, parseReset.
    rewrite V, T6, P6, string_eqb_refl. cbn [andb].
    rewrite getUserByEmail_run, F. reflexivity.
Qed.

(** In a new storage the administrator asks for a code; a wrong code is
    refused. *)
Lemma password_reset_refusals_witness :
  let s := newMemStorage 0 in
  let asked :=
    forgotPassword (fun _ => true) [Byte.x0a; Byte.x1b; Byte.x2c] 0
      (Some ADMIN_EMAIL) None s in
  resetPassword (fun _ => true) 1000 (Some ADMIN_EMAIL) (Some "ABCDEF")
    (Some "secret99") (Some "secret99") None (storage asked)
  = mkReply (mkResponse 400 (JMessage "Invalid verification code"))
      None (storage asked).
Proof.
  intros s asked.
  destruct (password_reset_refusals (fun _ => true)
              Byte.x0a Byte.x1b Byte.x2c 0 1000 ADMIN_EMAIL "ABCDEF"
              "secret99" None s eq_refl eq_refl eq_refl (users_keyed_new 0))
    as [A _].
  destruct (A _ eq_refl) as [W _].
  apply W. vm_compute. discriminate.
Defined.

(** ** Registration, through the handlers *)

Lemma registerVerify_run isEmail now email token sess s :
  isEmail email = true ->
  min6 token = true ->
  registerVerify isEmail now (Some email) (Some token) sess s =
  if tokenVerdict now token (JsMap.get email (pendingUsers s))
  then
    mkReply
      (mkResponse 200 (JMessageEmail "Email verification successful" email))
      sess s
  else
    mkReply
      (mkResponse 400 (JMessage "Invalid or expired verification code"))
      sess s.
Proof.
  intros V T6. unfold registerVerify, parseVerify. rewrite V, T6. cbn [andb].
  rewrite verifyEmailToken_run.
  destruct (tokenVerdict now token (JsMap.get email (pendingUsers s)));
    reflexivity.
Qed.

Lemma tokenVerdict_issued now now' b0 b1 b2 email :
  now' <= now + 30 * 60 * 1000 ->
  tokenVerdict now' (verificationCode [b0; b1; b2])
    (Some
       (PendingUser.mk email (Some (verificationCode [b0; b1; b2]))
          (Some (DateAt (tokenExpiryAt now))) None)) = true.
Proof.
  intros T. unfold tokenVerdict. cbn [PendingUser.verificationToken
    PendingUser.verificationTokenExpiry].
  rewrite truthy_str_code. unfold str_neq. rewrite string_eqb_refl.
  replace (date_gt now' (Some (DateAt (tokenExpiryAt now)))) with false.
  - reflexivity.
  - unfold date_gt, tokenExpiryAt, nullish.
    symmetry. rewrite Z.gtb_ltb. apply Z.ltb_ge. exact T.
Qed.

(** Registration, end to end: for a valid email that no user has,
    whatever the delivery of the code did, the code is accepted by
    [register/verify] up to 30 minutes after [register/init]; and
    [register/complete], at any time and whether or not the code was
    verified, creates the user under the next id, opens the session for
    it, and leaves a storage in which [login] with the chosen password
    succeeds, a second [register/complete] is answered 400, and
    [register/init] answers "Email already registered". *)
Theorem registration_round_trip :
  forall (isEmail : string -> bool) (b0 b1 b2 : Byte.byte)
         (now now1 now2 : Z) (delivery : Delivery)
         (email password : string) (sess : option SessionUser.t)
         (s : MemStorage),
    isEmail email = true ->
    min6 password = true ->
    result_of (getUserByEmail email) s = Ok None ->
    let code := verificationCode [b0; b1; b2] in
    let started :=
      storage
        (registerInit isEmail [b0; b1; b2] now delivery (Some email) sess s) in
    let completed :=
      registerComplete isEmail now2 (Some email) (Some password)
        (Some password) sess started in
    let user := completedUser now2 email password s in
    let opened := Some (SessionUser.mk (CurrentIds.user (currentIds s)) email) in
    (now1 <= now + 30 * 60 * 1000 ->
     registerVerify isEmail now1 (Some email) (Some code) sess started
     = mkReply
         (mkResponse 200
            (JMessageEmail "Email verification successful" email))
         sess started) /\
    response completed
    = mkResponse 200 (JUser email (Some (String.eqb email ADMIN_EMAIL))) /\
    session completed = opened /\
    users (storage completed)
    = JsMap.set (CurrentIds.user (currentIds s)) user (users s) /\
    JsMap.get email (pendingUsers (storage completed)) = None /\
    login isEmail (Some email) (Some password) None (storage completed)
    = mkReply
        (mkResponse 200 (JUser email (Some (String.eqb email ADMIN_EMAIL))))
        opened (storage completed) /\
    registerComplete isEmail now2 (Some email) (Some password)
      (Some password) sess (storage completed)
    = mkReply
        (mkResponse 400
           (JMessage "No pending registration found for this email"))
        sess (storage completed) /\
    registerInit isEmail [b0; b1; b2] now delivery (Some email) sess
      (storage completed)
    = mkReply (mkResponse 400 (JMessage "Email already registered"))
        sess (storage completed).
Proof.
  intros isEmail b0 b1 b2 now now1 now2 delivery email password sess s
    V P6 F code started completed user opened.
  apply getUserByEmail_none in F.
  pose (pending :=
          PendingUser.mk email (Some code) (Some (DateAt (tokenExpiryAt now)))
            None).
  assert (started
          = with_pendingUsers (JsMap.set email pending (pendingUsers s)) s)
    as S by (apply registerInit_storage; auto).
  assert (JsMap.get email (pendingUsers started) = Some pending) as G.
  { rewrite S. destruct s. simpl. apply JsMapFacts.get_set_same. }
  assert (users started = users s) as U by (rewrite S; destruct s; reflexivity).
  assert (currentIds started = currentIds s) as C
    by (rewrite S; destruct s; reflexivity).
  destruct (completeUserRegistration_present now2 email password started
              pending G) as (s' & E & Us & Ps).
  assert (completedUser now2 email password started = user) as CU.
  { unfold completedUser, user. rewrite C. reflexivity. }
  rewrite CU, C, U in *.
  assert (completed
          = mkReply
              (mkResponse 200 (JUser email (Some (String.eqb email ADMIN_EMAIL))))
              opened s') as R.
  { unfold completed, registerComplete, parseComplete.
    rewrite V, P6, string_eqb_refl. cbn [andb]. rewrite E. reflexivity. }
  assert (find (hasEmail email) (JsMap.values (users s')) = Some user) as F'.
  { rewrite Us. apply find_set_none; auto.
    unfold hasEmail. apply string_eqb_refl. }
  assert (JsMap.get email (pendingUsers s') = None) as G'.
  { rewrite Ps. apply JsMapFacts.get_delete_same. }
  split.
  { intros T. rewrite (registerVerify_run _ _ _ _ _ _ V (min6_code b0 b1 b2)).
    rewrite G. unfold pending, code. rewrite (tokenVerdict_issued _ _ _ _ _ _ T).
    reflexivity. }
  rewrite R. cbn [response session storage].
  split; [reflexivity|]. split; [reflexivity|].
  split; [exact Us|]. split; [exact G'|].
  split.
  { unfold login, parseLogin. rewrite V. rewrite getUserByEmail_run.
    fold (hasEmail email). rewrite F'. unfold user, completedUser.
    cbn [User.password User.isSuspended User.email User.isAdmin User.id].
    rewrite string_eqb_refl. reflexivity. }
  split.
  { unfold registerComplete, parseComplete.
    rewrite V, P6, string_eqb_refl. cbn [andb].
    rewrite (completeUserRegistration_missing _ _ _ _ G'). reflexivity. }
  unfold registerInit, parseInit. rewrite V. rewrite getUserByEmail_run.
  fold (hasEmail email). rewrite F'. reflexivity.
Qed.

(** A visitor registers in a new storage; the code never arrives and is
    never verified. *)
Lemma registration_round_trip_witness :
  let started :=
    storage
      (registerInit (fun _ => true) [Byte.x0a; Byte.x1b; Byte.x2c] 0
         DeliveryFailed (Some "asha@example.com") None (newMemStorage 0)) in
  let completed :=
    registerComplete (fun _ => true) 5000000 (Some "asha@example.com")
      (Some "secret99") (Some "secret99") None started in
  response completed
  = mkResponse 200 (JUser "asha@example.com" (Some false)) /\
  session completed = Some (SessionUser.mk 2 "asha@example.com").
Proof.
  intros started completed.
  destruct (registration_round_trip (fun _ => true)
              Byte.x0a Byte.x1b Byte.x2c 0 0 5000000 DeliveryFailed
              "asha@example.com" "secret99" None (newMemStorage 0)
              eq_refl eq_refl eq_refl)
    as (_ & R & S & _).
  split; [exact R | exact S].
Defined.

(** ** Suspension, the admin flag and the admin gate *)

Lemma toggleUserSuspension_run id s user :
  JsMap.get id (users s) = Some user ->
  toggleUserSuspension id s =
  updateUser id
    (UserUpdates.mk None None None None None None None None None None None
       (Some (Some (negb (truthy_bool (User.isSuspended user))))) None) s.
Proof.
  intros G. unfold toggleUserSuspension. unfold bind at 1, gets.
  rewrite G. reflexivity.
Qed.

Lemma toggleUserAdmin_run id s user :
  JsMap.get id (users s) = Some user ->
  toggleUserAdmin id s =
  updateUser id
    (UserUpdates.mk None None None None None None None None None None
       (Some (Some (negb (truthy_bool (User.isAdmin user))))) None None) s.
Proof.
  intros G. unfold toggleUserAdmin. unfold bind at 1, gets.
  rewrite G. reflexivity.
Qed.

Lemma login_found isEmail email password sess s user :
  isEmail email = true ->
  find (hasEmail email) (JsMap.values (users s)) = Some user ->
  login isEmail (Some email) (Some password) sess s =
  if negb (String.eqb (User.password user) password) then
    mkReply (mkResponse 401 (JMessage "Invalid email or password")) sess s
  else if truthy_bool (User.isSuspended user) then
    mkReply
      (mkResponse 403
         (JMessage "Your account has been suspended. Please contact support."))
      sess s
  else
    mkReply (mkResponse 200 (JUser (User.email user) (User.isAdmin user)))
      (Some (SessionUser.mk (User.id user) (User.email user))) s.
Proof.
  intros V F. unfold login, parseLogin. rewrite V.
  rewrite getUserByEmail_run. fold (hasEmail email). rewrite F. reflexivity.
Qed.

(** Suspending through [toggleUserSuspension] and logging in: for a user
    stored under its own id, one toggle turns a successful [login] with
    the right password into a 403 and a refused one into a success, a
    second toggle turns it back, and the toggle of an id that no user has
    throws "User not found" and changes nothing. *)
Theorem toggleUserSuspension_login :
  forall (isEmail : string -> bool) (email : string)
         (sess : option SessionUser.t) (s : MemStorage) (user : User.t),
    isEmail email = true ->
    users_keyed s ->
    result_of (getUserByEmail email) s = Ok (Some user) ->
    let password := User.password user in
    let s1 := state_after (toggleUserSuspension (User.id user)) s in
    let s2 := state_after (toggleUserSuspension (User.id user)) s1 in
    let ok st :=
      mkReply (mkResponse 200 (JUser email (User.isAdmin user)))
        (Some (SessionUser.mk (User.id user) email)) st in
    let refused st :=
      mkReply
        (mkResponse 403
           (JMessage
              "Your account has been suspended. Please contact support."))
        sess st in
    login isEmail (Some email) (Some password) sess s
    = (if truthy_bool (User.isSuspended user) then refused s else ok s) /\
    login isEmail (Some email) (Some password) sess s1
    = (if truthy_bool (User.isSuspended user) then ok s1 else refused s1) /\
    login isEmail (Some email) (Some password) sess s2
    = (if truthy_bool (User.isSuspended user) then refused s2 else ok s2) /\
    (forall id,
       JsMap.get id (users s) = None ->
       toggleUserSuspension id s = (Throw (MkError "User not found"), s)).
Proof.
  intros isEmail email sess s user V K F password s1 s2 ok refused.
  apply getUserByEmail_some in F. fold (hasEmail email) in F.
  destruct (users_keyed_found _ _ _ K F) as [G Em].
  pose (u1 :=
          mergeUser user
            (UserUpdates.mk None None None None None None None None None None
               None (Some (Some (negb (truthy_bool (User.isSuspended user)))))
               None)).
  assert (s1 = with_users (JsMap.set (User.id user) u1 (users s)) s) as S1.
  { unfold s1, state_after. rewrite (toggleUserSuspension_run _ _ _ G).
    rewrite (updateUser_run _ _ _ _ G). reflexivity. }
  assert (users_keyed s1) as K1.
  { rewrite S1. apply users_keyed_update; auto. }
  assert (find (hasEmail email) (JsMap.values (users s1)) = Some u1) as F1.
  { rewrite S1. simpl. apply find_after_update; auto. }
  assert (JsMap.get (User.id user) (users s1) = Some u1) as G1.
  { rewrite S1. simpl. apply JsMapFacts.get_set_same. }
  pose (u2 :=
          mergeUser u1
            (UserUpdates.mk None None None None None None None None None None
               None (Some (Some (negb (truthy_bool (User.isSuspended u1)))))
               None)).
  assert (s2 = with_users (JsMap.set (User.id user) u2 (users s1)) s1) as S2.
  { unfold s2, state_after. rewrite (toggleUserSuspension_run _ _ _ G1).
    rewrite (updateUser_run _ _ _ _ G1). reflexivity. }
  assert (find (hasEmail email) (JsMap.values (users s2)) = Some u2) as F2.
  { rewrite S2. simpl.
    apply (find_after_update email s1 u1); auto. }
  split; [|split; [|split]].
  - rewrite (login_found _ _ _ _ _ _ V F). fold password.
    rewrite string_eqb_refl, Em. cbn [negb]. unfold ok, refused.
    destruct (truthy_bool (User.isSuspended user)); reflexivity.
  - rewrite (login_found _ _ _ _ _ _ V F1).
    replace (User.password u1) with password by (destruct user; reflexivity).
    replace (User.email u1) with email by (destruct user; exact (eq_sym Em)).
    replace (User.isAdmin u1) with (User.isAdmin user)
      by (destruct user; reflexivity).
    replace (User.id u1) with (User.id user) by (destruct user; reflexivity).
    change (User.isSuspended u1)
      with (Some (negb (truthy_bool (User.isSuspended user)))).
    rewrite string_eqb_refl. cbn [negb truthy_bool]. unfold ok, refused.
    destruct (truthy_bool (User.isSuspended user)); reflexivity.
  - rewrite (login_found _ _ _ _ _ _ V F2).
    replace (User.password u2) with password by (destruct user; reflexivity).
    replace (User.email u2) with email by (destruct user; exact (eq_sym Em)).
    replace (User.isAdmin u2) with (User.isAdmin user)
      by (destruct user; reflexivity).
    replace (User.id u2) with (User.id user) by (destruct user; reflexivity).
    change (User.isSuspended u2)
      with (Some (negb (truthy_bool
                          (Some (negb (truthy_bool (User.isSuspended user))))))).
    rewrite string_eqb_refl. cbn [negb truthy_bool]. unfold ok, refused.
    destruct (truthy_bool (User.isSuspended user)); reflexivity.
  - intros id N. unfold toggleUserSuspension, bind, gets.
    rewrite N. reflexivity.
Qed.

(** The administrator of a new storage is suspended and cannot log in. *)
Lemma toggleUserSuspension_login_witness :
  status
    (response
       (login (fun _ => true) (Some ADMIN_EMAIL) (Some "admin123") None
          (state_after (toggleUserSuspension 1) (newMemStorage 0)))) = 403.
Proof.
  destruct (toggleUserSuspension_login (fun _ => true) ADMIN_EMAIL None
              (newMemStorage 0) _ eq_refl (users_keyed_new 0) eq_refl)
    as (_ & L & _).
  simpl in L. rewrite L. reflexivity.
Defined.

(** The admin gate looks at the session only, and the session holds an id
    and an email: it lets a request through exactly when the session's
    email is the administrator's.  So a user whom [toggleUserAdmin]
    has made an administrator, and whom [login] then reports as one, is
    still answered 403 by the gate. *)
Theorem isAdmin_ignores_admin_flag :
  forall (isEmail : string -> bool) (email : string)
         (s : MemStorage) (user : User.t),
    isEmail email = true ->
    users_keyed s ->
    result_of (getUserByEmail email) s = Ok (Some user) ->
    truthy_bool (User.isSuspended user) = false ->
    let s1 := state_after (toggleUserAdmin (User.id user)) s in
    let reply :=
      login isEmail (Some email) (Some (User.password user)) None s1 in
    (forall sess,
       isAdmin sess = None <->
       exists u, sess = Some u /\ SessionUser.email u = ADMIN_EMAIL) /\
    response reply
    = mkResponse 200
        (JUser email (Some (negb (truthy_bool (User.isAdmin user))))) /\
    session reply = Some (SessionUser.mk (User.id user) email) /\
    isAdmin (session reply)
    = (if String.eqb email ADMIN_EMAIL then None
       else Some (mkResponse 403 (JMessage "Admin access required"))).
Proof.
  intros isEmail email s user V K F NS s1 reply.
  apply getUserByEmail_some in F. fold (hasEmail email) in F.
  destruct (users_keyed_found _ _ _ K F) as [G Em].
  pose (u1 :=
          mergeUser user
            (UserUpdates.mk None None None None None None None None None None
               (Some (Some (negb (truthy_bool (User.isAdmin user))))) None
               None)).
  assert (s1 = with_users (JsMap.set (User.id user) u1 (users s)) s) as S1.
  { unfold s1, state_after. rewrite (toggleUserAdmin_run _ _ _ G).
    rewrite (updateUser_run _ _ _ _ G). reflexivity. }
  assert (find (hasEmail email) (JsMap.values (users s1)) = Some u1) as F1.
  { rewrite S1. simpl. apply find_after_update; auto. }
  assert (reply
          = mkReply
              (mkResponse 200
                 (JUser email (Some (negb (truthy_bool (User.isAdmin user))))))
              (Some (SessionUser.mk (User.id user) email)) s1) as R.
  { unfold reply. rewrite (login_found _ _ _ _ _ _ V F1).
    replace (User.password u1) with (User.password user)
      by (destruct user; reflexivity).
    replace (User.email u1) with email by (destruct user; exact (eq_sym Em)).
    replace (User.isSuspended u1) with (User.isSuspended user)
      by (destruct user; reflexivity).
    replace (User.id u1) with (User.id user) by (destruct user; reflexivity).
    change (User.isAdmin u1)
      with (Some (negb (truthy_bool (User.isAdmin user)))).
    rewrite string_eqb_refl, NS. reflexivity. }
  split.
  { intros sess. unfold isAdmin. destruct sess as [u|].
    - destruct (String.eqb (SessionUser.email u) ADMIN_EMAIL) eqn:E; simpl.
      + split; [|reflexivity]. intros _. exists u.
        split; [reflexivity|]. apply String.eqb_eq. exact E.
      + split; [discriminate|]. intros (u' & U & A). injection U as <-.
        apply String.eqb_eq in A. congruence.
    - split; [discriminate|]. intros (u' & U & _). discriminate. }
  rewrite R. cbn [response session].
  split; [reflexivity|]. split; [reflexivity|].
  unfold isAdmin. cbn [SessionUser.email].
  destruct (String.eqb email ADMIN_EMAIL); reflexivity.
Qed.

(** A customer of a storage with two users is made an administrator,
    logs in, and is refused by the gate. *)
Lemma isAdmin_ignores_admin_flag_witness :
  let s :=
    state_after
      (createUser 0
         (UserData.mk "asha@example.com" "secret99" None None None None None
            None None))
      (newMemStorage 0) in
  let reply :=
    login (fun _ => true) (Some "asha@example.com") (Some "secret99") None
      (state_after (toggleUserAdmin 2) s) in
  response reply = mkResponse 200 (JUser "asha@example.com" (Some true)) /\
  isAdmin (session reply)
  = Some (mkResponse 403 (JMessage "Admin access required")).
Proof.
  intros s reply.
  assert (users_keyed s) as K.
  { split.
    - vm_compute. repeat constructor; simpl; intuition discriminate.
    - intros k u I. vm_compute in I. destruct I as [I|[I|[]]];
        injection I as <- <-; reflexivity. }
  destruct (isAdmin_ignores_admin_flag (fun _ => true) "asha@example.com" s _
              eq_refl K eq_refl eq_refl) as (_ & R & _ & A).
  split; [exact R | exact A].
Defined.

(** ** Reading the inventory log *)

Lemma insertBy_ext {A : Type} (c1 c2 : A -> A -> Z) x l :
  (forall a b, c1 a b = c2 a b) -> insertBy c1 x l = insertBy c2 x l.
Proof.
  intros E. induction l as [|y rest IH]; simpl; [reflexivity|].
  rewrite E, IH. reflexivity.
Qed.

Lemma sortBy_ext {A : Type} (c1 c2 : A -> A -> Z) l :
  (forall a b, c1 a b = c2 a b) -> sortBy c1 l = sortBy c2 l.
Proof.
  intros E. induction l as [|x rest IH]; simpl; [reflexivity|].
  fold (sortBy c1 rest). fold (sortBy c2 rest).
  rewrite IH. apply insertBy_ext. exact E.
Qed.

Lemma sortBy_newest_first (l : list InventoryLog.t) :
  sortBy (fun a b => logTime b - logTime a) l
  = sortBy (fun a b => (fun x => - logTime x) a - (fun x => - logTime x) b) l.
Proof. apply sortBy_ext. intros a b. lia. Qed.

Lemma getInventoryLogs_run productId s :
  getInventoryLogs productId s
  = (Ok (sortBy (fun a b => logTime b - logTime a)
           (filter
              (fun log =>
                 if truthy_num productId
                 then InventoryLog.productId log =? nullish productId 0
                 else true)
              (JsMap.values (inventoryLogs s)))), s).
Proof.
  unfold getInventoryLogs, gets. destruct (truthy_num productId).
  - reflexivity.
  - f_equal. f_equal. f_equal. symmetry. apply forallb_filter_id.
    apply forallb_forall. reflexivity.
Qed.

(** [getInventoryLogs(productId?)] leaves the storage as it is and returns
    the stored logs of that product, or all of them when no id is given,
    newest first: a permutation of them, in descending order of
    timestamp, logs of the same millisecond in the order they were
    written.  The id 0 counts as no id: [getInventoryLogs(0)] returns all
    the logs. *)
Theorem getInventoryLogs_result :
  forall (productId : option Z) (s : MemStorage),
    let keep (log : InventoryLog.t) :=
      if truthy_num productId
      then InventoryLog.productId log =? nullish productId 0
      else true in
    exists logs,
      getInventoryLogs productId s = (Ok logs, s) /\
      Permutation (filter keep (JsMap.values (inventoryLogs s))) logs /\
      StronglySorted (fun a b => logTime b <= logTime a) logs /\
      (forall t,
         filter (fun log => logTime log =? t) logs
         = filter (fun log => logTime log =? t)
             (filter keep (JsMap.values (inventoryLogs s)))) /\
      (forall id, productId = Some id -> id <> 0 ->
         forall log,
           In log logs <->
           In log (JsMap.values (inventoryLogs s)) /\
           InventoryLog.productId log = id) /\
      getInventoryLogs (Some 0) s = getInventoryLogs None s.
Proof.
  intros productId s keep.
  eexists. split; [apply getInventoryLogs_run|]. fold keep.
  rewrite sortBy_newest_first.
  split; [apply sortBy_perm|].
  split.
  { pose proof (sortBy_sorted (fun x => - logTime x)
                  (filter keep (JsMap.values (inventoryLogs s)))) as S.
    eapply StronglySorted_ind with (P := fun l =>
      StronglySorted (fun a b => logTime b <= logTime a) l) in S.
    - exact S.
    - constructor.
    - intros a l _ IH F. constructor; [exact IH|].
      rewrite Forall_forall in *. intros x I. specialize (F x I). simpl in F. lia. }
  split.
  { intros t.
    pose proof (sortBy_stable (fun x => - logTime x) (- t)
                  (filter keep (JsMap.values (inventoryLogs s)))) as St.
    assert (forall l : list InventoryLog.t,
              filter (fun log => logTime log =? t) l
              = filter (fun a => - logTime a =? - t) l) as Eq.
    { intros l. apply filter_ext. intros a.
      destruct (logTime a =? t) eqn:E1; destruct (- logTime a =? - t) eqn:E2;
        try reflexivity.
      - apply Z.eqb_eq in E1. apply Z.eqb_neq in E2. lia.
      - apply Z.eqb_neq in E1. apply Z.eqb_eq in E2. lia. }
    rewrite !Eq. exact St. }
  split.
  { intros id E N log.
    assert (forall x, keep x = (InventoryLog.productId x =? id)) as Kp.
    { intros x. unfold keep. rewrite E. unfold truthy_num, nullish.
      apply Z.eqb_neq in N. rewrite N. reflexivity. }
    pose proof (sortBy_perm (fun x => - logTime x)
                  (filter keep (JsMap.values (inventoryLogs s)))) as P.
    split.
    - intros I. apply (Permutation_in _ (Permutation_sym P)) in I.
      apply filter_In in I. destruct I as [I K]. rewrite Kp in K.
      apply Z.eqb_eq in K. split; assumption.
    - intros [I K]. apply (Permutation_in _ P). apply filter_In.
      split; [exact I|]. rewrite Kp. apply Z.eqb_eq. exact K. }
  reflexivity.
Qed.

Lemma sortBy_newest_last_written (l : list InventoryLog.t) new :
  (forall log, In log l -> logTime log < logTime new) ->
  fold_right (insertBy (fun a b => logTime b - logTime a)) [new] l
  = new :: sortBy (fun a b => logTime b - logTime a) l.
Proof.
  induction l as [|x rest IH]; intros O; [reflexivity|].
  cbn [fold_right]. rewrite IH by (intros log I; apply O; right; exact I).
  cbn [insertBy sortBy fold_right].
  assert (logTime x < logTime new) as L by (apply O; left; reflexivity).
  destruct (logTime new - logTime x <=? 0) eqn:C; [|reflexivity].
  apply Z.leb_le in C. lia.
Qed.

Lemma insertBy_head {A : Type} (compare : A -> A -> Z) x l :
  hd_error (insertBy compare x l) = Some x \/
  hd_error (insertBy compare x l) = hd_error l /\
  exists y, hd_error l = Some y /\ 0 < compare x y.
Proof.
  destruct l as [|y rest]; simpl; [left; reflexivity|].
  destruct (compare x y <=? 0) eqn:C; [left; reflexivity|].
  right. split; [reflexivity|]. exists y. split; [reflexivity|].
  apply Z.leb_gt in C. exact C.
Qed.

Lemma written_last_head (l : list InventoryLog.t) new :
  exists h,
    hd_error
      (fold_right (insertBy (fun a b => logTime b - logTime a)) [new] l)
    = Some h /\
    (In h l \/
     h = new /\ forall log, In log l -> logTime log < logTime new).
Proof.
  induction l as [|x rest IH].
  - exists new. split; [reflexivity|]. right. split; [reflexivity|].
    intros log [].
  - cbn [fold_right].
    destruct IH as (r & Hr & IH).
    destruct (insertBy_head (fun a b => logTime b - logTime a) x
                (fold_right (insertBy (fun a b => logTime b - logTime a))
                   [new] rest)) as [H|(H & y & Hy & C)].
    + exists x. split; [exact H|]. left. left. reflexivity.
    + exists r. rewrite H. split; [exact Hr|].
      rewrite Hr in Hy. injection Hy as <-.
      destruct IH as [I|[-> O]].
      * left. right. exact I.
      * right. split; [reflexivity|].
        intros log [<-|I]; [lia | apply O; exact I].
Qed.

Lemma logTime_stockLog now productId quantityChange s :
  logTime (stockLog now productId quantityChange s) = now.
Proof.
  unfold logTime, stockLog, or_num. simpl.
  destruct (now =? 0) eqn:E; [|reflexivity].
  apply Z.eqb_eq in E. congruence.
Qed.

Lemma fold_right_insertBy_app {A : Type} (compare : A -> A -> Z) l x :
  sortBy compare (l ++ [x]) = fold_right (insertBy compare) [x] l.
Proof. unfold sortBy. rewrite fold_right_app. reflexivity. Qed.

(** The log after a stock adjustment: in a reachable storage,
    [getInventoryLogs()] after [updateProductStock] returns the entry just
    written first when the clock has moved on since every stored entry.
    When a stored entry carries the same or a later timestamp, the first
    log returned is one of the stored entries, not the one just
    written. *)
Theorem getInventoryLogs_after_update :
  forall (now productId quantityChange : Z) (s : MemStorage)
         (product : Product.t),
    reachable s ->
    JsMap.get productId (products s) = Some product ->
    let written := stockLog now productId quantityChange s in
    let before := JsMap.values (inventoryLogs s) in
    let after :=
      result_of (getInventoryLogs None)
        (state_after (updateProductStock now productId quantityChange) s) in
    ((forall log, In log before -> logTime log < now) ->
     after
     = Ok (written :: sortBy (fun a b => logTime b - logTime a) before)) /\
    ((exists log, In log before /\ now <= logTime log) ->
     exists first rest, after = Ok (first :: rest) /\ In first before).
Proof.
  intros now productId quantityChange s product R G written before after.
  assert (after
          = Ok (fold_right (insertBy (fun a b => logTime b - logTime a))
                  [written] before)) as A.
  { unfold after, result_of, state_after.
    rewrite (updateProductStock_run _ _ _ _ _ G).
    rewrite getInventoryLogs_run. cbn [fst snd truthy_num].
    rewrite forallb_filter_id by (apply forallb_forall; reflexivity).
    unfold before. destruct s. simpl.
    match goal with
    | |- context [JsMap.set ?k ?v ?m] =>
        replace (JsMap.values (JsMap.set k v m)) with (JsMap.values m ++ [v])
    end.
    - rewrite fold_right_insertBy_app. reflexivity.
    - symmetry. apply JsMapFacts.values_set_fresh.
      intros Hin. apply (reachable_logs_numbered _ R) in Hin.
      simpl in Hin. lia. }
  split.
  - intros O. rewrite A. f_equal. apply sortBy_newest_last_written.
    intros log I. unfold written. rewrite logTime_stockLog. apply O. exact I.
  - intros (log & I & T). rewrite A.
    destruct (written_last_head before written) as (h & Hh & [Ih|[_ O]]).
    + destruct (fold_right _ _ before) as [|first rest]; [discriminate|].
      injection Hh as ->. exists h, rest. split; [reflexivity | exact Ih].
    + specialize (O log I). unfold written in O.
      rewrite logTime_stockLog in O. lia.
Qed.

(** A storage that holds one log entry, written at time 5.  An adjustment
    at time 9 is listed before it; an adjustment at time 5, the instant of
    the stored entry, is listed after it. *)
Lemma getInventoryLogs_after_update_witness :
  let s := exec (UpdateProductStock 5 1 3) (newMemStorage 0) in
  let stored := stockLog 5 1 3 (newMemStorage 0) in
  JsMap.values (inventoryLogs s) = [stored] /\
  result_of (getInventoryLogs None)
    (state_after (updateProductStock 9 1 (-2)) s)
  = Ok [stockLog 9 1 (-2) s; stored] /\
  exists rest,
    result_of (getInventoryLogs None)
      (state_after (updateProductStock 5 1 (-2)) s)
    = Ok (stored :: rest).
Proof.
  intros s stored.
  assert (reachable s) as R
    by (apply reachable_call; apply reachable_new).
  assert (JsMap.values (inventoryLogs s) = [stored]) as Before
    by (vm_compute; reflexivity).
  destruct (JsMap.get 1 (products s)) as [product|] eqn:G;
    [|vm_compute in G; discriminate].
  split; [exact Before|]. split.
  - destruct (getInventoryLogs_after_update 9 1 (-2) s product R G)
      as [Later _].
    rewrite Later.
    + rewrite Before. reflexivity.
    + intros log I. rewrite Before in I. destruct I as [<-|[]].
      vm_compute. reflexivity.
  - destruct (getInventoryLogs_after_update 5 1 (-2) s product R G)
      as [_ Same].
    destruct Same as (first & rest & E & I).
    + exists stored. split; [rewrite Before; left; reflexivity|].
      vm_compute. discriminate.
    + rewrite Before in I. destruct I as [<-|[]].
      exists rest. exact E.
Defined.

(** ** Reading the addresses *)

Section SortByCompare.
Context {A : Type} (compare : A -> A -> Z).
Hypothesis compare_trans :
  forall a b c, compare a b <= 0 -> compare b c <= 0 -> compare a c <= 0.
Hypothesis compare_total : forall a b, 0 < compare a b -> compare b a <= 0.

Lemma insertBy_perm_compare x l : Permutation (x :: l) (insertBy compare x l).
Proof.
  induction l as [|y rest IH]; simpl; [apply Permutation_refl|].
  destruct (compare x y <=? 0).
  - apply Permutation_refl.
  - eapply perm_trans; [apply perm_swap|]. apply perm_skip. exact IH.
Qed.

Lemma sortBy_perm_compare l : Permutation l (sortBy compare l).
Proof.
  induction l as [|x rest IH]; simpl; [constructor|].
  eapply perm_trans; [apply perm_skip; exact IH|].
  apply insertBy_perm_compare.
Qed.

Lemma insertBy_sorted_compare x l :
  StronglySorted (fun a b => compare a b <= 0) l ->
  StronglySorted (fun a b => compare a b <= 0) (insertBy compare x l).
Proof.
  induction 1 as [|y rest S IH F]; simpl.
  - constructor; constructor.
  - destruct (compare x y <=? 0) eqn:C.
    + apply Z.leb_le in C. constructor.
      * constructor; assumption.
      * constructor; [exact C|].
        rewrite Forall_forall in *. intros z I.
        apply (compare_trans x y z C). apply F. exact I.
    + apply Z.leb_gt in C. constructor; [exact IH|].
      rewrite Forall_forall in *. intros z I.
      apply (Permutation_in _ (Permutation_sym (insertBy_perm_compare x rest)))
        in I.
      destruct I as [<-|I]; [apply compare_total; lia | auto].
Qed.

Lemma sortBy_sorted_compare l :
  StronglySorted (fun a b => compare a b <= 0) (sortBy compare l).
Proof.
  induction l as [|x rest IH]; simpl; [constructor|].
  apply insertBy_sorted_compare. exact IH.
Qed.

End SortByCompare.

Lemma compareAddresses_trans a b c :
  compareAddresses a b <= 0 -> compareAddresses b c <= 0 ->
  compareAddresses a c <= 0.
Proof.
  unfold compareAddresses, falsy_date, nullish.
  destruct (truthy_bool (UserAddress.isPrimary a)),
    (truthy_bool (UserAddress.isPrimary b)),
    (truthy_bool (UserAddress.isPrimary c)),
    (UserAddress.createdAt a), (UserAddress.createdAt b),
    (UserAddress.createdAt c); simpl; lia.
Qed.

Lemma compareAddresses_total a b :
  0 < compareAddresses a b -> compareAddresses b a <= 0.
Proof.
  unfold compareAddresses, falsy_date, nullish.
  destruct (truthy_bool (UserAddress.isPrimary a)),
    (truthy_bool (UserAddress.isPrimary b)),
    (UserAddress.createdAt a), (UserAddress.createdAt b); simpl; lia.
Qed.

(** What the comparator says: [a] may come before [b] when [a] is primary
    and [b] is not, or when they agree on the flag and [b] has no date or
    both have one and [a]'s is not the later. *)
Lemma compareAddresses_le a b :
  compareAddresses a b <= 0 <->
  (truthy_bool (UserAddress.isPrimary a) = true /\
   truthy_bool (UserAddress.isPrimary b) = false) \/
  (truthy_bool (UserAddress.isPrimary a)
   = truthy_bool (UserAddress.isPrimary b) /\
   (UserAddress.createdAt b = None \/
    exists ta tb,
      UserAddress.createdAt a = Some ta /\
      UserAddress.createdAt b = Some tb /\ ta <= tb)).
Proof.
  unfold compareAddresses, falsy_date, nullish.
  destruct (truthy_bool (UserAddress.isPrimary a)),
    (truthy_bool (UserAddress.isPrimary b)),
    (UserAddress.createdAt a) as [ta|], (UserAddress.createdAt b) as [tb|];
    simpl;
    (split;
     [ intros H;
       first
         [ lia
         | left; split; reflexivity
         | right; split; [reflexivity|]; left; reflexivity
         | right; split; [reflexivity|]; right; eexists _, _;
           split; [reflexivity|]; split; [reflexivity|]; lia ]
     | intros [[H1 H2]|[H1 [H2|(x & y & E1 & E2 & L)]]];
       try discriminate;
       try (inversion E1; inversion E2; subst);
       lia ]).
Qed.

(** [getUserAddresses(userId)] leaves the storage as it is and returns the
    addresses of that user, each once, in the order of its comparator:
    the addresses flagged primary first, and among addresses with the same
    flag the dated ones by creation date, the undated ones last.  When
    the user has one primary address, it is the first one returned. *)
Theorem getUserAddresses_result :
  forall (userId : Z) (s : MemStorage),
    exists list,
      getUserAddresses userId s = (Ok list, s) /\
      Permutation
        (filter (fun addr => UserAddress.userId addr =? userId)
           (JsMap.values (addresses s))) list /\
      StronglySorted (fun a b => compareAddresses a b <= 0) list /\
      (forall a b,
         compareAddresses a b <= 0 <->
         (truthy_bool (UserAddress.isPrimary a) = true /\
          truthy_bool (UserAddress.isPrimary b) = false) \/
         (truthy_bool (UserAddress.isPrimary a)
          = truthy_bool (UserAddress.isPrimary b) /\
          (UserAddress.createdAt b = None \/
           exists ta tb,
             UserAddress.createdAt a = Some ta /\
             UserAddress.createdAt b = Some tb /\ ta <= tb))) /\
      (forall primary,
         primaryOf userId s = [primary] -> hd_error list = Some primary).
Proof.
  intros userId s. eexists. split; [reflexivity|].
  set (own := filter (fun addr => UserAddress.userId addr =? userId)
                (JsMap.values (addresses s))).
  pose proof (sortBy_perm_compare compareAddresses own) as P.
  pose proof (sortBy_sorted_compare compareAddresses compareAddresses_trans
                compareAddresses_total own) as S.
  split; [exact P|]. split; [exact S|]. split; [apply compareAddresses_le|].
  intros p Pr.
  assert (forall a, In a (primaryOf userId s) <->
                    In a own /\ truthy_bool (UserAddress.isPrimary a) = true)
    as Pm.
  { intros a. unfold primaryOf, own. rewrite !filter_In.
    rewrite andb_true_iff. tauto. }
  assert (In p own /\ truthy_bool (UserAddress.isPrimary p) = true) as [Ip Tp].
  { apply Pm. rewrite Pr. left. reflexivity. }
  apply (Permutation_in _ P) in Ip.
  destruct (sortBy compareAddresses own) as [|h t] eqn:E; [destruct Ip|].
  simpl. f_equal.
  assert (truthy_bool (UserAddress.isPrimary h) = true) as Th.
  { destruct (truthy_bool (UserAddress.isPrimary h)) eqn:Th; [reflexivity|].
    destruct Ip as [->|It]; [congruence|].
    inversion S as [|? ? _ F]; subst.
    rewrite Forall_forall in F. specialize (F p It).
    apply compareAddresses_le in F.
    destruct F as [[F _]|[F _]]; congruence. }
  assert (In h (primaryOf userId s)) as Ih.
  { apply Pm. split; [|exact Th].
    apply (Permutation_in _ (Permutation_sym P)). left. reflexivity. }
  rewrite Pr in Ih. destruct Ih as [<-|[]]. reflexivity.
Qed.

(** ** The product catalogue *)

(** Only the product methods touch the products and their counter. *)
Lemma exec_frame_products c s :
  match c with
  | CreateProduct _ _ | UpdateProduct _ _ | DeleteProduct _
  | UpdateProductStock _ _ _ => True
  | _ =>
      products (exec c s) = products s /\
      CurrentIds.product (currentIds (exec c s))
      = CurrentIds.product (currentIds s)
  end.
Proof.
  destruct c; try exact I;
    try (rewrite exec_updateUserAddress; destruct (findAddress _ _ _); auto);
    run_call; auto.
Qed.

Lemma createProduct_run now product s :
  createProduct now product s
  = (Ok (newProductOf now product s),
     with_products
       (JsMap.set (CurrentIds.product (currentIds s))
          (newProductOf now product s) (products s))
       (with_currentIds
          (CurrentIds.mk (CurrentIds.user (currentIds s))
             (CurrentIds.product (currentIds s) + 1)
             (CurrentIds.message (currentIds s))
             (CurrentIds.preference (currentIds s))
             (CurrentIds.address (currentIds s))) s)).
Proof. reflexivity. Qed.

Lemma deleteProduct_run id s :
  deleteProduct id s
  = if JsMap.has id (products s)
    then (Ok true, with_products (JsMap.delete id (products s)) s)
    else (Ok false, s).
Proof.
  unfold deleteProduct, bind, gets, modify, ret.
  destruct (JsMap.has id (products s)); reflexivity.
Qed.

Lemma updateProduct_run id updates s :
  updateProduct id updates s
  = match JsMap.get id (products s) with
    | Some product =>
        (Ok (mergeProduct product updates),
         with_products
           (JsMap.set id (mergeProduct product updates) (products s)) s)
    | None => (Throw (MkError "Product not found"), s)
    end.
Proof.
  unfold updateProduct, bind, gets, modify, ret, throw.
  destruct (JsMap.get id (products s)); reflexivity.
Qed.

Lemma get_in_keys (m : JsMap.t Z Product.t) k v :
  JsMap.get k m = Some v -> In k (JsMap.keys m).
Proof.
  intros G. apply JsMapFacts.get_Some_in in G.
  apply in_map_iff. exists (k, v). split; [reflexivity | exact G].
Qed.

Lemma reachable_products_numbered s : reachable s -> products_numbered s.
Proof.
  induction 1 as [now|c s R IH].
  - intros k Hk. vm_compute in Hk. vm_compute.
    destruct Hk as [<-|[<-|[]]]; reflexivity.
  - pose proof (exec_frame_products c s) as F.
    destruct c;
      try (match type of F with
           | _ /\ _ =>
               destruct F as [F1 F2]; unfold products_numbered in *;
               rewrite F1, F2; exact IH
           end).
    + unfold exec, state_after. rewrite createProduct_run.
      intros k Hk. destruct s. simpl in *.
      apply JsMapFacts.in_keys_set in Hk. destruct Hk as [->|Hk]; [lia|].
      specialize (IH k Hk). simpl in IH. lia.
    + unfold exec, state_after. rewrite updateProduct_run.
      destruct (JsMap.get id (products s)) eqn:G; [|exact IH].
      intros k Hk. destruct s. simpl in *.
      apply JsMapFacts.in_keys_set in Hk. destruct Hk as [->|Hk].
      * apply IH. simpl. eapply get_in_keys. exact G.
      * apply IH. exact Hk.
    + unfold exec, state_after. rewrite deleteProduct_run.
      destruct (JsMap.has id (products s)); [|exact IH].
      intros k Hk. destruct s. simpl in *.
      apply IH. simpl.
      apply in_map_iff in Hk. destruct Hk as (e & E & Hk).
      apply JsMapFacts.in_delete in Hk.
      apply in_map_iff. exists e. split; [exact E | apply Hk].
    + rewrite exec_updateProductStock.
      destruct (JsMap.get productId (products s)) eqn:G; [|exact IH].
      intros k Hk. destruct s. simpl in *.
      apply JsMapFacts.in_keys_set in Hk. destruct Hk as [->|Hk].
      * apply IH. simpl. eapply get_in_keys. exact G.
      * apply IH. exact Hk.
Qed.

Lemma products_with_products m s : products (with_products m s) = m.
Proof. destruct s; reflexivity. Qed.

Lemma currentIds_with_products m s :
  currentIds (with_products m s) = currentIds s.
Proof. destruct s; reflexivity. Qed.

Lemma delete_fresh_set (m : JsMap.t Z Product.t) k v :
  JsMap.get k m = None -> JsMap.delete k (JsMap.set k v m) = m.
Proof.
  intros G. rewrite (JsMapFacts.set_fresh _ _ _ G).
  unfold JsMap.delete. rewrite filter_app. simpl.
  destruct (eq_dec k k) as [_|N]; [|congruence].
  rewrite app_nil_r. apply forallb_filter_id. apply forallb_forall.
  intros [k' v'] I. simpl.
  destruct (eq_dec k k') as [<-|_]; [|reflexivity].
  apply JsMapFacts.get_None_notin in G. exfalso. apply G.
  apply in_map_iff. exists (k, v'). split; [reflexivity | exact I].
Qed.

(** Creating a product in a reachable storage: the product gets the next
    id, which no stored product has, so nothing is overwritten and
    [getProducts] lists it last; [featured], [stock] and [minStock] take
    their defaults only when absent, an explicit 0 is kept.  Deleting it
    again gives back the product map as it was, but not the id: the
    counter stays advanced. *)
Theorem createProduct_then_delete :
  forall (now : Z) (product : InsertProduct.t) (s : MemStorage),
    reachable s ->
    let id := CurrentIds.product (currentIds s) in
    let created := newProductOf now product s in
    let s1 := state_after (createProduct now product) s in
    let s2 := state_after (deleteProduct id) s1 in
    result_of (createProduct now product) s = Ok created /\
    Product.id created = id /\
    Product.stock created = nullish (InsertProduct.stock product) 0 /\
    Product.minStock created
    = Some (nullish (InsertProduct.minStock product) 5) /\
    JsMap.get id (products s) = None /\
    result_of getProducts s1
    = Ok (JsMap.values (products s) ++ [created]) /\
    (forall k, k <> id ->
       JsMap.get k (products s1) = JsMap.get k (products s)) /\
    result_of (deleteProduct id) s1 = Ok true /\
    products s2 = products s /\
    CurrentIds.product (currentIds s2) = id + 1 /\
    result_of (deleteProduct id) s2 = Ok false.
Proof.
  intros now product s R id created s1 s2.
  assert (JsMap.get id (products s) = None) as G.
  { apply JsMapFacts.get_None_notin. intros I.
    apply (reachable_products_numbered _ R) in I. unfold id in I. lia. }
  assert (products s1 = JsMap.set id created (products s)) as P1
    by (destruct s; reflexivity).
  assert (CurrentIds.product (currentIds s1) = id + 1) as C1
    by (destruct s; reflexivity).
  assert (JsMap.has id (products s1) = true) as H1.
  { unfold JsMap.has. rewrite P1, JsMapFacts.get_set_same. reflexivity. }
  assert (products s2 = products s) as P2.
  { unfold s2, state_after. rewrite deleteProduct_run, H1. cbn [snd].
    rewrite products_with_products, P1. apply delete_fresh_set. exact G. }
  split; [reflexivity|]. split; [reflexivity|]. split; [reflexivity|].
  split; [reflexivity|]. split; [exact G|].
  split.
  { unfold result_of, getProducts, gets. cbn [fst]. rewrite P1.
    rewrite JsMapFacts.values_set_fresh; [reflexivity|].
    apply JsMapFacts.get_None_notin. exact G. }
  split.
  { intros k N. rewrite P1. apply JsMapFacts.get_set_other. congruence. }
  split.
  { unfold result_of. rewrite deleteProduct_run, H1. reflexivity. }
  split; [exact P2|].
  split.
  { unfold s2, state_after. rewrite deleteProduct_run, H1. cbn [snd].
    rewrite currentIds_with_products. exact C1. }
  unfold result_of. rewrite deleteProduct_run.
  unfold JsMap.has. rewrite P2, G. reflexivity.
Qed.

(** A product with no minimum stock of its own, created in a new
    storage. *)
Lemma createProduct_then_delete_witness :
  let s := newMemStorage 0 in
  let product :=
    InsertProduct.mk "Linen Kurta" None (Some 900) 1499 "kurta.jpg" "Ethnic Wear"
      None None (Some 0) None None None in
  Product.minStock (newProductOf 7 product s) = Some 0 /\
  products (state_after (deleteProduct 3) (state_after (createProduct 7 product) s))
  = products s.
Proof.
  intros s product.
  destruct (createProduct_then_delete 7 product s (reachable_new 0))
    as (_ & _ & _ & M & _ & _ & _ & _ & P & _).
  split; [exact M | exact P].
Defined.

(** ** Preferences *)

Lemma userPrefs_with_userPrefs m s : userPrefs (with_userPrefs m s) = m.
Proof. destruct s; reflexivity. Qed.

Lemma with_userPrefs_same s : with_userPrefs (userPrefs s) s = s.
Proof. destruct s; reflexivity. Qed.

Lemma with_userPrefs_twice m m' s :
  with_userPrefs m (with_userPrefs m' s) = with_userPrefs m s.
Proof. destruct s; reflexivity. Qed.

Lemma updateUserPreferences_present userId updates s prefs :
  JsMap.get userId (userPrefs s) = Some prefs ->
  updateUserPreferences userId updates s
  = (Ok (mergePreference prefs updates),
     with_userPrefs
       (JsMap.set userId (mergePreference prefs updates) (userPrefs s)) s).
Proof.
  intros G. unfold updateUserPreferences, bind, gets, modify, ret.
  rewrite G. reflexivity.
Qed.

Lemma firstPreference_spread {A : Type} (default : A) upd :
  Some (nullish (spread (Some default) upd) default)
  = firstPreference default upd.
Proof. destruct upd as [[v|]|]; reflexivity. Qed.

Lemma spread_first {A : Type} (default : A) upd :
  definite upd = true ->
  spread (Some (nullish (spread (Some default) upd) default)) upd
  = Some (nullish (spread (Some default) upd) default).
Proof. destruct upd as [[v|]|]; [reflexivity | discriminate | reflexivity]. Qed.

Lemma mergePreference_twice prefs updates :
  mergePreference (mergePreference prefs updates) updates
  = mergePreference prefs updates.
Proof.
  destruct updates as [i u e o p a d l c].
  destruct i, u, e, o, p, a, d, l, c; reflexivity.
Qed.

(** [updateUserPreferences(userId, updates)], for updates that carry no
    [id] and no [userId]: it stores what it returns under [userId], so
    that [getUserPreferences(userId)] reads it back, and touches no other
    user's preferences.  For a user without preferences the record gets
    the next id, and each preference is the updated value, or the default
    when the update has none or [null].  Repeating the call returns the
    same record and changes nothing, provided no preference is updated to
    [null]; a [null] is replaced by the default in the first call of a
    user and stored in the second. *)
Theorem updateUserPreferences_upsert :
  forall (userId : Z) (updates : PreferenceUpdates.t) (s : MemStorage),
    PreferenceUpdates.id updates = None ->
    PreferenceUpdates.userId updates = None ->
    exists prefs s1,
      updateUserPreferences userId updates s = (Ok prefs, s1) /\
      result_of (getUserPreferences userId) s1 = Ok (Some prefs) /\
      (forall other, other <> userId ->
         result_of (getUserPreferences other) s1
         = result_of (getUserPreferences other) s) /\
      (result_of (getUserPreferences userId) s = Ok None ->
       prefs
       = UserPreference.mk (CurrentIds.preference (currentIds s)) userId
           (firstPreference true (PreferenceUpdates.emailNotifications updates))
           (firstPreference true (PreferenceUpdates.orderUpdates updates))
           (firstPreference false (PreferenceUpdates.promotions updates))
           (firstPreference true (PreferenceUpdates.accountAlerts updates))
           (firstPreference false (PreferenceUpdates.darkMode updates))
           (firstPreference "en" (PreferenceUpdates.language updates))
           (firstPreference "inr" (PreferenceUpdates.currency updates))) /\
      (noNull updates = true ->
       updateUserPreferences userId updates s1 = (Ok prefs, s1)) /\
      (result_of (getUserPreferences userId) s = Ok None ->
       PreferenceUpdates.language updates = Some None ->
       UserPreference.language prefs = Some "en" /\
       exists prefs2 s2,
         updateUserPreferences userId updates s1 = (Ok prefs2, s2) /\
         UserPreference.language prefs2 = None).
Proof.
  intros userId updates s NI NU.
  destruct (JsMap.get userId (userPrefs s)) as [old|] eqn:G.
  - exists (mergePreference old updates).
    eexists. split; [apply updateUserPreferences_present; exact G|].
    split.
    { unfold result_of, getUserPreferences, gets. cbn [fst].
      rewrite userPrefs_with_userPrefs, JsMapFacts.get_set_same. reflexivity. }
    split.
    { intros other N. unfold result_of, getUserPreferences, gets. cbn [fst].
      rewrite userPrefs_with_userPrefs.
      rewrite JsMapFacts.get_set_other by congruence. reflexivity. }
    split.
    { unfold result_of, getUserPreferences, gets. cbn [fst]. rewrite G.
      discriminate. }
    split.
    { intros _.
      rewrite (updateUserPreferences_present _ _ _ (mergePreference old updates)).
      - rewrite mergePreference_twice. f_equal.
        rewrite userPrefs_with_userPrefs.
        rewrite JsMapFacts.set_same_value
          by apply JsMapFacts.get_set_same.
        destruct s; reflexivity.
      - rewrite userPrefs_with_userPrefs. apply JsMapFacts.get_set_same. }
    unfold result_of, getUserPreferences, gets. cbn [fst]. rewrite G.
    discriminate.
  - destruct updates as [i u e o p a d l c]. simpl in NI, NU. subst i u.
    eexists. eexists.
    split.
    { unfold updateUserPreferences, bind, gets. rewrite G.
      unfold createUserPreferences, next_preference_id, bind, gets, modify, ret.
      cbn [fst snd PreferenceUpdates.userId PreferenceUpdates.emailNotifications
           PreferenceUpdates.orderUpdates PreferenceUpdates.promotions
           PreferenceUpdates.accountAlerts PreferenceUpdates.darkMode
           PreferenceUpdates.language PreferenceUpdates.currency spread].
      reflexivity. }
    split.
    { unfold result_of, getUserPreferences, gets. cbn [fst].
      rewrite userPrefs_with_userPrefs. simpl.
      rewrite JsMapFacts.get_set_same. reflexivity. }
    split.
    { intros other N. unfold result_of, getUserPreferences, gets. cbn [fst].
      rewrite userPrefs_with_userPrefs. simpl.
      rewrite JsMapFacts.get_set_other by congruence.
      destruct s; reflexivity. }
    split.
    { intros _. simpl. rewrite !firstPreference_spread. reflexivity. }
    split.
    { intros NN.
      match goal with
      | |- updateUserPreferences _ _ (with_userPrefs (JsMap.set _ ?v _) _) = _ =>
          rewrite (updateUserPreferences_present _ _ _ v)
      end.
      - match goal with
        | |- (Ok ?a, _) = (Ok ?b, _) =>
            assert (a = b) as ->
        end.
        { unfold noNull in NN. simpl in NN.
          repeat (apply andb_true_iff in NN; destruct NN as [NN ?]).
          unfold mergePreference. simpl.
          rewrite !spread_first by assumption. reflexivity. }
        f_equal. rewrite userPrefs_with_userPrefs.
        rewrite JsMapFacts.set_same_value
          by apply JsMapFacts.get_set_same.
        rewrite with_userPrefs_twice. reflexivity.
      - rewrite userPrefs_with_userPrefs. apply JsMapFacts.get_set_same. }
    intros _ L. simpl in L. subst l. split; [reflexivity|].
    eexists. eexists. split.
    { match goal with
      | |- updateUserPreferences _ _ (with_userPrefs (JsMap.set _ ?v _) _) = _ =>
          apply (updateUserPreferences_present _ _ _ v)
      end.
      rewrite userPrefs_with_userPrefs. apply JsMapFacts.get_set_same. }
    reflexivity.
Qed.

(** The first user of a new storage turns dark mode on and sends a [null]
    language, twice. *)
Lemma updateUserPreferences_upsert_witness :
  let updates :=
    PreferenceUpdates.mk None None None None None None (Some (Some true))
      (Some None) None in
  let s := newMemStorage 0 in
  exists prefs s1,
    updateUserPreferences 1 updates s = (Ok prefs, s1) /\
    UserPreference.language prefs = Some "en" /\
    exists prefs2 s2,
      updateUserPreferences 1 updates s1 = (Ok prefs2, s2) /\
      UserPreference.language prefs2 = None.
Proof.
  intros updates s.
  destruct (updateUserPreferences_upsert 1 updates s eq_refl eq_refl)
    as (prefs & s1 & E & _ & _ & _ & _ & N).
  destruct (N eq_refl eq_refl) as (L & prefs2 & s2 & E2 & L2).
  exists prefs, s1. split; [exact E|]. split; [exact L|].
  exists prefs2, s2. split; [exact E2 | exact L2].
Defined.

(** ** Accounts: one user per email *)

Lemma find_hasEmail_none email (l : list User.t) :
  find (hasEmail email) l = None <-> ~ In email (map User.email l).
Proof.
  induction l as [|u rest IH]; simpl; [tauto|].
  unfold hasEmail at 1. destruct (String.eqb (User.email u) email) eqn:E.
  - apply String.eqb_eq in E. split; [discriminate|]. intros N. tauto.
  - apply String.eqb_neq in E. rewrite IH. tauto.
Qed.

Lemma find_hasEmail_unique (l : list User.t) u :
  NoDup (map User.email l) -> In u l ->
  find (hasEmail (User.email u)) l = Some u.
Proof.
  induction l as [|x rest IH]; intros ND I; [destruct I|].
  simpl in ND. inversion ND as [|? ? NI ND']; subst.
  simpl. unfold hasEmail at 1.
  destruct I as [->|I].
  - rewrite string_eqb_refl. reflexivity.
  - destruct (String.eqb (User.email x) (User.email u)) eqn:E.
    + apply String.eqb_eq in E. exfalso. apply NI. rewrite E.
      apply in_map. exact I.
    + apply IH; assumption.
Qed.

Lemma emails_set_same (m : JsMap.t Z User.t) id old v :
  JsMap.get id m = Some old ->
  User.email v = User.email old ->
  map User.email (JsMap.values (JsMap.set id v m))
  = map User.email (JsMap.values m).
Proof.
  induction m as [|[k0 u0] rest IH]; intros G E; [discriminate|].
  simpl in *. destruct (eq_dec id k0).
  - injection G as ->. simpl. rewrite E. reflexivity.
  - simpl. f_equal. apply IH; assumption.
Qed.

Lemma NoDup_snoc (l : list string) x :
  NoDup l -> ~ In x l -> NoDup (l ++ [x]).
Proof.
  induction 1 as [|y rest NI ND IH]; intros N; simpl.
  - constructor; [intros []|constructor].
  - constructor.
    + intros I. apply in_app_or in I. destruct I as [I|[I|[]]].
      * apply NI. exact I.
      * apply N. left. symmetry. exact I.
    + apply IH. intros I. apply N. right. exact I.
Qed.

Lemma users_with_users m s : users (with_users m s) = m.
Proof. destruct s; reflexivity. Qed.

Lemma accounts_inv_update s id old updates :
  accounts_inv s ->
  JsMap.get id (users s) = Some old ->
  keepsAccount updates ->
  accounts_inv
    (with_users (JsMap.set id (mergeUser old updates) (users s)) s).
Proof.
  intros ((ND & K) & N & U & P) G [KI KE].
  assert (User.id old = id) as Io.
  { apply K. apply JsMapFacts.get_Some_in. exact G. }
  assert (User.id (mergeUser old updates) = id) as Im.
  { unfold mergeUser. simpl. rewrite KI. exact Io. }
  assert (User.email (mergeUser old updates) = User.email old) as Em.
  { unfold mergeUser. simpl. rewrite KE. reflexivity. }
  assert (emails (with_users (JsMap.set id (mergeUser old updates) (users s)) s)
          = emails s) as Ee.
  { unfold emails. rewrite users_with_users.
    apply (emails_set_same _ _ old); assumption. }
  split; [|split; [|split]].
  - split; rewrite users_with_users.
    + apply JsMapFacts.NoDup_keys_set. exact ND.
    + intros k x I. apply JsMapFacts.in_set in I. destruct I as [I|I].
      * injection I as -> ->. exact Im.
      * apply K. exact I.
  - intros k I. rewrite users_with_users in I.
    apply JsMapFacts.in_keys_set in I.
    replace (currentIds (with_users _ s)) with (currentIds s)
      by (destruct s; reflexivity).
    destruct I as [->|I]; [|apply N; exact I].
    apply N. apply in_map_iff. exists (id, old).
    split; [reflexivity|]. apply JsMapFacts.get_Some_in. exact G.
  - rewrite Ee. exact U.
  - intros email I. rewrite Ee. apply P.
    destruct s; exact I.
Qed.

Lemma exec_updateUser id updates s :
  exec (UpdateUser id updates) s
  = match JsMap.get id (users s) with
    | Some old =>
        with_users (JsMap.set id (mergeUser old updates) (users s)) s
    | None => s
    end.
Proof.
  unfold exec, state_after. destruct (JsMap.get id (users s)) eqn:G.
  - rewrite (updateUser_run _ _ _ _ G). reflexivity.
  - rewrite (updateUser_missing _ _ _ G). reflexivity.
Qed.

Lemma exec_toggleUserSuspension id s :
  exists updates,
    keepsAccount updates /\
    exec (ToggleUserSuspension id) s = exec (UpdateUser id updates) s.
Proof.
  destruct (JsMap.get id (users s)) as [user|] eqn:G.
  - eexists. split; [|unfold exec, state_after;
                      rewrite (toggleUserSuspension_run _ _ _ G); reflexivity].
    split; reflexivity.
  - exists (UserUpdates.mk None None None None None None None None None None
              None None None).
    split; [split; reflexivity|].
    rewrite exec_updateUser, G. unfold exec, state_after, toggleUserSuspension.
    unfold bind, gets. rewrite G. reflexivity.
Qed.

Lemma exec_toggleUserAdmin id s :
  exists updates,
    keepsAccount updates /\
    exec (ToggleUserAdmin id) s = exec (UpdateUser id updates) s.
Proof.
  destruct (JsMap.get id (users s)) as [user|] eqn:G.
  - eexists. split; [|unfold exec, state_after;
                      rewrite (toggleUserAdmin_run _ _ _ G); reflexivity].
    split; reflexivity.
  - exists (UserUpdates.mk None None None None None None None None None None
              None None None).
    split; [split; reflexivity|].
    rewrite exec_updateUser, G. unfold exec, state_after, toggleUserAdmin.
    unfold bind, gets. rewrite G. reflexivity.
Qed.

(** The calls that do not touch the users, their counter or the pending
    registrations. *)
Lemma exec_frame_users c s :
  match c with
  | CreateUser _ _ | CreatePendingUser _ _ _ | CompleteUserRegistration _ _ _
  | UpdateUser _ _ | ToggleUserSuspension _ | ToggleUserAdmin _ => True
  | _ =>
      users (exec c s) = users s /\
      CurrentIds.user (currentIds (exec c s)) = CurrentIds.user (currentIds s) /\
      pendingUsers (exec c s) = pendingUsers s
  end.
Proof.
  destruct c; try exact I;
    try (rewrite exec_updateUserAddress; destruct (findAddress _ _ _); auto);
    run_call; auto.
Qed.

Lemma accounts_inv_frame s s' :
  users s' = users s ->
  CurrentIds.user (currentIds s') = CurrentIds.user (currentIds s) ->
  pendingUsers s' = pendingUsers s ->
  accounts_inv s -> accounts_inv s'.
Proof.
  intros Us Cs Ps. unfold accounts_inv, users_keyed, emails.
  rewrite Us, Cs, Ps. tauto.
Qed.

Lemma completeUserRegistration_state now email password s pending :
  JsMap.get email (pendingUsers s) = Some pending ->
  let s' := exec (CompleteUserRegistration now email password) s in
  users s'
  = JsMap.set (CurrentIds.user (currentIds s))
      (completedUser now email password s) (users s) /\
  CurrentIds.user (currentIds s') = CurrentIds.user (currentIds s) + 1 /\
  pendingUsers s' = JsMap.delete email (pendingUsers s).
Proof.
  intros G s'. unfold s', exec, state_after.
  unfold completeUserRegistration, getPendingUserByEmail.
  run_storage. rewrite G. simpl. destruct s; simpl. auto.
Qed.

Lemma accounts_inv_step c s :
  accountKept c -> accounts_inv s -> accounts_inv (exec c s).
Proof.
  intros A Inv. pose proof (exec_frame_users c s) as F.
  destruct c;
    try (match type of F with
         | _ /\ _ =>
             destruct F as (F1 & F2 & F3);
             exact (accounts_inv_frame _ _ F1 F2 F3 Inv)
         end).
  - destruct A.
  - destruct (exec_createPendingUser email verificationToken tokenExpiry s)
      as [E|E]; rewrite E; [exact Inv|].
    destruct (find (hasEmail email) (JsMap.values (users s))) eqn:Fd.
    + unfold hasEmail in Fd.
      unfold exec, state_after in E.
      rewrite (createPendingUser_taken _ _ _ _ _ Fd) in E. simpl in E.
      rewrite <- E. exact Inv.
    + apply find_hasEmail_none in Fd.
      destruct Inv as (K & N & U & P).
      split; [|split; [|split]]; try (destruct s; assumption).
      intros e I.
      replace (emails (with_pendingUsers _ s)) with (emails s)
        by (destruct s; reflexivity).
      replace (pendingUsers (with_pendingUsers _ s))
        with (JsMap.set email
                (PendingUser.mk email (Some verificationToken)
                   (Some tokenExpiry) None) (pendingUsers s)) in I
        by (destruct s; reflexivity).
      apply JsMapFacts.in_keys_set in I. destruct I as [->|I].
      * exact Fd.
      * apply P. exact I.
  - destruct (JsMap.get email (pendingUsers s)) as [pending|] eqn:G.
    + destruct (completeUserRegistration_state now email password s _ G)
        as (Us & Cs & Ps).
      destruct Inv as ((ND & K) & N & U & P).
      assert (~ In (CurrentIds.user (currentIds s)) (JsMap.keys (users s)))
        as Fresh.
      { intros I. apply N in I. lia. }
      assert (~ In email (emails s)) as NE.
      { apply P. apply in_map_iff. exists (email, pending).
        split; [reflexivity|]. apply JsMapFacts.get_Some_in. exact G. }
      assert (emails (exec (CompleteUserRegistration now email password) s)
              = emails s ++ [email]) as Ee.
      { unfold emails. rewrite Us.
        rewrite (JsMapFacts.values_set_fresh _ _ _ Fresh).
        rewrite map_app. reflexivity. }
      split; [|split; [|split]].
      * split; rewrite Us.
        -- apply JsMapFacts.NoDup_keys_set. exact ND.
        -- intros k x I. apply JsMapFacts.in_set in I. destruct I as [I|I].
           ++ injection I as -> ->. reflexivity.
           ++ apply K. exact I.
      * intros k I. rewrite Us in I. rewrite Cs.
        apply JsMapFacts.in_keys_set in I. destruct I as [->|I]; [lia|].
        apply N in I. lia.
      * rewrite Ee. apply NoDup_snoc; assumption.
      * intros e I. rewrite Ps in I. rewrite Ee.
        apply in_map_iff in I. destruct I as (x & Ex & I).
        apply JsMapFacts.in_delete in I. destruct I as [I Nx].
        intros J. apply in_app_or in J. destruct J as [J|[J|[]]].
        -- apply (P e); [|exact J]. apply in_map_iff. exists x. auto.
        -- congruence.
    + unfold exec, state_after.
      rewrite (completeUserRegistration_missing _ _ _ _ G). exact Inv.
  - rewrite exec_updateUser.
    destruct (JsMap.get id (users s)) eqn:G; [|exact Inv].
    apply accounts_inv_update; assumption.
  - destruct (exec_toggleUserSuspension id s) as (u & KA & E). rewrite E.
    rewrite exec_updateUser.
    destruct (JsMap.get id (users s)) eqn:G; [|exact Inv].
    apply accounts_inv_update; assumption.
  - destruct (exec_toggleUserAdmin id s) as (u & KA & E). rewrite E.
    rewrite exec_updateUser.
    destruct (JsMap.get id (users s)) eqn:G; [|exact Inv].
    apply accounts_inv_update; assumption.
Qed.

Lemma accounts_inv_new now : accounts_inv (newMemStorage now).
Proof.
  split; [apply users_keyed_new|]. split; [|split].
  - intros k I. vm_compute in I. destruct I as [<-|[]]. reflexivity.
  - vm_compute. constructor; [intros []|constructor].
  - intros email I. vm_compute in I. destruct I.
Qed.

Lemma reachableAccountKept_inv s : reachableAccountKept s -> accounts_inv s.
Proof.
  induction 1 as [now|c s A R IH].
  - apply accounts_inv_new.
  - apply accounts_inv_step; assumption.
Qed.

(** One account per email: in every storage reached by calls among which
    there is no [createUser] and no [updateUser] that passes an [id] or
    an [email] -- the calls the handlers make -- every user is stored
    under its own id, no two users share an email, so that
    [getUserByEmail] finds every stored user by its email, and no
    registration is pending for an email that is registered. *)
Theorem one_account_per_email :
  forall (s : MemStorage),
    reachableAccountKept s ->
    users_keyed s /\
    NoDup (emails s) /\
    (forall user,
       In user (JsMap.values (users s)) <->
       result_of (getUserByEmail (User.email user)) s = Ok (Some user)) /\
    (forall email pending,
       result_of (getPendingUserByEmail email) s = Ok (Some pending) ->
       result_of (getUserByEmail email) s = Ok None).
Proof.
  intros s R. destruct (reachableAccountKept_inv s R) as (K & N & U & P).
  split; [exact K|]. split; [exact U|]. split.
  - intros user. unfold result_of. rewrite getUserByEmail_run. cbn [fst].
    fold (hasEmail (User.email user)). split.
    + intros I. f_equal. apply find_hasEmail_unique; assumption.
    + intros E. injection E as E. apply find_some in E. apply E.
  - intros email pending G. unfold result_of in *.
    rewrite getUserByEmail_run. cbn [fst]. fold (hasEmail email). f_equal.
    apply find_hasEmail_none. apply P.
    unfold getPendingUserByEmail, gets in G. cbn [fst] in G.
    injection G as G. apply in_map_iff. exists (email, pending).
    split; [reflexivity|]. apply JsMapFacts.get_Some_in. exact G.
Qed.

(** A visitor registers in a new storage and asks for a second
    registration of the same email, which is refused: the visitor's
    account is the one [getUserByEmail] finds. *)
Lemma one_account_per_email_witness :
  let s :=
    exec (CreatePendingUser "asha@example.com" "0A1B2C" (DateAt 1800000))
      (exec (CompleteUserRegistration 5 "asha@example.com" "secret99")
         (exec (CreatePendingUser "asha@example.com" "0A1B2C" (DateAt 1800000))
            (newMemStorage 0))) in
  emails s = [ADMIN_EMAIL; "asha@example.com"] /\
  NoDup (emails s) /\
  result_of (getUserByEmail "asha@example.com") s
  = Ok (Some (completedUser 5 "asha@example.com" "secret99" (newMemStorage 0))).
Proof.
  intros s.
  assert (reachableAccountKept s) as R.
  { repeat (apply reachableAccountKept_call; [exact I|]).
    apply reachableAccountKept_new. }
  destruct (one_account_per_email s R) as (_ & U & F & _).
  split; [vm_compute; reflexivity|]. split; [exact U|].
  exact (proj1
           (F (completedUser 5 "asha@example.com" "secret99" (newMemStorage 0)))
           ltac:(vm_compute; right; left; reflexivity)).
Defined.

(** ** Deleting an address *)

Lemma values_delete_keyed (m : JsMap.t Z UserAddress.t) id :
  (forall k a, In (k, a) m -> UserAddress.id a = k) ->
  JsMap.values (JsMap.delete id m)
  = filter (fun a => negb (UserAddress.id a =? id)) (JsMap.values m).
Proof.
  induction m as [|[k a] rest IH]; intros K; [reflexivity|].
  assert (UserAddress.id a = k) as E by (apply K; left; reflexivity).
  assert (forall k' a', In (k', a') rest -> UserAddress.id a' = k') as K'
    by (intros k' a' I; apply K; right; exact I).
  unfold JsMap.delete in *. simpl. rewrite E.
  destruct (eq_dec id k) as [->|N].
  - rewrite Z.eqb_refl. simpl. apply IH. exact K'.
  - replace (k =? id) with false by (symmetry; apply Z.eqb_neq; congruence).
    simpl. f_equal. apply IH. exact K'.
Qed.

Lemma filter_filter_comm {X : Type} (p q : X -> bool) l :
  filter p (filter q l) = filter q (filter p l).
Proof.
  induction l as [|x rest IH]; [reflexivity|]. simpl.
  destruct (p x) eqn:P, (q x) eqn:Q; simpl; rewrite ?P, ?Q, IH; reflexivity.
Qed.

Lemma addresses_with_addresses m s : addresses (with_addresses m s) = m.
Proof. destruct s; reflexivity. Qed.

(** [deleteUserAddress(id, userId)] in a storage reached without an
    update that reassigns an address's [id] or [userId]: it returns
    [false] and changes nothing when no address has that id or when the
    address belongs to another user; otherwise it returns [true] and
    removes that address only.  No other address is promoted: after the
    primary address is deleted its user has no primary address.  A second
    call returns [false]. *)
Theorem deleteUserAddress_spec :
  forall (id userId : Z) (s : MemStorage),
    reachableOwnerKept s ->
    (JsMap.get id (addresses s) = None ->
     deleteUserAddress id userId s = (Ok false, s)) /\
    (forall address,
       JsMap.get id (addresses s) = Some address ->
       UserAddress.userId address <> userId ->
       deleteUserAddress id userId s = (Ok false, s)) /\
    (forall address,
       JsMap.get id (addresses s) = Some address ->
       UserAddress.userId address = userId ->
       exists s',
         deleteUserAddress id userId s = (Ok true, s') /\
         JsMap.get id (addresses s') = None /\
         (forall other, other <> id ->
            JsMap.get other (addresses s') = JsMap.get other (addresses s)) /\
         primaryOf userId s'
         = (if truthy_bool (UserAddress.isPrimary address) then []
            else primaryOf userId s) /\
         deleteUserAddress id userId s' = (Ok false, s')).
Proof.
  intros id userId s R.
  pose proof (reachableOwnerKept_inv s R) as Inv.
  pose proof (address_inv_single s Inv) as Single.
  destruct Inv as [[ND [K B]] U].
  assert (forall a, findAddress id userId s = Some a ->
                    JsMap.get id (addresses s) = Some a) as FG.
  { intros a F. apply findAddress_in in F. destruct F as (I & Ei & _).
    apply values_in in I. destruct I as [k I].
    pose proof (K _ _ I) as Ek. rewrite Ei in Ek. subst k.
    apply JsMapFacts.in_get_NoDup; assumption. }
  assert (forall a, JsMap.get id (addresses s) = Some a ->
                    UserAddress.userId a = userId ->
                    findAddress id userId s = Some a) as GF.
  { intros a G Eu. pose proof (JsMapFacts.get_Some_in _ _ _ G) as I.
    pose proof (K _ _ I) as Ei.
    destruct (findAddress id userId s) as [b|] eqn:F.
    - pose proof (FG b eq_refl) as G'. congruence.
    - exfalso. unfold findAddress in F.
      pose proof (find_none _ _ F a) as C. cbv beta in C.
      rewrite Ei, Eu, !Z.eqb_refl in C.
      assert (true && true = false) by
        (apply C; apply values_in; exists id; exact I).
      discriminate. }
  split; [|split].
  - intros G. rewrite deleteUserAddress_run.
    destruct (findAddress id userId s) as [a|] eqn:F; [|reflexivity].
    rewrite (FG a eq_refl) in G. discriminate.
  - intros address G N. rewrite deleteUserAddress_run.
    destruct (findAddress id userId s) as [a|] eqn:F; [|reflexivity].
    pose proof (FG a eq_refl) as G'. rewrite G in G'. injection G' as <-.
    apply findAddress_in in F. tauto.
  - intros address G Eu.
    pose proof (GF _ G Eu) as F.
    exists (with_addresses (JsMap.delete id (addresses s)) s).
    assert (findAddress id userId
              (with_addresses (JsMap.delete id (addresses s)) s) = None) as F'.
    { destruct (findAddress id userId (with_addresses _ s)) as [b|] eqn:Fb;
        [|reflexivity].
      apply findAddress_in in Fb. destruct Fb as (I & Ei & _).
      rewrite addresses_with_addresses in I.
      rewrite (values_delete_keyed _ _ K) in I.
      apply filter_In in I. destruct I as [_ C].
      rewrite Ei, Z.eqb_refl in C. discriminate. }
    split.
    { rewrite deleteUserAddress_run, F. unfold JsMap.has. rewrite G.
      reflexivity. }
    split.
    { rewrite addresses_with_addresses. apply JsMapFacts.get_delete_same. }
    split.
    { intros other N. rewrite addresses_with_addresses.
      apply JsMapFacts.get_delete_other. congruence. }
    split.
    { unfold primaryOf at 1. rewrite addresses_with_addresses.
      rewrite (values_delete_keyed _ _ K). rewrite filter_filter_comm.
      fold (primaryOf userId s).
      assert (In address (JsMap.values (addresses s))) as Ia.
      { apply values_in. exists id. apply JsMapFacts.get_Some_in. exact G. }
      assert (UserAddress.id address = id) as Ei.
      { apply K. apply JsMapFacts.get_Some_in. exact G. }
      destruct (truthy_bool (UserAddress.isPrimary address)) eqn:P.
      - assert (In address (primaryOf userId s)) as Ip.
        { unfold primaryOf. apply filter_In. split; [exact Ia|].
          rewrite Eu, Z.eqb_refl, P. reflexivity. }
        rewrite (singleton_of _ _ (Single userId) Ip). simpl.
        rewrite Ei, Z.eqb_refl. reflexivity.
      - apply forallb_filter_id. apply forallb_forall. intros p Ip.
        unfold primaryOf in Ip. apply filter_In in Ip. destruct Ip as [Iv C].
        apply andb_true_iff in C. destruct C as [_ Pp].
        destruct (UserAddress.id p =? id) eqn:E; [|reflexivity].
        apply Z.eqb_eq in E. exfalso.
        apply values_in in Iv. destruct Iv as [k Iv].
        pose proof (K _ _ Iv) as Ek. rewrite E in Ek. subst k.
        apply JsMapFacts.in_get_NoDup in Iv; [|exact ND].
        rewrite G in Iv. injection Iv as <-. congruence. }
    rewrite deleteUserAddress_run, F'. reflexivity.
Qed.

(** The only address of user 1, a primary one, is deleted. *)
Lemma deleteUserAddress_spec_witness :
  let home :=
    InsertUserAddress.mk 1 "1 Main Road" None "Ambala" "Haryana" "134003"
      None (Some true) None None in
  let s := exec (CreateUserAddress 0 home) (newMemStorage 0) in
  primaryOf 1 s = [newAddressOf 0 home (newMemStorage 0)] /\
  exists s',
    deleteUserAddress 1 1 s = (Ok true, s') /\ primaryOf 1 s' = [].
Proof.
  intros home s.
  assert (reachableOwnerKept s) as R.
  { apply reachableOwnerKept_call; [exact I|]. apply reachableOwnerKept_new. }
  destruct (deleteUserAddress_spec 1 1 s R) as (_ & _ & D).
  destruct (D (newAddressOf 0 home (newMemStorage 0)) eq_refl eq_refl)
    as (s' & E & _ & _ & P & _).
  split; [reflexivity|]. exists s'. split; [exact E | exact P].
Defined.

(** ** [DatabaseStorage]: a registration from start to end *)

Lemma db_createPendingUser_run now email token expiry db :
  selectWhere (fun row => String.eqb (User.email row) email)
    (Database.users db) = [] ->
  DatabaseStorage.createPendingUser now email token expiry db
  = (Ok (PendingUser.mk email (Some token) (Some (DateAt expiry)) None),
     Database.with_users
       (Database.users db
        ++ [User.mk (Database.users_id_seq db) email
              DatabaseStorage.PENDING_REGISTRATION None (Some "") None None
              (Some token) (Some expiry) (Some false) (Some false)
              (Some false) (Some now)])
       (Database.users_id_seq db + 1) db).
Proof.
  intros E. unfold DatabaseStorage.createPendingUser.
  rewrite (bind_ok _ _ _ _ _ (db_getUserByEmail_run email db)).
  rewrite E. reflexivity.
Qed.

(** Registration on [DatabaseStorage], and where it parts from
    [MemStorage]: for an email no row has, the code stored by
    [createPendingUser] is accepted by [verifyEmailToken] up to its
    expiry, and [completeUserRegistration] turns the pending row into the
    user, which [getUserByEmail] then returns.  That user keeps the id and
    the creation time of the pending row and has [isAdmin = false]
    whatever the email, whereas [MemStorage.completeUserRegistration]
    builds the user at completion and makes the user of the
    administrator's email an administrator. *)
Theorem db_registration_round_trip :
  forall (now now' : Z) (email token password : string) (expiry : Z)
         (db : Database.t),
    result_of (DatabaseStorage.getUserByEmail email) db = Ok None ->
    token <> "" ->
    now' <= expiry ->
    let db1 :=
      state_after (DatabaseStorage.createPendingUser now email token expiry)
        db in
    let registered := registeredRow now email password db in
    result_of (DatabaseStorage.verifyEmailToken now' email token) db1
    = Ok true /\
    (exists db2,
       DatabaseStorage.completeUserRegistration email password db1
       = (Ok (Some registered), db2) /\
       Database.users db2 = Database.users db ++ [registered] /\
       result_of (DatabaseStorage.getUserByEmail email) db2
       = Ok (Some registered)) /\
    User.isAdmin registered = Some false /\
    (forall at_ s pending,
       JsMap.get email (pendingUsers s) = Some pending ->
       exists user s',
         completeUserRegistration at_ email password s = (Ok user, s') /\
         User.isAdmin user = Some (String.eqb email ADMIN_EMAIL) /\
         User.createdAt user = Some at_).
Proof.
  intros now now' email token password expiry db F NE T db1 registered.
  assert (selectWhere (fun row => String.eqb (User.email row) email)
            (Database.users db) = []) as E.
  { apply firstRow_none_nil. unfold result_of in F.
    rewrite db_getUserByEmail_run in F. cbn [fst] in F. congruence. }
  pose (row := User.mk (Database.users_id_seq db) email
                 DatabaseStorage.PENDING_REGISTRATION None (Some "") None None
                 (Some token) (Some expiry) (Some false) (Some false)
                 (Some false) (Some now)).
  assert (db1 = Database.with_users (Database.users db ++ [row])
                  (Database.users_id_seq db + 1) db) as D1.
  { unfold db1, state_after. rewrite (db_createPendingUser_run _ _ _ _ _ E).
    reflexivity. }
  assert (pendingRow email db1 = Some row) as P1.
  { rewrite D1. unfold pendingRow, selectWhere. destruct db. simpl in *.
    rewrite filter_app. rewrite (filter_and_nil _ _ _ E). simpl.
    rewrite !string_eqb_refl. reflexivity. }
  assert (Database.users db1 = Database.users db ++ [row]) as U1
    by (rewrite D1; destruct db; reflexivity).
  assert (updateWhere (fun r => String.eqb (User.email r) email)
            (DatabaseStorage.completed password) (Database.users db1)
          = Database.users db ++ [registered]) as Up.
  { rewrite U1. unfold updateWhere. rewrite map_app.
    destruct (updateWhere_none (fun r => String.eqb (User.email r) email)
                (DatabaseStorage.completed password) _ E) as [Same _].
    unfold updateWhere in Same. rewrite Same. simpl.
    rewrite string_eqb_refl. reflexivity. }
  assert (updatedRows (fun r => String.eqb (User.email r) email)
            (DatabaseStorage.completed password) (Database.users db1)
          = [registered]) as Ur.
  { rewrite U1. unfold updatedRows. rewrite filter_app.
    unfold selectWhere in E. rewrite E. simpl. rewrite string_eqb_refl.
    reflexivity. }
  split.
  { unfold result_of. rewrite db_verifyEmailToken_run, P1. cbn [fst option_map].
    f_equal. apply tokenVerdict_true_iff.
    eexists. exists (DateAt expiry). split; [reflexivity|]. simpl. auto. }
  split.
  { eexists. split; [|split].
    - rewrite (db_completeUserRegistration_run _ _ _ _ P1). rewrite Ur, Up.
      reflexivity.
    - reflexivity.
    - unfold result_of. rewrite db_getUserByEmail_run. cbn [fst]. simpl.
      unfold selectWhere in *. rewrite filter_app, E. simpl.
      rewrite string_eqb_refl. reflexivity. }
  split; [reflexivity|].
  intros at_ s pending G.
  destruct (completeUserRegistration_present at_ email password s pending G)
    as (s' & C & _).
  exists (completedUser at_ email password s), s'.
  split; [exact C|]. split; reflexivity.
Qed.

(** The administrator registers on an empty database, and on a storage
    that holds the pending record. *)
Lemma db_registration_round_trip_witness :
  let db1 :=
    state_after
      (DatabaseStorage.createPendingUser 0 ADMIN_EMAIL "0A1B2C" 1800000)
      Database.empty in
  (exists user db2,
     DatabaseStorage.completeUserRegistration ADMIN_EMAIL "secret99" db1
     = (Ok (Some user), db2) /\ User.isAdmin user = Some false) /\
  (exists user s',
     completeUserRegistration 5 ADMIN_EMAIL "secret99"
       (with_pendingUsers
          [(ADMIN_EMAIL,
            PendingUser.mk ADMIN_EMAIL (Some "0A1B2C")
              (Some (DateAt 1800000)) None)]
          emptyStorage)
     = (Ok user, s') /\ User.isAdmin user = Some true).
Proof.
  intros db1.
  destruct (db_registration_round_trip 0 5 ADMIN_EMAIL "0A1B2C" "secret99"
              1800000 Database.empty eq_refl
              ltac:(discriminate) ltac:(vm_compute; discriminate))
    as (_ & (db2 & C & _) & A & M).
  split.
  - eexists. exists db2. split; [exact C | exact A].
  - destruct (M 5 (with_pendingUsers
                     [(ADMIN_EMAIL,
                       PendingUser.mk ADMIN_EMAIL (Some "0A1B2C")
                         (Some (DateAt 1800000)) None)] emptyStorage)
                _ eq_refl) as (user & s' & E & Ad & _).
    exists user, s'. split; [exact E | exact Ad].
Defined.

(** ** Writing a log entry by hand *)

(** [createInventoryLog] in a reachable storage: the entry gets the next
    log id, which no stored entry has, and is appended after the stored
    entries, stamped with the current time; an empty note is stored as
    [null].  The product id is not looked up and no product changes: an
    entry can name a product that does not exist, and its quantity is not
    applied to the stock. *)
Theorem createInventoryLog_spec :
  forall (now : Z) (log : InsertInventoryLog.t) (s : MemStorage),
    reachable s ->
    exists entry s',
      createInventoryLog now log s = (Ok entry, s') /\
      InventoryLog.id entry = currentInventoryLogId s /\
      JsMap.get (InventoryLog.id entry) (inventoryLogs s) = None /\
      JsMap.values (inventoryLogs s')
      = JsMap.values (inventoryLogs s) ++ [entry] /\
      currentInventoryLogId s' = currentInventoryLogId s + 1 /\
      InventoryLog.productId entry = InsertInventoryLog.productId log /\
      InventoryLog.quantity entry = InsertInventoryLog.quantity log /\
      InventoryLog.timestamp entry = Some now /\
      (InsertInventoryLog.note log = Some "" ->
       InventoryLog.note entry = None) /\
      products s' = products s.
Proof.
  intros now log s R.
  assert (~ In (currentInventoryLogId s) (JsMap.keys (inventoryLogs s)))
    as Fresh.
  { intros I. apply (reachable_logs_numbered _ R) in I. lia. }
  eexists. eexists. split; [apply createInventoryLog_run|].
  split; [reflexivity|].
  split; [apply JsMapFacts.get_None_notin; exact Fresh|].
  split.
  { destruct s. simpl in *. apply JsMapFacts.values_set_fresh. exact Fresh. }
  split; [destruct s; reflexivity|].
  split; [reflexivity|]. split; [reflexivity|]. split; [reflexivity|].
  split.
  { intros N. simpl. rewrite N. reflexivity. }
  destruct s; reflexivity.
Qed.

(** An entry for a product that a new storage does not hold. *)
Lemma createInventoryLog_spec_witness :
  let s := newMemStorage 0 in
  JsMap.get 99 (products s) = None /\
  exists entry s',
    createInventoryLog 5 (InsertInventoryLog.mk 99 (-4) "remove" (Some "")) s
    = (Ok entry, s') /\
    InventoryLog.note entry = None /\
    products s' = products s.
Proof.
  intros s. split; [reflexivity|].
  destruct (createInventoryLog_spec 5
              (InsertInventoryLog.mk 99 (-4) "remove" (Some "")) s
              (reachable_new 0))
    as (entry & s' & E & _ & _ & _ & _ & _ & _ & _ & N & P).
  exists entry, s'. split; [exact E|]. split; [apply N; reflexivity | exact P].
Defined.

(** ** A suspension and the sessions that are open *)

(** Suspending a user does not end the user's session: the session that
    [login] opened before [toggleUserSuspension] still passes
    [isAuthenticated] afterwards, so that the stock route answers 200 to
    it, although a new [login] of that user is answered 403. *)
Theorem suspension_keeps_session :
  forall (isEmail : string -> bool) (now : Z) (email : string)
         (productId quantity : Z) (s : MemStorage) (user : User.t)
         (product : Product.t),
    isEmail email = true ->
    users_keyed s ->
    result_of (getUserByEmail email) s = Ok (Some user) ->
    truthy_bool (User.isSuspended user) = false ->
    JsMap.get productId (products s) = Some product ->
    let opened :=
      login isEmail (Some email) (Some (User.password user)) None s in
    let s1 :=
      state_after (toggleUserSuspension (User.id user)) (storage opened) in
    session opened = Some (SessionUser.mk (User.id user) email) /\
    isAuthenticated (session opened) = true /\
    response (login isEmail (Some email) (Some (User.password user)) None s1)
    = mkResponse 403
        (JMessage "Your account has been suspended. Please contact support.") /\
    response
      (putStock now (Int productId) (Int quantity) (session opened) s1)
    = mkResponse 200 (JProduct (restocked product quantity)).
Proof.
  intros isEmail now email productId quantity s user product
    V K F NS G opened s1.
  apply getUserByEmail_some in F. fold (hasEmail email) in F.
  destruct (users_keyed_found _ _ _ K F) as [Gu Em].
  assert (opened
          = mkReply (mkResponse 200 (JUser email (User.isAdmin user)))
              (Some (SessionUser.mk (User.id user) email)) s) as O.
  { unfold opened. rewrite (login_found _ _ _ _ _ _ V F).
    rewrite string_eqb_refl, NS, Em. reflexivity. }
  pose (u1 :=
          mergeUser user
            (UserUpdates.mk None None None None None None None None None None
               None (Some (Some (negb (truthy_bool (User.isSuspended user)))))
               None)).
  assert (s1 = with_users (JsMap.set (User.id user) u1 (users s)) s) as S1.
  { unfold s1, state_after. rewrite O. cbn [storage].
    rewrite (toggleUserSuspension_run _ _ _ Gu).
    rewrite (updateUser_run _ _ _ _ Gu). reflexivity. }
  assert (find (hasEmail email) (JsMap.values (users s1)) = Some u1) as F1.
  { rewrite S1, users_with_users. apply find_after_update; auto. }
  split; [rewrite O; reflexivity|].
  split; [rewrite O; reflexivity|].
  split.
  { rewrite (login_found _ _ _ _ _ _ V F1).
    replace (User.password u1) with (User.password user)
      by (destruct user; reflexivity).
    change (User.isSuspended u1)
      with (Some (negb (truthy_bool (User.isSuspended user)))).
    rewrite string_eqb_refl, NS. reflexivity. }
  rewrite O. cbn [session].
  assert (JsMap.get productId (products s1) = Some product) as G1.
  { rewrite S1. destruct s; exact G. }
  rewrite (putStock_numeric _ _ _ _ _ _ G1). reflexivity.
Qed.

(** The administrator of a new storage logs in, is suspended, and adds
    three shirts to the stock. *)
Lemma suspension_keeps_session_witness :
  let s := newMemStorage 0 in
  let opened := login (fun _ => true) (Some ADMIN_EMAIL) (Some "admin123") None s in
  let s1 := state_after (toggleUserSuspension 1) (storage opened) in
  status (response (login (fun _ => true) (Some ADMIN_EMAIL) (Some "admin123")
                      None s1)) = 403 /\
  status (response (putStock 5 (Int 1) (Int 3) (session opened) s1)) = 200.
Proof.
  intros s opened s1.
  destruct (suspension_keeps_session (fun _ => true) 5 ADMIN_EMAIL 1 3 s _ _
              eq_refl (users_keyed_new 0) eq_refl eq_refl eq_refl)
    as (_ & _ & L & P).
  split.
  - exact (f_equal status L).
  - exact (f_equal status P).
Defined.

(** ** Registration: complete, on both storages *)

Lemma users_numbered_update s id old v :
  users_numbered s ->
  JsMap.get id (users s) = Some old ->
  users_numbered (with_users (JsMap.set id v (users s)) s).
Proof.
  intros N G k I. rewrite users_with_users in I.
  replace (currentIds (with_users (JsMap.set id v (users s)) s))
    with (currentIds s) by (destruct s; reflexivity).
  apply JsMapFacts.in_keys_set in I. destruct I as [->|I]; [|apply N; exact I].
  apply N. apply in_map_iff. exists (id, old).
  split; [reflexivity|]. apply JsMapFacts.get_Some_in. exact G.
Qed.

Lemma reachable_users_numbered s : reachable s -> users_numbered s.
Proof.
  induction 1 as [now|c s R IH].
  - intros k I. vm_compute in I. destruct I as [<-|[]]. reflexivity.
  - pose proof (exec_frame_users c s) as F.
    destruct c;
      try (match type of F with
           | _ /\ _ =>
               destruct F as (F1 & F2 & _); unfold users_numbered;
               rewrite F1, F2; exact IH
           end).
    + intros k I. unfold exec, state_after in *.
      unfold createUser, next_user_id, bind, gets, modify, ret in *.
      destruct s. simpl in *.
      apply JsMapFacts.in_keys_set in I. destruct I as [->|I]; [lia|].
      specialize (IH k I). simpl in IH. lia.
    + destruct (exec_createPendingUser email verificationToken tokenExpiry s)
        as [E|E]; rewrite E; [exact IH|].
      intros k I. destruct s. exact (IH k I).
    + destruct (JsMap.get email (pendingUsers s)) as [pending|] eqn:G.
      * destruct (completeUserRegistration_state now email password s _ G)
          as (Us & Cs & _).
        intros k I. rewrite Us in I. rewrite Cs.
        apply JsMapFacts.in_keys_set in I. destruct I as [->|I]; [lia|].
        apply IH in I. lia.
      * unfold exec, state_after.
        rewrite (completeUserRegistration_missing _ _ _ _ G). exact IH.
    + rewrite exec_updateUser.
      destruct (JsMap.get id (users s)) eqn:G; [|exact IH].
      apply (users_numbered_update _ _ _ _ IH G).
    + destruct (exec_toggleUserSuspension id s) as (u & _ & E). rewrite E.
      rewrite exec_updateUser.
      destruct (JsMap.get id (users s)) eqn:G; [|exact IH].
      apply (users_numbered_update _ _ _ _ IH G).
    + destruct (exec_toggleUserAdmin id s) as (u & _ & E). rewrite E.
      rewrite exec_updateUser.
      destruct (JsMap.get id (users s)) eqn:G; [|exact IH].
      apply (users_numbered_update _ _ _ _ IH G).
Qed.

(** C2 -- [completeUserRegistration], on both storages: a slip of
    [DatabaseStorage].

    [MemStorage.completeUserRegistration(email, password)] succeeds
    exactly when a pending record exists for the email, whatever token
    and expiry that record holds.  On success it returns a user with the
    given email and password and [isVerified = true], numbered by the
    counter, which it advances, and stored under that number -- in a
    reachable storage a number that no user has, so that the user is
    added after the stored users and none of them is replaced -- and it
    removes the pending record of that email and no other, so that
    another call for the same email throws "No pending registration found
    for this email".  When no pending record exists it throws that error
    and leaves the storage, and so the users, unchanged.

    [DatabaseStorage] marks a pending registration by the password
    ["PENDING_REGISTRATION"] and completes it by overwriting the password.
    When the user chooses that very string as password, the completed row
    is still read as pending: a second [completeUserRegistration] for the
    email returns the user again instead of throwing. *)
Theorem completeUserRegistration_spec :
  (forall (now : Z) (email password : string) (s : MemStorage),
     ((exists user s',
         completeUserRegistration now email password s = (Ok user, s')) <->
      exists pending, JsMap.get email (pendingUsers s) = Some pending) /\
     (forall pending,
        JsMap.get email (pendingUsers s) = Some pending ->
        exists user s',
          completeUserRegistration now email password s = (Ok user, s') /\
          User.email user = email /\
          User.password user = password /\
          User.isVerified user = Some true /\
          User.id user = CurrentIds.user (currentIds s) /\
          CurrentIds.user (currentIds s') = User.id user + 1 /\
          users s' = JsMap.set (User.id user) user (users s) /\
          pendingUsers s' = JsMap.delete email (pendingUsers s) /\
          (reachable s ->
           JsMap.get (User.id user) (users s) = None /\
           JsMap.values (users s') = JsMap.values (users s) ++ [user]) /\
          JsMap.get (User.id user) (users s') = Some user /\
          JsMap.get email (pendingUsers s') = None /\
          forall now' password',
            completeUserRegistration now' email password' s'
            = (Throw NO_PENDING, s')) /\
     (JsMap.get email (pendingUsers s) = None ->
      completeUserRegistration now email password s = (Throw NO_PENDING, s))) /\
  (let db1 :=
     state_after
       (DatabaseStorage.createPendingUser 0 "a@b.c" "ABC123" 1800000)
       Database.empty in
   exists user db2,
     DatabaseStorage.completeUserRegistration "a@b.c" "PENDING_REGISTRATION"
       db1
     = (Ok (Some user), db2) /\
     User.isVerified user = Some true /\
     User.password user = "PENDING_REGISTRATION" /\
     (exists pending,
        DatabaseStorage.getPendingUserByEmail "a@b.c" db2
        = (Ok (Some pending), db2)) /\
     DatabaseStorage.completeUserRegistration "a@b.c" "PENDING_REGISTRATION"
       db2
     = (Ok (Some user), db2)).
Proof.
  split.
  - intros now email password s.
    assert (P : forall pending,
         JsMap.get email (pendingUsers s) = Some pending ->
         exists user s',
           completeUserRegistration now email password s = (Ok user, s') /\
           User.email user = email /\
           User.password user = password /\
           User.isVerified user = Some true /\
           User.id user = CurrentIds.user (currentIds s) /\
           CurrentIds.user (currentIds s') = User.id user + 1 /\
           users s' = JsMap.set (User.id user) user (users s) /\
           pendingUsers s' = JsMap.delete email (pendingUsers s) /\
           (reachable s ->
            JsMap.get (User.id user) (users s) = None /\
            JsMap.values (users s') = JsMap.values (users s) ++ [user]) /\
           JsMap.get (User.id user) (users s') = Some user /\
           JsMap.get email (pendingUsers s') = None /\
           forall now' password',
             completeUserRegistration now' email password' s'
             = (Throw NO_PENDING, s')).
    { intros pending G.
      destruct (completeUserRegistration_present now email password s pending G)
        as (s' & E & U & Q).
      exists (completedUser now email password s), s'.
      split; [exact E|].
      split; [reflexivity|]. split; [reflexivity|]. split; [reflexivity|].
      split; [reflexivity|].
      split.
      { destruct (completeUserRegistration_state now email password s pending
                    G) as (_ & Cs & _).
        unfold exec, state_after in Cs. rewrite E in Cs. exact Cs. }
      split; [exact U|]. split; [exact Q|].
      split.
      { intros R.
        assert (~ In (CurrentIds.user (currentIds s)) (JsMap.keys (users s)))
          as Fresh.
        { intros I. apply (reachable_users_numbered _ R) in I. lia. }
        split.
        - apply JsMapFacts.get_None_notin. exact Fresh.
        - rewrite U. apply JsMapFacts.values_set_fresh. exact Fresh. }
      split; [rewrite U; simpl; apply JsMapFacts.get_set_same|].
      split; [rewrite Q; apply JsMapFacts.get_delete_same|].
      intros now' password'. apply completeUserRegistration_missing.
      rewrite Q. apply JsMapFacts.get_delete_same. }
    split; [|split].
    + split.
      * intros (user & s' & E).
        destruct (JsMap.get email (pendingUsers s)) as [p|] eqn:G; [eauto|].
        rewrite (completeUserRegistration_missing _ _ _ _ G) in E.
        discriminate.
      * intros (pending & G). destruct (P pending G) as (u & s' & E & _).
        eauto.
    + exact P.
    + apply completeUserRegistration_missing.
  - intros db1. eexists. eexists.
    split; [vm_compute; reflexivity|].
    split; [reflexivity|]. split; [reflexivity|].
    split; [eexists; vm_compute; reflexivity|].
    vm_compute. reflexivity.
Qed.

(** ** Registration: verify, on both storages *)

Lemma verifyEmailToken_false_unless now email token s :
  result_of (verifyEmailToken now email token) s <> Ok true ->
  result_of (verifyEmailToken now email token) s = Ok false.
Proof.
  destruct (verifyEmailToken_returns now email token s) as [[|] E];
    unfold result_of; rewrite E; simpl; congruence.
Qed.

Lemma db_verifyEmailToken_false_unless now email token db :
  result_of (DatabaseStorage.verifyEmailToken now email token) db <> Ok true ->
  result_of (DatabaseStorage.verifyEmailToken now email token) db = Ok false.
Proof.
  unfold result_of. rewrite db_verifyEmailToken_run. simpl.
  destruct (tokenVerdict _ _ _); congruence.
Qed.

Lemma db_pendingRow_created now email token expiry db :
  result_of (DatabaseStorage.getUserByEmail email) db = Ok None ->
  pendingRow email
    (state_after (DatabaseStorage.createPendingUser now email token expiry) db)
  = Some (User.mk (Database.users_id_seq db) email
            DatabaseStorage.PENDING_REGISTRATION None (Some "") None None
            (Some token) (Some expiry) (Some false) (Some false)
            (Some false) (Some now)).
Proof.
  intros F.
  assert (selectWhere (fun row => String.eqb (User.email row) email)
            (Database.users db) = []) as E.
  { apply firstRow_none_nil. unfold result_of in F.
    rewrite db_getUserByEmail_run in F. cbn [fst] in F. congruence. }
  unfold state_after. rewrite (db_createPendingUser_run _ _ _ _ _ E).
  unfold pendingRow, selectWhere. destruct db. simpl in *.
  rewrite filter_app. rewrite (filter_and_nil _ _ _ E). simpl.
  rewrite !string_eqb_refl. reflexivity.
Qed.

(** C3 (amended) -- [verifyEmailToken], on both storages.  On
    [MemStorage] it answers [true] exactly when a pending record exists
    for the email, its stored token is not empty and equals the input
    token, and the current time is not after the stored expiry: at or
    before an expiry that is a valid date, and at every time when the
    stored expiry is an Invalid Date.  At any time after a valid expiry it
    answers [false]; and right after a registration init, at any time up
    to the expiry, it answers [true] on the issued code and [false] on
    every other code.  On [DatabaseStorage], whose rows hold valid dates,
    it answers [true] exactly when the pending row of the email has a
    token that is not empty and equals the input token and the current
    time is at or before the row's expiry; at any time after the expiry it
    answers [false]; and right after [createPendingUser] stored a
    non-empty code for an email no row has, at any time up to the expiry,
    it answers [true] on that code and [false] on every other code. *)
Theorem verifyEmailToken_spec :
  forall (now : Z) (email token : string),
    (forall s : MemStorage,
       (result_of (verifyEmailToken now email token) s = Ok true <->
        exists pending expiry,
          JsMap.get email (pendingUsers s) = Some pending /\
          PendingUser.verificationToken pending = Some token /\
          token <> "" /\
          PendingUser.verificationTokenExpiry pending = Some expiry /\
          notAfter now expiry) /\
       (forall pending time,
          JsMap.get email (pendingUsers s) = Some pending ->
          PendingUser.verificationTokenExpiry pending = Some (DateAt time) ->
          time < now ->
          result_of (verifyEmailToken now email token) s = Ok false) /\
       (forall pending,
          JsMap.get email (pendingUsers s) = Some pending ->
          PendingUser.verificationToken pending = Some token ->
          token <> "" ->
          PendingUser.verificationTokenExpiry pending = Some InvalidDate ->
          result_of (verifyEmailToken now email token) s = Ok true) /\
       (forall isEmail b0 b1 b2 issuedAt delivery sess,
          isEmail email = true ->
          result_of (getUserByEmail email) s = Ok None ->
          now <= tokenExpiryAt issuedAt ->
          let s' :=
            storage
              (registerInit isEmail [b0; b1; b2] issuedAt delivery
                 (Some email) sess s) in
          result_of
            (verifyEmailToken now email (verificationCode [b0; b1; b2])) s'
          = Ok true /\
          (token <> verificationCode [b0; b1; b2] ->
           result_of (verifyEmailToken now email token) s' = Ok false))) /\
    (forall db : Database.t,
       (result_of (DatabaseStorage.verifyEmailToken now email token) db
        = Ok true <->
        exists row expiry,
          pendingRow email db = Some row /\
          User.verificationToken row = Some token /\
          token <> "" /\
          User.verificationTokenExpiry row = Some expiry /\
          now <= expiry) /\
       (forall row expiry,
          pendingRow email db = Some row ->
          User.verificationTokenExpiry row = Some expiry ->
          expiry < now ->
          result_of (DatabaseStorage.verifyEmailToken now email token) db
          = Ok false) /\
       (forall issuedAt code expiry,
          result_of (DatabaseStorage.getUserByEmail email) db = Ok None ->
          code <> "" ->
          now <= expiry ->
          let db' :=
            state_after
              (DatabaseStorage.createPendingUser issuedAt email code expiry)
              db in
          result_of (DatabaseStorage.verifyEmailToken now email code) db'
          = Ok true /\
          (token <> code ->
           result_of (DatabaseStorage.verifyEmailToken now email token) db'
           = Ok false))).
Proof.
  intros now email token. split.
  - intros s. split; [apply verifyEmailToken_true_iff|]. split; [|split].
    + intros pending time G X L. apply verifyEmailToken_false_unless.
      intros T. apply verifyEmailToken_true_iff in T.
      destruct T as (q & e & G' & _ & _ & X' & L').
      rewrite G in G'. injection G' as <-. rewrite X in X'.
      injection X' as <-. simpl in L'. lia.
    + intros pending G T N X. apply verifyEmailToken_true_iff.
      exists pending, InvalidDate. simpl. auto.
    + intros isEmail b0 b1 b2 issuedAt delivery sess V F L s'.
      apply getUserByEmail_none in F.
      assert (G : JsMap.get email (pendingUsers s')
                  = Some (PendingUser.mk email
                            (Some (verificationCode [b0; b1; b2]))
                            (Some (DateAt (tokenExpiryAt issuedAt))) None)).
      { unfold s'. rewrite (registerInit_storage _ _ _ _ _ _ _ V F). simpl.
        apply JsMapFacts.get_set_same. }
      split.
      * apply verifyEmailToken_true_iff. eexists _, _.
        split; [exact G|]. simpl. repeat split; auto.
        apply verificationCode_nonempty.
      * intros N. apply verifyEmailToken_false_unless.
        intros T. apply verifyEmailToken_true_iff in T.
        destruct T as (q & e & G' & T & _).
        rewrite G in G'. injection G' as <-. simpl in T. congruence.
  - intros db. split; [apply db_verifyEmailToken_row_iff|]. split.
    + intros row expiry G X L. apply db_verifyEmailToken_false_unless.
      intros T. apply db_verifyEmailToken_row_iff in T.
      destruct T as (r & e & G' & _ & _ & X' & L').
      rewrite G in G'. injection G' as <-. rewrite X in X'.
      injection X' as <-. lia.
    + intros issuedAt code expiry F N L db'.
      pose proof (db_pendingRow_created issuedAt email code expiry db F) as G.
      fold db' in G. split.
      * apply db_verifyEmailToken_row_iff. eexists _, _.
        split; [exact G|]. simpl. auto.
      * intros D. apply db_verifyEmailToken_false_unless.
        intros T. apply db_verifyEmailToken_row_iff in T.
        destruct T as (r & e & G' & T & _).
        rewrite G in G'. injection G' as <-. simpl in T. congruence.
Qed.

(** C3, as stated, fails on an empty code and on an invalid expiry.  A
    pending record stored with the empty string as its token is present,
    its token equals the empty input token and the time is before the
    expiry, yet the check answers [false] on both storages, because
    [!pendingUser.verificationToken] rejects the empty string.  And a
    record of [MemStorage] stored with an Invalid Date as its expiry is
    accepted at every time, although no time is at or before that expiry,
    because [new Date() > expiry] is then false. *)
Lemma verifyEmailToken_empty_code_invalid_expiry :
  (let s :=
     state_after (createPendingUser "a@b.c" "" (DateAt 100))
       (newMemStorage 0) in
   JsMap.get "a@b.c" (pendingUsers s)
   = Some (PendingUser.mk "a@b.c" (Some "") (Some (DateAt 100)) None) /\
   50 <= 100 /\
   verifyEmailToken 50 "a@b.c" "" s = (Ok false, s)) /\
  (let db :=
     state_after (DatabaseStorage.createPendingUser 0 "a@b.c" "" 100)
       Database.empty in
   (exists row,
      pendingRow "a@b.c" db = Some row /\
      User.verificationToken row = Some "" /\
      User.verificationTokenExpiry row = Some 100) /\
   50 <= 100 /\
   DatabaseStorage.verifyEmailToken 50 "a@b.c" "" db = (Ok false, db)) /\
  (let s :=
     state_after (createPendingUser "a@b.c" "ABC123" InvalidDate)
       (newMemStorage 0) in
   JsMap.get "a@b.c" (pendingUsers s)
   = Some (PendingUser.mk "a@b.c" (Some "ABC123") (Some InvalidDate) None) /\
   verifyEmailToken 50 "a@b.c" "ABC123" s = (Ok true, s) /\
   verifyEmailToken (10 ^ 18) "a@b.c" "ABC123" s = (Ok true, s)).
Proof.
  split; [|split].
  - vm_compute. repeat split; discriminate.
  - split; [eexists; vm_compute; repeat split|].
    split; [lia|]. vm_compute. reflexivity.
  - vm_compute. repeat split.
Qed.
